(** * PX4Storage: the MTD-backed parameter store of AP_HAL_PX4

    A shallow embedding of [libraries/AP_HAL_PX4/Storage.cpp].  The class
    keeps a whole-region copy of the store in memory, tracks modified
    lines in a bit mask, and writes dirty lines back from a periodic timer
    callback.  Every method of the class is a computation over the object
    and the part of the operating system it talks to (the MTD device, the
    legacy file on the SD card, the descriptor table, the performance
    counters). *)

From Stdlib Require Import ZArith List Bool String Lia.
Import ListNotations.
Local Open Scope Z_scope.

(** ** Build-time constants *)

(** Modelled from the spec: [Storage.h] is not part of the sources at hand.
    It defines the region size, the line shift and the per-invocation
    write cap; [PX4_STORAGE_LINE_SIZE] and [PX4_STORAGE_NUM_LINES] are
    derived from them the way the line shift is used in [Storage.cpp]. *)
Class StorageParams : Type := {
  PX4_STORAGE_SIZE : Z;
  PX4_STORAGE_LINE_SHIFT : Z;
  PX4_STORAGE_MAX_WRITE : Z
}.

(** Modelled from the spec: a 4096-byte region in 128-byte lines (32 lines,
    one per bit of the 32-bit mask); the cap is four lines. *)
Definition px4_params : StorageParams :=
  {| PX4_STORAGE_SIZE := 4096;
     PX4_STORAGE_LINE_SHIFT := 7;
     PX4_STORAGE_MAX_WRITE := 512 |}.

Definition MTD_SIGNATURE : Z := 0x14012014.
Definition MTD_SIGNATURE_OFFSET : Z := 8192 - 4.

Inductive Path : Type :=
| MTD_PARAMS_FILE
| OLD_STORAGE_FILE.

Inductive OpenMode : Type :=
| O_RDONLY
| O_WRONLY.

(** ** Machine integers *)

Definition wrap (w x : Z) : Z := x mod 2 ^ w.
Definition u8 : Z -> Z := wrap 8.
Definition u16 : Z -> Z := wrap 16.
(** [uint32_t], and [size_t] on the 32-bit target. *)
Definition u32 : Z -> Z := wrap 32.

Definition is_u32 (x : Z) : Prop := 0 <= x < 2 ^ 32.

(** Little-endian object representation, as [memcpy] to and from an
    integer sees it on the target. *)
Fixpoint le_bytes (n : nat) (v : Z) : list Z :=
  match n with
  | O => []
  | S k => (v mod 256) :: le_bytes k (v / 256)
  end.

Fixpoint le_value (bs : list Z) : Z :=
  match bs with
  | [] => 0
  | b :: r => b + 256 * le_value r
  end.

(** ** Byte arrays *)

Definition len {A} (l : list A) : Z := Z.of_nat (List.length l).

(** The [n] bytes at offset [off]; as much as there is. *)
Definition slice (l : list Z) (off n : Z) : list Z :=
  firstn (Z.to_nat n) (skipn (Z.to_nat off) l).

(** [l] with [data] laid over it at offset [off]. *)
Definition splice (l : list Z) (off : Z) (data : list Z) : list Z :=
  firstn (Z.to_nat off) l ++ data ++ skipn (Z.to_nat off + List.length data) l.

(** Reading [n] bytes at [off] of an array; [None] when the access leaves
    the array. *)
Definition mem_read (a : list Z) (off n : Z) : option (list Z) :=
  if (0 <=? off) && (0 <=? n) && (off + n <=? len a)
  then Some (slice a off n) else None.

Definition mem_write (a : list Z) (off : Z) (data : list Z) : option (list Z) :=
  if (0 <=? off) && (off + len data <=? len a)
  then Some (splice a off data) else None.

(** ** The object and its environment *)

(** The members of the class that the methods use.  [_buffer] is the
    region, [_dirty_mask] a 32-bit mask with one bit per line (the
    [write_mask] built from it in [_timer_tick] is a [uint32_t]). *)
Record PX4Storage : Type := mkObj {
  _fd : Z;
  _initialised : bool;
  _have_mtd : bool;
  _buffer : list Z;
  _dirty_mask : Z
}.

Record OpenFile : Type := mkOpenFile {
  of_path : Path;
  of_mode : OpenMode;
  of_pos : Z
}.

Inductive Event : Type :=
| EStat (p : Path) (r : Z)
| EOpen (p : Path) (m : OpenMode) (r : Z)
| ELseek (fd off r : Z)
| ERead (fd n r : Z)
| EWrite (fd : Z) (data : list Z) (r : Z)
| EFsync (fd r : Z)
| EClose (fd : Z)
| EPrintf (msg : string)
| EPerfBegin
| EPerfEnd.

(** What the object talks to.  [mtd] is the content of the device behind
    [/fs/mtd] ([None]: no such device), [old_file] the legacy store on the
    SD card, [fds] the descriptor table, [perf_errors] the value of the
    counter behind [_perf_errors], [trace] the calls made so far, the most
    recent first. *)
Record World : Type := mkWorld {
  mtd : option (list Z);
  old_file : option (list Z);
  fds : list (Z * OpenFile);
  perf_errors : Z;
  trace : list Event
}.

Record State : Type := mkState {
  obj : PX4Storage;
  world : World
}.

Definition set_fd (v : Z) (o : PX4Storage) : PX4Storage :=
  mkObj v (_initialised o) (_have_mtd o) (_buffer o) (_dirty_mask o).
Definition set_initialised (v : bool) (o : PX4Storage) : PX4Storage :=
  mkObj (_fd o) v (_have_mtd o) (_buffer o) (_dirty_mask o).
Definition set_have_mtd (v : bool) (o : PX4Storage) : PX4Storage :=
  mkObj (_fd o) (_initialised o) v (_buffer o) (_dirty_mask o).
Definition set_buffer (v : list Z) (o : PX4Storage) : PX4Storage :=
  mkObj (_fd o) (_initialised o) (_have_mtd o) v (_dirty_mask o).
Definition set_dirty_mask (v : Z) (o : PX4Storage) : PX4Storage :=
  mkObj (_fd o) (_initialised o) (_have_mtd o) (_buffer o) v.

Definition set_mtd (v : option (list Z)) (w : World) : World :=
  mkWorld v (old_file w) (fds w) (perf_errors w) (trace w).
Definition set_fds (v : list (Z * OpenFile)) (w : World) : World :=
  mkWorld (mtd w) (old_file w) v (perf_errors w) (trace w).
Definition log (e : Event) (w : World) : World :=
  mkWorld (mtd w) (old_file w) (fds w) (perf_errors w) (e :: trace w).

(** ** Operating-system calls *)

Definition file_of (w : World) (p : Path) : option (list Z) :=
  match p with
  | MTD_PARAMS_FILE => mtd w
  | OLD_STORAGE_FILE => old_file w
  end.

Fixpoint fd_lookup (fd : Z) (t : list (Z * OpenFile)) : option OpenFile :=
  match t with
  | [] => None
  | (k, f) :: r => if k =? fd then Some f else fd_lookup fd r
  end.

Fixpoint fd_update (fd : Z) (f : OpenFile) (t : list (Z * OpenFile))
  : list (Z * OpenFile) :=
  match t with
  | [] => []
  | (k, g) :: r => if k =? fd then (k, f) :: r else (k, g) :: fd_update fd f r
  end.

Fixpoint fd_remove (fd : Z) (t : list (Z * OpenFile)) : list (Z * OpenFile) :=
  match t with
  | [] => []
  | (k, g) :: r => if k =? fd then r else (k, g) :: fd_remove fd r
  end.

(** A descriptor number above the standard streams and every open one. *)
Definition fresh_fd (t : list (Z * OpenFile)) : Z :=
  fold_right (fun e m => Z.max (fst e + 1) m) 3 t.

Definition move_to (off : Z) (f : OpenFile) : OpenFile :=
  mkOpenFile (of_path f) (of_mode f) off.

(** The calls that can fail for reasons outside the modelled state take the
    value [r] the kernel returns as an argument and have the effect that
    goes with it.  [open] enters the descriptor unless it returns -1;
    [lseek] moves the position when it returns the requested offset;
    [write] stores the first [r] bytes, as far as the device reaches. *)
Definition open_r (r : Z) (p : Path) (m : OpenMode) (w : World) : Z * World :=
  (r, log (EOpen p m r)
        (if r =? -1 then w else set_fds ((r, mkOpenFile p m 0) :: fds w) w)).

Definition lseek_r (r : Z) (fd off : Z) (w : World) : Z * World :=
  (r, log (ELseek fd off r)
        (match fd_lookup fd (fds w) with
         | Some f => if r =? off
                     then set_fds (fd_update fd (move_to off f) (fds w)) w
                     else w
         | None => w
         end)).

Definition store_at (w : World) (f : OpenFile) (fd : Z) (data : list Z) : World :=
  match of_mode f, of_path f, mtd w with
  | O_WRONLY, MTD_PARAMS_FILE, Some c =>
      set_fds (fd_update fd (move_to (of_pos f + len data) f) (fds w))
        (set_mtd (Some (splice c (of_pos f) data)) w)
  | _, _, _ => w
  end.

Definition room (w : World) (f : OpenFile) : Z :=
  match of_mode f, of_path f, mtd w with
  | O_WRONLY, MTD_PARAMS_FILE, Some c => Z.max 0 (len c - of_pos f)
  | _, _, _ => 0
  end.

Definition write_r (r : Z) (fd : Z) (data : list Z) (w : World) : Z * World :=
  (r, log (EWrite fd data r)
        (match fd_lookup fd (fds w) with
         | Some f =>
             if 0 <? r
             then store_at w f fd (firstn (Z.to_nat (Z.min r (room w f))) data)
             else w
         | None => w
         end)).

Definition fsync_r (r : Z) (fd : Z) (w : World) : Z * World :=
  (r, log (EFsync fd r) w).

(** What the calls return when nothing fails but what the files make
    fail: a missing file cannot be opened, a descriptor that is not open
    cannot be used, a device takes no more bytes than it has. *)
Definition open_result (p : Path) (w : World) : Z :=
  match file_of w p with
  | Some _ => fresh_fd (fds w)
  | None => -1
  end.

Definition lseek_result (fd off : Z) (w : World) : Z :=
  match fd_lookup fd (fds w) with
  | Some _ => if 0 <=? off then off else -1
  | None => -1
  end.

Definition write_result (fd : Z) (data : list Z) (w : World) : Z :=
  match fd_lookup fd (fds w) with
  | Some f =>
      match of_mode f, of_path f, mtd w with
      | O_WRONLY, MTD_PARAMS_FILE, Some _ => Z.min (len data) (room w f)
      | _, _, _ => -1
      end
  | None => -1
  end.

Definition sys_stat (p : Path) (w : World) : Z * World :=
  let r := match file_of w p with Some _ => 0 | None => -1 end in
  (r, log (EStat p r) w).

Definition sys_open (p : Path) (m : OpenMode) (w : World) : Z * World :=
  open_r (open_result p w) p m w.

Definition sys_lseek (fd off : Z) (w : World) : Z * World :=
  lseek_r (lseek_result fd off w) fd off w.

Definition sys_write (fd : Z) (data : list Z) (w : World) : Z * World :=
  write_r (write_result fd data w) fd data w.

(** [read] returns the count and the bytes it delivered. *)
Definition sys_read (fd n : Z) (w : World) : (Z * list Z) * World :=
  match fd_lookup fd (fds w) with
  | Some f =>
      match of_mode f, file_of w (of_path f) with
      | O_RDONLY, Some c =>
          let data := slice c (of_pos f) n in
          ((len data, data),
           log (ERead fd n (len data))
             (set_fds (fd_update fd (move_to (of_pos f + len data) f) (fds w)) w))
      | _, _ => ((-1, []), log (ERead fd n (-1)) w)
      end
  | None => ((-1, []), log (ERead fd n (-1)) w)
  end.

Definition sys_close (fd : Z) (w : World) : unit * World :=
  (tt, log (EClose fd) (set_fds (fd_remove fd (fds w)) w)).

Definition printf (msg : string) (w : World) : unit * World :=
  (tt, log (EPrintf msg) w).

Definition perf_begin (w : World) : unit * World := (tt, log EPerfBegin w).
Definition perf_end (w : World) : unit * World := (tt, log EPerfEnd w).
Definition perf_count (w : World) : unit * World :=
  (tt, mkWorld (mtd w) (old_file w) (fds w) (perf_errors w + 1) (trace w)).

(** ** Computations *)

(** A method returns, or the scheduler's [panic] ends the process, or an
    access leaves the array it was aimed at, or a loop never ends. *)
Inductive Res (A : Type) : Type :=
| Ok (a : A)
| Panic (msg : string)
| Fault
| Hang.
Arguments Ok {A} a.
Arguments Panic {A} msg.
Arguments Fault {A}.
Arguments Hang {A}.

Definition M (A : Type) : Type := State -> Res (A * State).

Definition ret {A} (a : A) : M A := fun s => Ok (a, s).

Definition bind {A B} (c : M A) (k : A -> M B) : M B :=
  fun s =>
    match c s with
    | Ok (a, s') => k a s'
    | Panic m => Panic m
    | Fault => Fault
    | Hang => Hang
    end.

Notation "x <- c ;; k" := (bind c (fun x => k))
  (at level 61, c at next level, right associativity).
Notation "c ;; k" := (bind c (fun _ => k))
  (at level 61, right associativity).

Definition get_obj : M PX4Storage := fun s => Ok (obj s, s).
Definition modify_obj (f : PX4Storage -> PX4Storage) : M unit :=
  fun s => Ok (tt, mkState (f (obj s)) (world s)).
Definition sys {A} (call : World -> A * World) : M A :=
  fun s => Ok (fst (call (world s)), mkState (obj s) (snd (call (world s)))).
Definition panic {A} (msg : string) : M A := fun _ => Panic msg.
Definition fault {A} : M A := fun _ => Fault.
Definition hang {A} : M A := fun _ => Hang.

(** [if (c) panic(msg);] *)
Definition panic_if (c : bool) (msg : string) : M unit :=
  if c then panic msg else ret tt.

(** ** The methods of [PX4Storage] *)

Section Storage.

Context {params : StorageParams}.

Definition PX4_STORAGE_LINE_SIZE : Z := Z.shiftl 1 PX4_STORAGE_LINE_SHIFT.
Definition PX4_STORAGE_NUM_LINES : Z := PX4_STORAGE_SIZE / PX4_STORAGE_LINE_SIZE.

(** [sizeof(_buffer)]: the member is [uint8_t _buffer[PX4_STORAGE_SIZE]]. *)
Definition sizeof_buffer : Z := PX4_STORAGE_SIZE.

(** The object as static initialisation and the constructor leave it. *)
Definition new_PX4Storage : PX4Storage :=
  {| _fd := -1;
     _initialised := false;
     _have_mtd := false;
     _buffer := repeat 0 (Z.to_nat PX4_STORAGE_SIZE);
     _dirty_mask := 0 |}.

Definition boot (w : World) : State := mkState new_PX4Storage w.

(** [read(fd, _buffer, n)]: the bytes delivered land at the start of
    [_buffer]. *)
Definition read_to_buffer (fd n : Z) : M Z :=
  rd <- sys (sys_read fd n) ;;
  modify_obj (fun o => set_buffer (splice (_buffer o) 0 (snd rd)) o) ;;
  ret (fst rd).

(** [&_buffer[off]] read for [n] bytes. *)
Definition buffer_read (off n : Z) : M (list Z) :=
  o <- get_obj ;;
  match mem_read (_buffer o) off n with
  | Some d => ret d
  | None => fault
  end.

(** [memcpy(&_buffer[off], src, n)] *)
Definition buffer_write (off : Z) (data : list Z) : M unit :=
  o <- get_obj ;;
  match mem_write (_buffer o) off data with
  | Some b => modify_obj (set_buffer b)
  | None => fault
  end.

Definition _mtd_signature : M Z :=
  mtd_fd <- sys (sys_open MTD_PARAMS_FILE O_RDONLY) ;;
  panic_if (mtd_fd =? -1) "Failed to open /fs/mtd" ;;
  r <- sys (sys_lseek mtd_fd MTD_SIGNATURE_OFFSET) ;;
  panic_if (negb (r =? MTD_SIGNATURE_OFFSET)) "Failed to seek in /fs/mtd" ;;
  rd <- sys (sys_read mtd_fd 4) ;;
  panic_if (negb (fst rd =? 4)) "Failed to read signature from /fs/mtd" ;;
  sys (sys_close mtd_fd) ;;
  ret (le_value (snd rd)).

Definition _mtd_write_signature : M unit :=
  mtd_fd <- sys (sys_open MTD_PARAMS_FILE O_WRONLY) ;;
  panic_if (mtd_fd =? -1) "Failed to open /fs/mtd" ;;
  let v := MTD_SIGNATURE in
  r <- sys (sys_lseek mtd_fd MTD_SIGNATURE_OFFSET) ;;
  panic_if (negb (r =? MTD_SIGNATURE_OFFSET)) "Failed to seek in /fs/mtd" ;;
  w <- sys (sys_write mtd_fd (le_bytes 4 v)) ;;
  panic_if (negb (w =? 4)) "Failed to write signature in /fs/mtd" ;;
  sys (sys_close mtd_fd).

Definition _upgrade_to_mtd : M unit :=
  old_fd <- sys (sys_open OLD_STORAGE_FILE O_RDONLY) ;;
  if old_fd =? -1 then
    sys (printf "Failed to open OLD_STORAGE_FILE")
  else
    mtd_fd <- sys (sys_open MTD_PARAMS_FILE O_WRONLY) ;;
    panic_if (mtd_fd =? -1) "Unable to open MTD for upgrade" ;;
    r <- read_to_buffer old_fd sizeof_buffer ;;
    if negb (r =? sizeof_buffer) then
      sys (sys_close old_fd) ;;
      sys (sys_close mtd_fd) ;;
      sys (printf "Failed to read OLD_STORAGE_FILE")
    else
      sys (sys_close old_fd) ;;
      data <- buffer_read 0 sizeof_buffer ;;
      w <- sys (sys_write mtd_fd data) ;;
      panic_if (negb (w =? sizeof_buffer)) "Unable to write MTD for upgrade" ;;
      sys (sys_close mtd_fd) ;;
      sys (printf "Upgraded MTD from OLD_STORAGE_FILE").

Definition _storage_open : M unit :=
  o <- get_obj ;;
  if _initialised o then ret tt
  else
    st <- sys (sys_stat MTD_PARAMS_FILE) ;;
    modify_obj (set_have_mtd (st =? 0)) ;;
    panic_if (negb (st =? 0)) "Failed to find /fs/mtd" ;;
    sig <- _mtd_signature ;;
    let good_signature := sig =? MTD_SIGNATURE in
    st <- sys (sys_stat OLD_STORAGE_FILE) ;;
    (if st =? 0 then
       if good_signature then ret tt else _upgrade_to_mtd
     else ret tt) ;;
    (if negb good_signature then _mtd_write_signature else ret tt) ;;
    modify_obj (set_dirty_mask 0) ;;
    fd <- sys (sys_open MTD_PARAMS_FILE O_RDONLY) ;;
    panic_if (fd =? -1) "Failed to open /fs/mtd" ;;
    r <- read_to_buffer fd sizeof_buffer ;;
    panic_if (negb (r =? sizeof_buffer)) "Failed to read /fs/mtd" ;;
    sys (sys_close fd) ;;
    modify_obj (set_initialised true).

(** The loop of [_mark_dirty] over the 16-bit [loc]; [None] when [fuel]
    iterations did not reach [end]. *)
Fixpoint mark_dirty_loop (fuel : nat) (mask loc end_ : Z) : option Z :=
  if loc <? end_ then
    match fuel with
    | O => None
    | S k =>
        let line := u8 (Z.shiftr loc PX4_STORAGE_LINE_SHIFT) in
        let mask := u32 (Z.lor mask (u32 (Z.shiftl 1 line))) in
        mark_dirty_loop k mask (u16 (loc + PX4_STORAGE_LINE_SIZE)) end_
    end
  else Some mask.

(** [loc] takes at most 2^16 values: a loop that has not ended after that
    many rounds is in a cycle. *)
Definition mark_dirty_fuel : nat := Z.to_nat (2 ^ 16).

Definition _mark_dirty (loc length : Z) : M unit :=
  let end_ := u16 (loc + length) in
  o <- get_obj ;;
  match mark_dirty_loop mark_dirty_fuel (_dirty_mask o) loc end_ with
  | Some m => modify_obj (set_dirty_mask m)
  | None => hang
  end.

(** *** Accessors

    [loc] is a [uint16_t]; the sizes in the range checks are [size_t], so
    the subtraction wraps at 32 bits and [loc] is compared as unsigned. *)

Definition read_byte (loc : Z) : M Z :=
  if sizeof_buffer <=? loc then ret 0
  else
    _storage_open ;;
    d <- buffer_read loc 1 ;;
    ret (le_value d).

Definition read_word (loc : Z) : M Z :=
  if u32 (sizeof_buffer - (2 - 1)) <=? loc then ret 0
  else
    _storage_open ;;
    d <- buffer_read loc 2 ;;
    ret (le_value d).

Definition read_dword (loc : Z) : M Z :=
  if u32 (sizeof_buffer - (4 - 1)) <=? loc then ret 0
  else
    _storage_open ;;
    d <- buffer_read loc 4 ;;
    ret (le_value d).

(** [dst] is the caller's array; the method returns it as it is after the
    call. *)
Definition read_block (dst : list Z) (loc n : Z) : M (list Z) :=
  if u32 (sizeof_buffer - u32 (n - 1)) <=? loc then ret dst
  else
    _storage_open ;;
    d <- buffer_read loc n ;;
    match mem_write dst 0 d with
    | Some dst' => ret dst'
    | None => fault
    end.

Definition write_byte (loc value : Z) : M unit :=
  if sizeof_buffer <=? loc then ret tt
  else
    d <- buffer_read loc 1 ;;
    if negb (le_value d =? value) then
      _storage_open ;;
      buffer_write loc [value] ;;
      _mark_dirty loc 1
    else ret tt.

(** [memcmp(a, b, n) != 0] on arrays of the same length. *)
Definition bytes_differ (a b : list Z) : bool :=
  negb (forallb (fun p => fst p =? snd p) (combine a b)).

Definition write_word (loc value : Z) : M unit :=
  if u32 (sizeof_buffer - (2 - 1)) <=? loc then ret tt
  else
    d <- buffer_read loc 2 ;;
    if bytes_differ (le_bytes 2 value) d then
      _storage_open ;;
      buffer_write loc (le_bytes 2 value) ;;
      _mark_dirty loc 2
    else ret tt.

Definition write_dword (loc value : Z) : M unit :=
  if u32 (sizeof_buffer - (4 - 1)) <=? loc then ret tt
  else
    d <- buffer_read loc 4 ;;
    if bytes_differ (le_bytes 4 value) d then
      _storage_open ;;
      buffer_write loc (le_bytes 4 value) ;;
      _mark_dirty loc 4
    else ret tt.

(** [src] holds the [n] bytes the caller passes. *)
Definition write_block (loc : Z) (src : list Z) (n : Z) : M unit :=
  if u32 (sizeof_buffer - u32 (n - 1)) <=? loc then ret tt
  else
    d <- buffer_read loc n ;;
    if bytes_differ (slice src 0 n) d then
      _storage_open ;;
      buffer_write loc (slice src 0 n) ;;
      _mark_dirty loc (u16 n)
    else ret tt.

(** *** The timer callback *)

(** [_storage_open] runs once, at the first access, and its calls fail as
    the files make them fail.  [_timer_tick] runs for the life of the
    process and its calls can fail at any time: an invocation takes what
    each device call returns, should it make the call, from a [TickIO]. *)
Record TickIO : Type := mkTickIO {
  io_open : Z;
  io_lseek : Z;
  io_write : Z;
  io_fsync : Z
}.

(** [_dirty_mask & (1<<i)] *)
Definition line_dirty (mask i : Z) : bool :=
  negb (Z.land mask (u32 (Z.shiftl 1 i)) =? 0).

(** [for (i=0; i<PX4_STORAGE_NUM_LINES; i++) if (...) break;] with [fuel]
    the lines still to look at. *)
Fixpoint first_dirty_from (fuel : nat) (mask i : Z) : Z :=
  match fuel with
  | O => i
  | S k => if line_dirty mask i then i else first_dirty_from k mask (i + 1)
  end.

Definition first_dirty (mask : Z) : Z :=
  first_dirty_from (Z.to_nat PX4_STORAGE_NUM_LINES) mask 0.

(** The second loop: [n] and [write_mask] when it ends; [fuel] is the
    number of lines after line [i + n - 1]. *)
Fixpoint extend_run (fuel : nat) (mask i n write_mask : Z) : Z * Z :=
  match fuel with
  | O => (n, write_mask)
  | S k =>
      if (i + n <? PX4_STORAGE_NUM_LINES)
         && (n <? Z.shiftr PX4_STORAGE_MAX_WRITE PX4_STORAGE_LINE_SHIFT)
      then
        if negb (line_dirty mask (n + i)) then (n, write_mask)
        else extend_run k mask i (n + 1)
               (u32 (Z.lor write_mask (u32 (Z.shiftl 1 (n + i)))))
      else (n, write_mask)
  end.

Definition dirty_run (mask i : Z) : Z * Z :=
  extend_run (Z.to_nat (PX4_STORAGE_NUM_LINES - (i + 1))) mask i 1
    (u32 (Z.shiftl 1 i)).

Definition close_fd_on_error : M unit :=
  o <- get_obj ;;
  sys (sys_close (_fd o)) ;;
  modify_obj (set_fd (-1)) ;;
  sys perf_count.

Definition _timer_tick (io : TickIO) : M unit :=
  o <- get_obj ;;
  if negb (_initialised o) || (_dirty_mask o =? 0) then ret tt
  else
    sys perf_begin ;;
    have_fd <-
      (if _fd o =? -1 then
         fd <- sys (open_r (io_open io) MTD_PARAMS_FILE O_WRONLY) ;;
         modify_obj (set_fd fd) ;;
         ret (negb (fd =? -1))
       else ret true) ;;
    if negb have_fd then
      sys perf_end ;;
      sys perf_count
    else
      let i := first_dirty (_dirty_mask o) in
      if i =? PX4_STORAGE_NUM_LINES then
        sys perf_end ;;
        sys perf_count
      else
        let (n, write_mask) := dirty_run (_dirty_mask o) i in
        let off := Z.shiftl i PX4_STORAGE_LINE_SHIFT in
        let count := Z.shiftl n PX4_STORAGE_LINE_SHIFT in
        o <- get_obj ;;
        r <- sys (lseek_r (io_lseek io) (_fd o) off) ;;
        (if r =? off then
           modify_obj (fun o =>
             set_dirty_mask (Z.land (_dirty_mask o) (u32 (Z.lnot write_mask))) o) ;;
           data <- buffer_read off count ;;
           w <- sys (write_r (io_write io) (_fd o) data) ;;
           (if negb (w =? count) then
              modify_obj (fun o =>
                set_dirty_mask (Z.lor (_dirty_mask o) write_mask) o) ;;
              close_fd_on_error
            else ret tt) ;;
           o <- get_obj ;;
           (if _dirty_mask o =? 0 then
              f <- sys (fsync_r (io_fsync io) (_fd o)) ;;
              if negb (f =? 0) then close_fd_on_error else ret tt
            else ret tt)
         else ret tt) ;;
        sys perf_end.

End Storage.

(** ** Observations *)

Section Observations.

Context {params : StorageParams}.

(** What the code needs of the constants of [Storage.h]: lines are a power
    of two, there is a line and every line has its bit in the 32-bit
    mask, a [uint16_t] can step one line past the region, and the write
    cap admits a line. *)
Record params_ok : Prop := {
  shift_nonneg : 0 <= PX4_STORAGE_LINE_SHIFT;
  lines_fit_mask : 0 < PX4_STORAGE_NUM_LINES <= 32;
  region_fits_u16 : PX4_STORAGE_SIZE + PX4_STORAGE_LINE_SIZE <= 2 ^ 16;
  cap_admits_line : PX4_STORAGE_LINE_SIZE <= PX4_STORAGE_MAX_WRITE
}.

(** The object's members hold values of their types. *)
Record wf_state (s : State) : Prop := {
  buffer_size : len (_buffer (obj s)) = PX4_STORAGE_SIZE;
  mask_u32 : is_u32 (_dirty_mask (obj s))
}.

(** Bits [i .. i+n-1]. *)
Definition in_run (i n j : Z) : Prop := i <= j < i + n.

Definition is_fsync (e : Event) : bool :=
  match e with EFsync _ _ => true | _ => false end.

Definition is_close (e : Event) : bool :=
  match e with EClose _ => true | _ => false end.

(** A [write] that transferred all it was given. *)
Definition is_full_write (e : Event) : bool :=
  match e with EWrite _ data r => r =? len data | _ => false end.

Definition write_size (e : Event) : Z :=
  match e with EWrite _ data _ => len data | _ => 0 end.

Definition fsync_count (evs : list Event) : nat :=
  List.length (filter is_fsync evs).

(** The bytes handed to [write]. *)
Definition bytes_to_write (evs : list Event) : Z :=
  fold_right (fun e a => write_size e + a) 0 evs.

(** The descriptor an invocation of [_timer_tick] works with: the one held,
    or the one [open] returns when none is held. *)
Definition tick_fd (io : TickIO) (s : State) : Z :=
  if _fd (obj s) =? -1 then io_open io else _fd (obj s).

(** An accessor call, as a caller of the storage interface issues it. *)
Inductive Call : Type :=
| CallReadByte (loc : Z)
| CallReadWord (loc : Z)
| CallReadDword (loc : Z)
| CallReadBlock (dst : list Z) (loc n : Z)
| CallWriteByte (loc value : Z)
| CallWriteWord (loc value : Z)
| CallWriteDword (loc value : Z)
| CallWriteBlock (loc : Z) (src : list Z) (n : Z).

Definition run_call (c : Call) : M unit :=
  match c with
  | CallReadByte loc => read_byte loc ;; ret tt
  | CallReadWord loc => read_word loc ;; ret tt
  | CallReadDword loc => read_dword loc ;; ret tt
  | CallReadBlock dst loc n => read_block dst loc n ;; ret tt
  | CallWriteByte loc v => write_byte loc v
  | CallWriteWord loc v => write_word loc v
  | CallWriteDword loc v => write_dword loc v
  | CallWriteBlock loc src n => write_block loc src n
  end.

Fixpoint run_calls (cs : list Call) : M unit :=
  match cs with
  | [] => ret tt
  | c :: r => run_call c ;; run_calls r
  end.

Definition call_loc (c : Call) : Z :=
  match c with
  | CallReadByte loc | CallReadWord loc | CallReadDword loc
  | CallReadBlock _ loc _ | CallWriteByte loc _ | CallWriteWord loc _
  | CallWriteDword loc _ | CallWriteBlock loc _ _ => loc
  end.

Definition call_size (c : Call) : Z :=
  match c with
  | CallReadByte _ | CallWriteByte _ _ => 1
  | CallReadWord _ | CallWriteWord _ _ => 2
  | CallReadDword _ | CallWriteDword _ _ => 4
  | CallReadBlock _ _ n | CallWriteBlock _ _ n => n
  end.

Definition is_read (c : Call) : bool :=
  match c with
  | CallReadByte _ | CallReadWord _ | CallReadDword _ | CallReadBlock _ _ _ => true
  | _ => false
  end.

(** The arguments are what the parameter types hold and the access lies
    inside the region. *)
Definition in_range (c : Call) : Prop :=
  0 <= call_loc c /\ 0 <= call_size c /\
  call_loc c + call_size c <= PX4_STORAGE_SIZE.

(** The access ends past the region, by no more than the bounds checks
    of the accessors can tell. *)
Definition out_of_range (c : Call) : Prop :=
  0 <= call_loc c /\ 0 <= call_size c <= PX4_STORAGE_SIZE + 1 /\
  PX4_STORAGE_SIZE < call_loc c + call_size c.

(** [_storage_open] begins its work, once past the flag, with a [stat] of
    the device: the number of those in a trace is the number of times the
    body of [_storage_open] ran. *)
Definition is_open_run (e : Event) : bool :=
  match e with EStat MTD_PARAMS_FILE _ => true | _ => false end.

Definition open_runs (s : State) : nat :=
  List.length (filter is_open_run (trace (world s))).

(** Between two states the body of [_storage_open] did not run and the
    flag did not change. *)
Definition quiet (s s' : State) : Prop :=
  open_runs s' = open_runs s /\
  _initialised (obj s') = _initialised (obj s).

(** Between two states the body of [_storage_open] ran at most once, and
    if it did, the store was not initialised before and is afterwards. *)
Definition at_most_once (s s' : State) : Prop :=
  quiet s s' \/
  (_initialised (obj s) = false /\ open_runs s' = S (open_runs s) /\
   _initialised (obj s') = true).

(** Between two states the body of [_storage_open] did not run, and the
    store is initialised in the second. *)
Definition initialises (s s' : State) : Prop :=
  open_runs s' = open_runs s /\ _initialised (obj s') = true.

(** Every returning run of [c] relates the states before and after by [R]. *)
Definition respects (R : State -> State -> Prop) {A} (c : M A) : Prop :=
  forall s a s', c s = Ok (a, s') -> R s s'.

(** A call to the operating system that is not the [stat] of the device. *)
Definition silent {A} (call : World -> A * World) : Prop :=
  forall w, filter is_open_run (trace (snd (call w)))
            = filter is_open_run (trace w).

(** The migration reads the legacy file. *)
Definition is_migration (e : Event) : bool :=
  match e with EOpen OLD_STORAGE_FILE _ _ => true | _ => false end.

(** The object once [_storage_open] has loaded the region from a
    device holding [dev]. *)
Definition loaded (o : PX4Storage) (dev : list Z) : PX4Storage :=
  {| _fd := _fd o;
     _initialised := true;
     _have_mtd := true;
     _buffer := slice dev 0 PX4_STORAGE_SIZE;
     _dirty_mask := 0 |}.

(** The signature an MTD device carries. *)
Definition signature_of (w : World) : option Z :=
  match mtd w with
  | Some dev =>
      if MTD_SIGNATURE_OFFSET + 4 <=? len dev
      then Some (le_value (slice dev MTD_SIGNATURE_OFFSET 4)) else None
  | None => None
  end.

End Observations.

(** ** Worlds to run the methods in *)

Definition blank_device : list Z := repeat 0 (Z.to_nat 8192).

(** A device with the signature in place and a 5 in its first byte. *)
Definition signed_device : list Z :=
  splice (5 :: repeat 0 (Z.to_nat 8191)) MTD_SIGNATURE_OFFSET (le_bytes 4 MTD_SIGNATURE).

Definition world_signed : World :=
  mkWorld (Some signed_device) None [] 0 [].

(** An opened store of the PX4 size with lines 0, 1, 4 and 5 dirty and no
    descriptor held. *)
Definition dirty_store : State :=
  mkState
    {| _fd := -1;
       _initialised := true;
       _have_mtd := true;
       _buffer := 1 :: repeat 0 (Z.to_nat 4095);
       _dirty_mask := 51 |}
    world_signed.

(** An unsigned device next to a legacy file of three bytes. *)
Definition world_short_legacy : World :=
  mkWorld (Some blank_device) (Some [1; 2; 3]) [] 0 [].

(** An unsigned device next to a legacy file of the region's size. *)
Definition world_full_legacy : World :=
  mkWorld (Some blank_device) (Some (repeat 9 (Z.to_nat 4096))) [] 0 [].

(** ** Further observations *)

(** The byte of the region at [p]. *)
Definition byte_at (s : State) (p : Z) : Z :=
  nth (Z.to_nat p) (_buffer (obj s)) 0.

(** [s'] is [s] with [data] stored at [loc] and possibly more lines dirty:
    nothing else of the object differs and the world is the same. *)
Definition stored (s : State) (loc : Z) (data : list Z) (s' : State) : Prop :=
  _buffer (obj s') = splice (_buffer (obj s)) loc data /\
  _fd (obj s') = _fd (obj s) /\
  _initialised (obj s') = _initialised (obj s) /\
  _have_mtd (obj s') = _have_mtd (obj s) /\
  world s' = world s.

Definition is_write (e : Event) : bool :=
  match e with EWrite _ _ _ => true | _ => false end.

Definition is_lseek (e : Event) : bool :=
  match e with ELseek _ _ _ => true | _ => false end.

Section Soundness.

Context {params : StorageParams}.

(** What holds of the store between operations: the members hold values
    of their types, the mask has bits for the region's lines only, and a
    line is dirty only in an opened store. *)
Definition store_inv (s : State) : Prop :=
  wf_state s /\
  _dirty_mask (obj s) < 2 ^ PX4_STORAGE_NUM_LINES /\
  (_dirty_mask (obj s) <> 0 -> _initialised (obj s) = true).

Definition keeps_inv (s s' : State) : Prop := store_inv s -> store_inv s'.

(** What happens to a store: accessor calls, and invocations of the timer
    callback with whatever the device answers. *)
Inductive Op : Type :=
| OpCall (c : Call)
| OpTick (io : TickIO).

Definition run_op (o : Op) : M unit :=
  match o with
  | OpCall c => run_call c
  | OpTick io => _timer_tick io
  end.

Fixpoint run_ops (ops : list Op) : M unit :=
  match ops with
  | [] => ret tt
  | o :: r => run_op o ;; run_ops r
  end.

(** The run the next invocation of [_timer_tick] selects from a mask: the
    offset it seeks to, the number of bytes it writes and the bits it
    clears. *)
Definition run_offset (mask : Z) : Z :=
  Z.shiftl (first_dirty mask) PX4_STORAGE_LINE_SHIFT.

Definition run_count (mask : Z) : Z :=
  Z.shiftl (fst (dirty_run mask (first_dirty mask))) PX4_STORAGE_LINE_SHIFT.

Definition run_mask (mask : Z) : Z :=
  snd (dirty_run mask (first_dirty mask)).

(** The descriptor an invocation works with reaches the device: none is
    held and [open] gives one, or the one held is open for writing on the
    device. *)
Definition descriptor_ready (io : TickIO) (s : State) : Prop :=
  if _fd (obj s) =? -1 then io_open io <> -1
  else exists pos,
         fd_lookup (_fd (obj s)) (fds (world s))
         = Some (mkOpenFile MTD_PARAMS_FILE O_WRONLY pos).

End Soundness.

(** * Facts *)

(** ** Machine integers and bit masks *)

Lemma u32_testbit (x j : Z) :
  0 <= j -> Z.testbit (u32 x) j = (j <? 32) && Z.testbit x j.
Proof.
  intros Hj. unfold u32, wrap.
  destruct (Z.ltb_spec j 32) as [Hlt | Hge]; cbn [andb].
  - apply Z.mod_pow2_bits_low. lia.
  - apply Z.mod_pow2_bits_high. lia.
Qed.

Lemma u32_small (x : Z) : is_u32 x -> u32 x = x.
Proof. intros H. unfold u32, wrap. apply Z.mod_small. exact H. Qed.

Lemma is_u32_high_bits (x j : Z) : is_u32 x -> 32 <= j -> Z.testbit x j = false.
Proof.
  intros Hx Hj. rewrite <- (u32_small x Hx). rewrite u32_testbit by lia.
  destruct (Z.ltb_spec j 32); [lia | reflexivity].
Qed.

Lemma line_bit (i : Z) : 0 <= i < 32 -> u32 (Z.shiftl 1 i) = 2 ^ i.
Proof.
  intros Hi. rewrite Z.shiftl_1_l. apply u32_small. unfold is_u32.
  split; [apply Z.pow_nonneg; lia | apply Z.pow_lt_mono_r; lia].
Qed.

Lemma line_dirty_testbit (mask i : Z) :
  0 <= i < 32 -> line_dirty mask i = Z.testbit mask i.
Proof.
  intros Hi. unfold line_dirty. rewrite line_bit by exact Hi.
  destruct (Z.testbit mask i) eqn:E.
  - destruct (Z.eqb_spec (Z.land mask (2 ^ i)) 0) as [H0 | H0]; [| reflexivity].
    assert (Hb : Z.testbit (Z.land mask (2 ^ i)) i = true).
    { rewrite Z.land_spec, E, Z.pow2_bits_eqb, Z.eqb_refl by lia. reflexivity. }
    rewrite H0, Z.bits_0 in Hb. discriminate.
  - replace (Z.land mask (2 ^ i)) with 0; [reflexivity |].
    apply Z.bits_inj'. intros n Hn.
    rewrite Z.bits_0, Z.land_spec, Z.pow2_bits_eqb by lia.
    destruct (Z.eqb_spec i n) as [-> | _].
    + rewrite E. reflexivity.
    + rewrite andb_false_r. reflexivity.
Qed.

Lemma mask_below_pow2 (mask n : Z) :
  0 <= n -> 0 < mask < 2 ^ n -> exists j, 0 <= j < n /\ Z.testbit mask j = true.
Proof.
  intros Hn Hm.
  assert (Hlog : 0 <= Z.log2 mask < n).
  { split; [apply Z.log2_nonneg | apply Z.log2_lt_pow2; lia]. }
  exists (Z.log2 mask). split; [exact Hlog | apply Z.bit_log2; lia].
Qed.

Section BitFacts.

Context {params : StorageParams}.

(** The first loop of [_timer_tick] stops at the lowest dirty line, or at
    the line count when it has looked at them all. *)
Lemma first_dirty_from_spec (fuel : nat) (mask i : Z) :
  0 <= i -> i + Z.of_nat fuel <= 32 ->
  let r := first_dirty_from fuel mask i in
  i <= r <= i + Z.of_nat fuel /\
  (forall j, i <= j < r -> Z.testbit mask j = false) /\
  (r < i + Z.of_nat fuel -> Z.testbit mask r = true).
Proof.
  revert i. induction fuel as [| k IH]; intros i Hi Hle; cbn [first_dirty_from].
  - cbn zeta. repeat split; lia.
  - rewrite line_dirty_testbit by lia.
    destruct (Z.testbit mask i) eqn:E.
    + cbn zeta. repeat split; try lia. intros _. exact E.
    + specialize (IH (i + 1) ltac:(lia) ltac:(lia)). cbn zeta in IH |- *.
      destruct IH as (Hr & Hlow & Hhit).
      repeat split; try lia.
      * intros j Hj. destruct (Z.eq_dec j i) as [-> | Hne]; [exact E |].
        apply Hlow. lia.
      * intros Hlt. apply Hhit. lia.
Qed.

Lemma first_dirty_spec (mask : Z) :
  0 < PX4_STORAGE_NUM_LINES <= 32 ->
  let i := first_dirty mask in
  0 <= i <= PX4_STORAGE_NUM_LINES /\
  (forall j, 0 <= j < i -> Z.testbit mask j = false) /\
  (i < PX4_STORAGE_NUM_LINES -> Z.testbit mask i = true).
Proof.
  intros HN. unfold first_dirty.
  pose proof (first_dirty_from_spec (Z.to_nat PX4_STORAGE_NUM_LINES) mask 0
                ltac:(lia) ltac:(lia)) as H.
  cbn zeta in H |- *. rewrite Z2Nat.id in H by lia. exact H.
Qed.

Lemma first_dirty_found (mask : Z) :
  0 < PX4_STORAGE_NUM_LINES <= 32 ->
  0 < mask < 2 ^ PX4_STORAGE_NUM_LINES ->
  first_dirty mask < PX4_STORAGE_NUM_LINES.
Proof.
  intros HN Hm.
  destruct (first_dirty_spec mask HN) as (Hr & Hlow & _).
  assert (H0 : 0 <= PX4_STORAGE_NUM_LINES) by lia.
  destruct (mask_below_pow2 mask PX4_STORAGE_NUM_LINES H0 Hm) as (j & Hj & Hbit).
  destruct (Z_lt_le_dec (first_dirty mask) PX4_STORAGE_NUM_LINES) as [Hlt | Hge];
    [exact Hlt |].
  rewrite Hlow in Hbit by lia. discriminate.
Qed.

(** The second loop of [_timer_tick]: when it ends, [write_mask] has the
    bits of lines [i .. i+n-1], all of them dirty, and the run stopped at
    the end of the region, at the cap or before a clean line. *)
Lemma extend_run_spec (fuel : nat) (mask i n wm : Z) :
  PX4_STORAGE_NUM_LINES <= 32 ->
  0 <= i -> 1 <= n -> i + n <= PX4_STORAGE_NUM_LINES ->
  PX4_STORAGE_NUM_LINES - (i + n) <= Z.of_nat fuel ->
  n <= Z.max 1 (Z.shiftr PX4_STORAGE_MAX_WRITE PX4_STORAGE_LINE_SHIFT) ->
  (forall j, 0 <= j -> Z.testbit wm j = (i <=? j) && (j <? i + n)) ->
  (forall j, i <= j < i + n -> Z.testbit mask j = true) ->
  forall n' wm', extend_run fuel mask i n wm = (n', wm') ->
  n <= n' /\ i + n' <= PX4_STORAGE_NUM_LINES /\
  n' <= Z.max 1 (Z.shiftr PX4_STORAGE_MAX_WRITE PX4_STORAGE_LINE_SHIFT) /\
  (forall j, 0 <= j -> Z.testbit wm' j = (i <=? j) && (j <? i + n')) /\
  (forall j, i <= j < i + n' -> Z.testbit mask j = true) /\
  (i + n' = PX4_STORAGE_NUM_LINES \/
   Z.shiftr PX4_STORAGE_MAX_WRITE PX4_STORAGE_LINE_SHIFT <= n' \/
   Z.testbit mask (i + n') = false).
Proof.
  intros HN. revert n wm.
  induction fuel as [| k IH]; intros n wm Hi Hn Hin Hfuel Hcap Hwm Hrun n' wm' E;
    cbn [extend_run] in E.
  - inversion E; subst n' wm'. repeat split; try assumption; try lia.
  - destruct (Z.ltb_spec (i + n) PX4_STORAGE_NUM_LINES) as [Hlt | Hge];
      cbn [andb] in E.
    2: { inversion E; subst n' wm'. repeat split; try assumption; try lia. }
    destruct (Z.ltb_spec n (Z.shiftr PX4_STORAGE_MAX_WRITE PX4_STORAGE_LINE_SHIFT))
      as [Hlt' | Hge']; cbn [andb] in E.
    2: { inversion E; subst n' wm'. repeat split; try assumption; try lia. }
    rewrite line_dirty_testbit in E by lia.
    destruct (Z.testbit mask (n + i)) eqn:Eb; cbn [negb] in E.
    2: { inversion E; subst n' wm'. rewrite Z.add_comm in Eb.
         repeat split; try assumption; try lia. right; right; exact Eb. }
    apply IH in E; try lia.
    + destruct E as (H1 & H2 & H3 & H4 & H5 & H6).
      repeat split; try assumption; lia.
    + intros j Hj. rewrite u32_testbit, Z.lor_spec, Hwm, line_bit,
        Z.pow2_bits_eqb by lia.
      destruct (Z.ltb_spec j 32), (Z.leb_spec i j), (Z.ltb_spec j (i + n)),
        (Z.eqb_spec (n + i) j), (Z.ltb_spec j (i + (n + 1)));
        cbn; try reflexivity; lia.
    + intros j Hj. destruct (Z.eq_dec j (n + i)) as [-> | Hne]; [exact Eb |].
      apply Hrun. lia.
Qed.

Lemma dirty_run_spec (mask i : Z) :
  PX4_STORAGE_NUM_LINES <= 32 ->
  0 <= i < PX4_STORAGE_NUM_LINES ->
  Z.testbit mask i = true ->
  forall n wm, dirty_run mask i = (n, wm) ->
  1 <= n /\ i + n <= PX4_STORAGE_NUM_LINES /\
  n <= Z.max 1 (Z.shiftr PX4_STORAGE_MAX_WRITE PX4_STORAGE_LINE_SHIFT) /\
  (forall j, 0 <= j -> Z.testbit wm j = (i <=? j) && (j <? i + n)) /\
  (forall j, i <= j < i + n -> Z.testbit mask j = true) /\
  (i + n = PX4_STORAGE_NUM_LINES \/
   Z.shiftr PX4_STORAGE_MAX_WRITE PX4_STORAGE_LINE_SHIFT <= n \/
   Z.testbit mask (i + n) = false).
Proof.
  intros HN Hi Hbit n wm E. unfold dirty_run in E.
  apply extend_run_spec in E; try lia.
  - exact E.
  - intros j Hj. rewrite line_bit, Z.pow2_bits_eqb by lia.
    destruct (Z.eqb_spec i j), (Z.leb_spec i j), (Z.ltb_spec j (i + 1));
      cbn; try reflexivity; lia.
  - intros j Hj. replace j with i by lia. exact Hbit.
Qed.

(** Clearing the run and setting it again gives the mask back. *)
Lemma restore_run (mask wm i n : Z) :
  is_u32 mask ->
  (forall j, 0 <= j -> Z.testbit wm j = (i <=? j) && (j <? i + n)) ->
  (forall j, i <= j < i + n -> Z.testbit mask j = true) ->
  Z.lor (Z.land mask (u32 (Z.lnot wm))) wm = mask.
Proof.
  intros Hm Hwm Hrun. apply Z.bits_inj'. intros j Hj.
  rewrite Z.lor_spec, Z.land_spec, u32_testbit, Z.lnot_spec, Hwm by lia.
  destruct (Z.leb_spec i j), (Z.ltb_spec j (i + n)); cbn;
    rewrite ?andb_false_r, ?andb_true_r, ?orb_false_r, ?orb_true_r;
    try (symmetry; apply Hrun; lia).
  all: destruct (Z.ltb_spec j 32); rewrite ?andb_false_r, ?andb_true_r;
    try reflexivity; symmetry; apply is_u32_high_bits; assumption.
Qed.

(** Clearing the run leaves every other bit as it was. *)
Lemma clear_run_other (mask wm i n j : Z) :
  is_u32 mask -> 0 <= j ->
  (forall j, 0 <= j -> Z.testbit wm j = (i <=? j) && (j <? i + n)) ->
  ~ in_run i n j ->
  Z.testbit (Z.land mask (u32 (Z.lnot wm))) j = Z.testbit mask j.
Proof.
  intros Hm Hj Hwm Hout. unfold in_run in Hout.
  rewrite Z.land_spec, u32_testbit, Z.lnot_spec, Hwm by lia.
  destruct (Z.leb_spec i j), (Z.ltb_spec j (i + n)); cbn; try lia.
  all: destruct (Z.ltb_spec j 32); rewrite ?andb_false_r, ?andb_true_r;
    try reflexivity; symmetry; apply is_u32_high_bits; assumption.
Qed.

(** The mask once the bits of a run are cleared. *)
Lemma clear_run_bits (mask wm i n j : Z) :
  is_u32 mask -> 0 <= j ->
  (forall j, 0 <= j -> Z.testbit wm j = (i <=? j) && (j <? i + n)) ->
  Z.testbit (Z.land mask (u32 (Z.lnot wm))) j
  = Z.testbit mask j && negb ((i <=? j) && (j <? i + n)).
Proof.
  intros Hm Hj Hwm.
  rewrite Z.land_spec, u32_testbit, Z.lnot_spec, Hwm by lia.
  destruct (Z.ltb_spec j 32) as [Hlt | Hge]; [reflexivity |].
  rewrite (is_u32_high_bits mask j Hm Hge). reflexivity.
Qed.

End BitFacts.

(** ** Running a method *)

(** Unfolds the plumbing of a computation and leaves the calls to the
    operating system folded. *)
Ltac run :=
  cbv beta iota zeta delta
    [bind ret get_obj modify_obj sys panic panic_if fault hang
     close_fd_on_error buffer_read buffer_write read_to_buffer
     set_fd set_initialised set_have_mtd set_buffer set_dirty_mask
     obj world _fd _initialised _have_mtd _buffer _dirty_mask
     negb orb andb].

Lemma fst_open_r r p m w : fst (open_r r p m w) = r.
Proof. reflexivity. Qed.
Lemma fst_lseek_r r fd off w : fst (lseek_r r fd off w) = r.
Proof. reflexivity. Qed.
Lemma fst_write_r r fd d w : fst (write_r r fd d w) = r.
Proof. reflexivity. Qed.
Lemma fst_fsync_r r fd w : fst (fsync_r r fd w) = r.
Proof. reflexivity. Qed.

Lemma trace_open_r r p m w :
  trace (snd (open_r r p m w)) = EOpen p m r :: trace w.
Proof. unfold open_r. destruct (r =? -1); reflexivity. Qed.
Lemma trace_lseek_r r fd off w :
  trace (snd (lseek_r r fd off w)) = ELseek fd off r :: trace w.
Proof.
  unfold lseek_r. destruct (fd_lookup fd (fds w)); [destruct (r =? off) |];
    reflexivity.
Qed.
Lemma trace_write_r r fd d w :
  trace (snd (write_r r fd d w)) = EWrite fd d r :: trace w.
Proof.
  unfold write_r, store_at.
  destruct (fd_lookup fd (fds w)) as [f |]; [| reflexivity].
  destruct (0 <? r); [| reflexivity].
  destruct (of_mode f), (of_path f), (mtd w); reflexivity.
Qed.
Lemma trace_fsync_r r fd w :
  trace (snd (fsync_r r fd w)) = EFsync fd r :: trace w.
Proof. reflexivity. Qed.
Lemma trace_sys_close fd w :
  trace (snd (sys_close fd w)) = EClose fd :: trace w.
Proof. reflexivity. Qed.
Lemma trace_perf_begin w : trace (snd (perf_begin w)) = EPerfBegin :: trace w.
Proof. reflexivity. Qed.
Lemma trace_perf_end w : trace (snd (perf_end w)) = EPerfEnd :: trace w.
Proof. reflexivity. Qed.
Lemma trace_perf_count w : trace (snd (perf_count w)) = trace w.
Proof. reflexivity. Qed.

Lemma errors_open_r r p m w :
  perf_errors (snd (open_r r p m w)) = perf_errors w.
Proof. unfold open_r. destruct (r =? -1); reflexivity. Qed.
Lemma errors_lseek_r r fd off w :
  perf_errors (snd (lseek_r r fd off w)) = perf_errors w.
Proof.
  unfold lseek_r. destruct (fd_lookup fd (fds w)); [destruct (r =? off) |];
    reflexivity.
Qed.
Lemma errors_write_r r fd d w :
  perf_errors (snd (write_r r fd d w)) = perf_errors w.
Proof.
  unfold write_r, store_at.
  destruct (fd_lookup fd (fds w)) as [f |]; [| reflexivity].
  destruct (0 <? r); [| reflexivity].
  destruct (of_mode f), (of_path f), (mtd w); reflexivity.
Qed.
Lemma errors_fsync_r r fd w :
  perf_errors (snd (fsync_r r fd w)) = perf_errors w.
Proof. reflexivity. Qed.
Lemma errors_sys_close fd w :
  perf_errors (snd (sys_close fd w)) = perf_errors w.
Proof. reflexivity. Qed.
Lemma errors_perf_begin w : perf_errors (snd (perf_begin w)) = perf_errors w.
Proof. reflexivity. Qed.
Lemma errors_perf_end w : perf_errors (snd (perf_end w)) = perf_errors w.
Proof. reflexivity. Qed.
Lemma errors_perf_count w :
  perf_errors (snd (perf_count w)) = perf_errors w + 1.
Proof. reflexivity. Qed.

Lemma mtd_open_r r p m w : mtd (snd (open_r r p m w)) = mtd w.
Proof. unfold open_r. destruct (r =? -1); reflexivity. Qed.
Lemma mtd_lseek_r r fd off w : mtd (snd (lseek_r r fd off w)) = mtd w.
Proof.
  unfold lseek_r. destruct (fd_lookup fd (fds w)); [destruct (r =? off) |];
    reflexivity.
Qed.
Lemma mtd_perf_begin w : mtd (snd (perf_begin w)) = mtd w.
Proof. reflexivity. Qed.
Lemma mtd_perf_end w : mtd (snd (perf_end w)) = mtd w.
Proof. reflexivity. Qed.
Lemma mtd_perf_count w : mtd (snd (perf_count w)) = mtd w.
Proof. reflexivity. Qed.

Create Rewrite HintDb os.
#[local] Hint Rewrite fst_open_r fst_lseek_r fst_write_r fst_fsync_r
  trace_open_r trace_lseek_r trace_write_r trace_fsync_r trace_sys_close
  trace_perf_begin trace_perf_end trace_perf_count
  errors_open_r errors_lseek_r errors_write_r errors_fsync_r errors_sys_close
  errors_perf_begin errors_perf_end errors_perf_count
  mtd_open_r mtd_lseek_r mtd_perf_begin mtd_perf_end mtd_perf_count : os.

(** The events a method added in front of the trace [t]. *)
Ltac events_before l t :=
  lazymatch l with
  | t => constr:(@nil Event)
  | ?e :: ?l' => let p := events_before l' t in constr:(e :: p)
  end.

Ltac give_events :=
  lazymatch goal with
  | |- exists evs, ?l = evs ++ ?t /\ _ =>
      let p := events_before l t in exists p; split; [reflexivity |]
  end.

(** ** Byte arrays *)

Lemma slice_length (a : list Z) (off n : Z) :
  0 <= off -> 0 <= n -> off + n <= len a -> len (slice a off n) = n.
Proof.
  intros Hoff Hn Hle. unfold slice, len in *.
  rewrite length_firstn, length_skipn. lia.
Qed.

Lemma mem_read_in_bounds (a : list Z) (off n : Z) :
  0 <= off -> 0 <= n -> off + n <= len a ->
  mem_read a off n = Some (slice a off n).
Proof.
  intros Hoff Hn Hle. unfold mem_read.
  destruct (Z.leb_spec 0 off); [| lia].
  destruct (Z.leb_spec 0 n); [| lia].
  destruct (Z.leb_spec (off + n) (len a)); [| lia].
  reflexivity.
Qed.

(** ** The timer callback *)

Section TickFacts.

Context {params : StorageParams}.

Lemma line_size_pos : 0 <= PX4_STORAGE_LINE_SHIFT -> 0 < PX4_STORAGE_LINE_SIZE.
Proof.
  intros Hs. unfold PX4_STORAGE_LINE_SIZE. rewrite Z.shiftl_1_l.
  apply Z.pow_pos_nonneg; lia.
Qed.

Lemma lines_in_region :
  0 <= PX4_STORAGE_LINE_SHIFT ->
  PX4_STORAGE_NUM_LINES * PX4_STORAGE_LINE_SIZE <= PX4_STORAGE_SIZE.
Proof.
  intros Hs. unfold PX4_STORAGE_NUM_LINES. rewrite Z.mul_comm.
  apply Z.mul_div_le. apply line_size_pos. exact Hs.
Qed.

Lemma shiftl_lines (x : Z) :
  0 <= PX4_STORAGE_LINE_SHIFT ->
  Z.shiftl x PX4_STORAGE_LINE_SHIFT = x * PX4_STORAGE_LINE_SIZE.
Proof.
  intros Hs. unfold PX4_STORAGE_LINE_SIZE.
  rewrite Z.shiftl_1_l. apply Z.shiftl_mul_pow2. exact Hs.
Qed.

(** The bytes of a run of lines lie inside [_buffer]. *)
Lemma run_in_buffer (i n : Z) :
  0 <= PX4_STORAGE_LINE_SHIFT ->
  0 <= i -> 1 <= n -> i + n <= PX4_STORAGE_NUM_LINES ->
  0 <= Z.shiftl i PX4_STORAGE_LINE_SHIFT /\
  0 <= Z.shiftl n PX4_STORAGE_LINE_SHIFT /\
  Z.shiftl i PX4_STORAGE_LINE_SHIFT + Z.shiftl n PX4_STORAGE_LINE_SHIFT
    <= PX4_STORAGE_SIZE.
Proof.
  intros Hs Hi Hn Hin. rewrite !shiftl_lines by exact Hs.
  pose proof (line_size_pos Hs) as Hl. pose proof (lines_in_region Hs) as Hr.
  repeat split; nia.
Qed.

(** A run chosen under the cap is no longer than the cap. *)
Lemma run_under_cap (n : Z) :
  0 <= PX4_STORAGE_LINE_SHIFT ->
  PX4_STORAGE_LINE_SIZE <= PX4_STORAGE_MAX_WRITE ->
  1 <= n ->
  n <= Z.max 1 (Z.shiftr PX4_STORAGE_MAX_WRITE PX4_STORAGE_LINE_SHIFT) ->
  Z.shiftl n PX4_STORAGE_LINE_SHIFT <= PX4_STORAGE_MAX_WRITE.
Proof.
  intros Hs Hcap Hn Hle. rewrite shiftl_lines by exact Hs.
  pose proof (line_size_pos Hs) as Hl.
  assert (Hd : Z.shiftr PX4_STORAGE_MAX_WRITE PX4_STORAGE_LINE_SHIFT
               * PX4_STORAGE_LINE_SIZE <= PX4_STORAGE_MAX_WRITE).
  { rewrite Z.shiftr_div_pow2 by exact Hs. unfold PX4_STORAGE_LINE_SIZE in *.
    rewrite Z.shiftl_1_l in *. rewrite Z.mul_comm. apply Z.mul_div_le. exact Hl. }
  nia.
Qed.


(** The run an invocation selects once it has a descriptor and a dirty
    line: it reads the run's bytes out of [_buffer]. *)
Lemma tick_selects_run (s : State) (n wm : Z) :
  params_ok -> wf_state s ->
  _dirty_mask (obj s) <> 0 ->
  first_dirty (_dirty_mask (obj s)) <> PX4_STORAGE_NUM_LINES ->
  dirty_run (_dirty_mask (obj s)) (first_dirty (_dirty_mask (obj s))) = (n, wm) ->
  let mask := _dirty_mask (obj s) in
  let i := first_dirty mask in
  let off := Z.shiftl i PX4_STORAGE_LINE_SHIFT in
  let count := Z.shiftl n PX4_STORAGE_LINE_SHIFT in
  (0 <= i < PX4_STORAGE_NUM_LINES /\ Z.testbit mask i = true /\
   forall j, 0 <= j < i -> Z.testbit mask j = false) /\
  (1 <= n /\ i + n <= PX4_STORAGE_NUM_LINES /\
   n <= Z.max 1 (Z.shiftr PX4_STORAGE_MAX_WRITE PX4_STORAGE_LINE_SHIFT) /\
   (forall j, 0 <= j -> Z.testbit wm j = (i <=? j) && (j <? i + n)) /\
   (forall j, i <= j < i + n -> Z.testbit mask j = true) /\
   (i + n = PX4_STORAGE_NUM_LINES \/
    Z.shiftr PX4_STORAGE_MAX_WRITE PX4_STORAGE_LINE_SHIFT <= n \/
    Z.testbit mask (i + n) = false)) /\
  mem_read (_buffer (obj s)) off count = Some (slice (_buffer (obj s)) off count) /\
  len (slice (_buffer (obj s)) off count) = count.
Proof.
  intros Hp Hwf Hmask Hi Erun. cbn zeta.
  destruct Hp as [Hs HN Hu16 Hcap]. destruct Hwf as [Hlen Hu32].
  destruct (first_dirty_spec (_dirty_mask (obj s)) HN) as (Hr & Hlow & Hhit).
  assert (Hlt : first_dirty (_dirty_mask (obj s)) < PX4_STORAGE_NUM_LINES) by lia.
  specialize (Hhit Hlt).
  assert (HN32 : PX4_STORAGE_NUM_LINES <= 32) by lia.
  assert (Hir : 0 <= first_dirty (_dirty_mask (obj s)) < PX4_STORAGE_NUM_LINES) by lia.
  pose proof (dirty_run_spec _ _ HN32 Hir Hhit n wm Erun) as Hrun.
  destruct Hrun as (H1 & H2 & H3 & H4 & H5 & H6).
  destruct (run_in_buffer (first_dirty (_dirty_mask (obj s))) n Hs) as (B1 & B2 & B3);
    try lia.
  repeat split; try assumption; try lia.
  - apply mem_read_in_bounds; lia.
  - apply slice_length; lia.
Qed.

(** C7.  When an invocation of [_timer_tick] reaches the device write and
    the write does not transfer the whole run, the invocation ends with
    the dirty mask exactly as it found it (the bits it had cleared for the
    run are set again, so no dirty line is lost), the buffer untouched,
    the descriptor closed and [_fd] set to -1, the error counter one
    higher, and no [fsync]. *)
Theorem write_failure_restores_dirty_bits (io : TickIO) (s : State) :
  params_ok -> wf_state s ->
  _initialised (obj s) = true ->
  _dirty_mask (obj s) <> 0 ->
  tick_fd io s <> -1 ->
  first_dirty (_dirty_mask (obj s)) <> PX4_STORAGE_NUM_LINES ->
  io_lseek io
    = Z.shiftl (first_dirty (_dirty_mask (obj s))) PX4_STORAGE_LINE_SHIFT ->
  io_write io
    <> Z.shiftl (fst (dirty_run (_dirty_mask (obj s))
                        (first_dirty (_dirty_mask (obj s)))))
         PX4_STORAGE_LINE_SHIFT ->
  exists s', _timer_tick io s = Ok (tt, s') /\
    _dirty_mask (obj s') = _dirty_mask (obj s) /\
    _buffer (obj s') = _buffer (obj s) /\
    _fd (obj s') = -1 /\
    perf_errors (world s') = perf_errors (world s) + 1 /\
    exists evs, trace (world s') = evs ++ trace (world s) /\
      In (EClose (tick_fd io s)) evs /\ fsync_count evs = 0%nat.
Proof.
  intros Hp Hwf Hini Hmask Hfd Hi Hseek Hwrite.
  destruct (dirty_run (_dirty_mask (obj s)) (first_dirty (_dirty_mask (obj s))))
    as [n wm] eqn:Erun.
  destruct (tick_selects_run s n wm Hp Hwf Hmask Hi Erun)
    as (_ & (_ & _ & _ & Hwm & Hdirty & _) & Hread & _).
  pose proof (restore_run _ wm _ n (mask_u32 s Hwf) Hwm Hdirty) as Hrestore.
  destruct s as [[fd ini have buf mask] w].
  unfold tick_fd in *. cbn [obj world _fd _initialised _dirty_mask _buffer fst] in *.
  subst ini.
  apply Z.eqb_neq in Hmask, Hi, Hwrite. apply Z.eqb_eq in Hseek.
  unfold _timer_tick. run. rewrite Hmask.
  destruct (fd =? -1) eqn:Efd.
  - apply Z.eqb_neq in Hfd. run. autorewrite with os. rewrite Hfd. run. rewrite Hi, Erun.
    run. autorewrite with os. rewrite Hseek. run. rewrite Hread. run.
    autorewrite with os. rewrite Hwrite. run. rewrite Hrestore, Hmask. run.
    eexists. split; [reflexivity |]. cbn [obj world _dirty_mask _buffer _fd].
    autorewrite with os. repeat split. give_events. split; [cbn; tauto | reflexivity].
  - run. rewrite Hi, Erun.
    run. autorewrite with os. rewrite Hseek. run. rewrite Hread. run.
    autorewrite with os. rewrite Hwrite. run. rewrite Hrestore, Hmask. run.
    eexists. split; [reflexivity |]. cbn [obj world _dirty_mask _buffer _fd].
    autorewrite with os. repeat split. give_events. split; [cbn; tauto | reflexivity].
Qed.


(** C10.  When an invocation of [_timer_tick] has a descriptor and a dirty
    line and [lseek] does not return the run's offset, the invocation ends
    with the object as it was but for the descriptor it may have opened
    (mask, buffer and flag unchanged), [_fd] still a descriptor, the
    device content and the error counter unchanged, nothing handed to
    [write] and nothing closed. *)
Theorem seek_failure_changes_nothing (io : TickIO) (s : State) :
  _initialised (obj s) = true ->
  _dirty_mask (obj s) <> 0 ->
  tick_fd io s <> -1 ->
  first_dirty (_dirty_mask (obj s)) <> PX4_STORAGE_NUM_LINES ->
  io_lseek io
    <> Z.shiftl (first_dirty (_dirty_mask (obj s))) PX4_STORAGE_LINE_SHIFT ->
  exists s', _timer_tick io s = Ok (tt, s') /\
    obj s' = set_fd (tick_fd io s) (obj s) /\
    _fd (obj s') <> -1 /\
    mtd (world s') = mtd (world s) /\
    perf_errors (world s') = perf_errors (world s) /\
    exists evs, trace (world s') = evs ++ trace (world s) /\
      bytes_to_write evs = 0 /\ existsb is_close evs = false.
Proof.
  intros Hini Hmask Hfd Hi Hseek.
  destruct s as [[fd ini have buf mask] w].
  unfold tick_fd in *. cbn [obj world _fd _initialised _dirty_mask _buffer] in *.
  subst ini.
  apply Z.eqb_neq in Hmask, Hi, Hseek.
  destruct (dirty_run mask (first_dirty mask)) as [n wm] eqn:Erun.
  unfold _timer_tick. run. rewrite Hmask.
  destruct (fd =? -1) eqn:Efd.
  1: apply Z.eqb_neq in Hfd; run; autorewrite with os; rewrite Hfd.
  all: run; rewrite Hi, Erun; run; autorewrite with os; rewrite Hseek; run.
  all: eexists; split; [reflexivity |]; cbn [obj world _fd].
  all: autorewrite with os; try apply Z.eqb_neq in Efd; try apply Z.eqb_neq in Hfd.
  all: repeat split; try assumption; give_events; split; reflexivity.
Qed.

(** C8.  An invocation of [_timer_tick] calls [fsync] exactly when it
    takes the mask from dirty to clear, and then once.  The mask goes
    from dirty to clear exactly when the store is opened, a descriptor is
    there, [lseek] returns the offset of the run, [write] transfers the
    whole run and the run held the last dirty lines; the [fsync] is then
    made on that descriptor, after the [write] of the run.  In every
    other invocation, and so after a failed write and after a write that
    leaves a line dirty, there is no [fsync]. *)
Theorem fsync_once_per_clearing (io : TickIO) (s : State) :
  params_ok -> wf_state s ->
  _dirty_mask (obj s) < 2 ^ PX4_STORAGE_NUM_LINES ->
  let mask := _dirty_mask (obj s) in
  let i := first_dirty mask in
  let n := fst (dirty_run mask i) in
  let write_mask := snd (dirty_run mask i) in
  let off := Z.shiftl i PX4_STORAGE_LINE_SHIFT in
  let count := Z.shiftl n PX4_STORAGE_LINE_SHIFT in
  let fd := tick_fd io s in
  let data := slice (_buffer (obj s)) off count in
  let written :=
    _initialised (obj s) && negb (mask =? 0) && negb (fd =? -1)
    && (io_lseek io =? off) && (io_write io =? count) in
  let clears := written && (Z.land mask (u32 (Z.lnot write_mask)) =? 0) in
  exists s', _timer_tick io s = Ok (tt, s') /\
    exists evs, trace (world s') = evs ++ trace (world s) /\
      negb (mask =? 0) && (_dirty_mask (obj s') =? 0) = clears /\
      filter is_fsync evs
      = (if clears then [EFsync fd (io_fsync io)] else []) /\
      fsync_count evs = (if clears then 1%nat else 0%nat) /\
      (clears = true ->
       filter (fun e => is_fsync e || is_write e) evs
       = [EFsync fd (io_fsync io); EWrite fd data count]).
Proof.
  intros Hp Hwf Hlt. cbn zeta. unfold fsync_count, tick_fd.
  pose proof (mask_u32 s Hwf) as Hu32.
  destruct (_initialised (obj s)) eqn:Hini.
  2: { exists s. destruct s as [[fd ini have buf mask] w].
       cbn [obj _initialised] in Hini. subst ini. unfold _timer_tick. run.
       split; [reflexivity |]. exists []. split; [reflexivity |].
       cbn [filter List.length]. destruct (mask =? 0);
         repeat split; try reflexivity; intros; discriminate. }
  destruct (Z.eqb_spec (_dirty_mask (obj s)) 0) as [Hz | Hmask].
  { exists s. destruct s as [[fd ini have buf mask] w].
    cbn [obj _initialised _dirty_mask] in Hini, Hz. subst ini mask.
    unfold _timer_tick. run.
    split; [reflexivity |]. exists []. split; [reflexivity |].
    cbn [filter List.length]. repeat split; try reflexivity; intros; discriminate. }
  assert (Hrange : 0 < _dirty_mask (obj s) < 2 ^ PX4_STORAGE_NUM_LINES)
    by (destruct Hu32; lia).
  assert (Hi : first_dirty (_dirty_mask (obj s)) <> PX4_STORAGE_NUM_LINES).
  { pose proof (first_dirty_found _ (lines_fit_mask Hp) Hrange). lia. }
  destruct (dirty_run (_dirty_mask (obj s)) (first_dirty (_dirty_mask (obj s))))
    as [n wm] eqn:Erun.
  cbn [fst snd].
  destruct (tick_selects_run s n wm Hp Hwf Hmask Hi Erun)
    as (_ & (_ & _ & _ & Hwm & Hdirty & _) & Hread & Hlen).
  pose proof (restore_run _ wm _ n Hu32 Hwm Hdirty) as Hrestore.
  destruct s as [[fd ini have buf mask] w].
  cbn [obj world _fd _initialised _dirty_mask _buffer] in *. subst ini.
  apply Z.eqb_neq in Hmask, Hi.
  unfold _timer_tick. run. rewrite Hmask.
  destruct (fd =? -1) eqn:Efd.
  1: run; autorewrite with os; destruct (io_open io =? -1) eqn:Eopen.
  all: run; rewrite ?Hi, ?Erun; run; autorewrite with os.
  2, 3: destruct (io_lseek io =? _) eqn:Eseek; run.
  2, 4: rewrite Hread; run; autorewrite with os;
        destruct (io_write io =? _) eqn:Ewrite; run;
        [ destruct (Z.land mask (u32 (Z.lnot wm)) =? 0) eqn:Ezero; run;
          autorewrite with os;
          [ destruct (io_fsync io =? 0) eqn:Esync; run |]
        | rewrite Hrestore, Hmask; run ].
  all: eexists; split; [reflexivity |]; cbn [obj world _dirty_mask].
  all: autorewrite with os; give_events.
  all: cbn [filter is_fsync is_write orb List.length].
  all: rewrite ?Efd, ?Hmask, ?Ezero; run.
  all: repeat split; try reflexivity; try (intros; discriminate).
  all: intros _; apply Z.eqb_eq in Ewrite; rewrite Ewrite; reflexivity.
Qed.


(** C6.  An invocation of [_timer_tick] on an initialised store with a
    non-empty mask picks the lowest dirty line [i] and takes the [n]
    dirty lines from [i] on, stopping at the end of the region, at the
    cap or before a clean line.  With a descriptor it calls [lseek] once,
    for the offset of line [i]; when [lseek] returns that offset it calls
    [write] once, with the bytes of the run, at most
    [PX4_STORAGE_MAX_WRITE] of them, and in no other case does it write.
    Afterwards the lines of the run are clear when the write took the
    whole run and dirty otherwise, and every line outside the run is as
    it was. *)
Theorem flush_writes_one_capped_run (io : TickIO) (s : State) :
  params_ok -> wf_state s ->
  _initialised (obj s) = true ->
  0 < _dirty_mask (obj s) < 2 ^ PX4_STORAGE_NUM_LINES ->
  let mask := _dirty_mask (obj s) in
  let i := first_dirty mask in
  let n := fst (dirty_run mask i) in
  let off := Z.shiftl i PX4_STORAGE_LINE_SHIFT in
  let count := Z.shiftl n PX4_STORAGE_LINE_SHIFT in
  let fd := tick_fd io s in
  let data := slice (_buffer (obj s)) off count in
  let seeks := negb (fd =? -1) in
  let writes := seeks && (io_lseek io =? off) in
  let written := writes && (io_write io =? count) in
  (0 <= i < PX4_STORAGE_NUM_LINES /\ Z.testbit mask i = true /\
   forall j, 0 <= j < i -> Z.testbit mask j = false) /\
  (1 <= n /\ i + n <= PX4_STORAGE_NUM_LINES /\
   count <= PX4_STORAGE_MAX_WRITE /\ len data = count /\
   (forall j, in_run i n j -> Z.testbit mask j = true) /\
   (i + n = PX4_STORAGE_NUM_LINES \/
    Z.shiftr PX4_STORAGE_MAX_WRITE PX4_STORAGE_LINE_SHIFT <= n \/
    Z.testbit mask (i + n) = false)) /\
  exists s', _timer_tick io s = Ok (tt, s') /\
    (exists evs, trace (world s') = evs ++ trace (world s) /\
       filter is_lseek evs
       = (if seeks then [ELseek fd off (io_lseek io)] else []) /\
       filter is_write evs
       = (if writes then [EWrite fd data (io_write io)] else []) /\
       bytes_to_write evs = (if writes then count else 0) /\
       bytes_to_write evs <= PX4_STORAGE_MAX_WRITE) /\
    (forall j, in_run i n j ->
       Z.testbit (_dirty_mask (obj s')) j = negb written) /\
    (forall j, 0 <= j -> ~ in_run i n j ->
       Z.testbit (_dirty_mask (obj s')) j = Z.testbit mask j).
Proof.
  intros Hp Hwf Hini Hrange. cbn zeta.
  assert (Hmask : _dirty_mask (obj s) <> 0) by lia.
  assert (Hi : first_dirty (_dirty_mask (obj s)) <> PX4_STORAGE_NUM_LINES).
  { pose proof (first_dirty_found _ (lines_fit_mask Hp) Hrange). lia. }
  destruct (dirty_run (_dirty_mask (obj s)) (first_dirty (_dirty_mask (obj s))))
    as [n wm] eqn:Erun.
  destruct (tick_selects_run s n wm Hp Hwf Hmask Hi Erun)
    as (Hlow & (Hn & Hin & Hcap & Hwm & Hdirty & Hstop) & Hread & Hlen).
  pose proof (restore_run _ wm _ n (mask_u32 s Hwf) Hwm Hdirty) as Hrestore.
  pose proof (run_under_cap n (shift_nonneg Hp) (cap_admits_line Hp) Hn Hcap)
    as Hbytes.
  assert (Hcount : 0 <= Z.shiftl n PX4_STORAGE_LINE_SHIFT)
    by (rewrite <- Hlen; unfold len; lia).
  pose proof (fun j => clear_run_other (_dirty_mask (obj s)) wm
                        (first_dirty (_dirty_mask (obj s))) n j (mask_u32 s Hwf))
    as Hother.
  assert (Hcleared : forall j, in_run (first_dirty (_dirty_mask (obj s))) n j ->
            Z.testbit (Z.land (_dirty_mask (obj s)) (u32 (Z.lnot wm))) j = false).
  { intros j Hj. unfold in_run in Hj.
    assert (Hj0 : 0 <= j) by (destruct Hlow as (Hi0 & _); lia).
    rewrite (clear_run_bits _ wm _ n j (mask_u32 s Hwf) Hj0 Hwm).
    destruct (Z.leb_spec (first_dirty (_dirty_mask (obj s))) j); [| lia].
    destruct (Z.ltb_spec j (first_dirty (_dirty_mask (obj s)) + n)); [| lia].
    apply andb_false_r. }
  cbn [fst].
  split; [exact Hlow |]. split; [repeat split; assumption |].
  destruct s as [[fd ini have buf mask] w]. unfold tick_fd.
  cbn [obj world _fd _initialised _dirty_mask _buffer] in *. subst ini.
  apply Z.eqb_neq in Hmask, Hi.
  unfold _timer_tick. run. rewrite Hmask.
  destruct (fd =? -1) eqn:Efd.
  1: run; autorewrite with os; destruct (io_open io =? -1) eqn:Eopen.
  all: run; rewrite ?Hi, ?Erun; run; autorewrite with os.
  2, 3: destruct (io_lseek io =? _) eqn:Eseek; run.
  2, 4: rewrite Hread; run; autorewrite with os;
        destruct (io_write io =? _) eqn:Ewrite; run;
        [ destruct (Z.land mask (u32 (Z.lnot wm)) =? 0) eqn:Ezero; run;
          autorewrite with os;
          [ destruct (io_fsync io =? 0) eqn:Esync; run |]
        | rewrite Hrestore, Hmask; run ].
  all: eexists; split; [reflexivity |]; cbn [obj world _dirty_mask].
  all: autorewrite with os.
  all: split;
    [ give_events;
      cbn [filter is_lseek is_write bytes_to_write fold_right write_size];
      rewrite ?Efd, ?Hlen, ?Z.add_0_r; run; repeat split; try reflexivity; lia
    | split;
      [ rewrite ?Efd; run; intros j Hj;
        first [apply Hcleared; exact Hj | apply Hdirty; exact Hj]
      | intros j Hj Hout; first [reflexivity | apply Hother; assumption] ] ].
Qed.

End TickFacts.

(** ** Accessors out of range *)

Section AccessorFacts.

Context {params : StorageParams}.

(** The bounds checks compute in [size_t]. *)
Lemma guard_fixed (k : Z) :
  0 <= k <= PX4_STORAGE_SIZE -> PX4_STORAGE_SIZE < 2 ^ 32 ->
  u32 (sizeof_buffer - k) = PX4_STORAGE_SIZE - k.
Proof.
  intros Hk Hs. apply u32_small. unfold is_u32, sizeof_buffer. lia.
Qed.

Lemma guard_block (n : Z) :
  0 <= n <= PX4_STORAGE_SIZE + 1 -> PX4_STORAGE_SIZE + 1 < 2 ^ 32 ->
  u32 (sizeof_buffer - u32 (n - 1)) = PX4_STORAGE_SIZE + 1 - n.
Proof.
  intros Hn Hs. unfold sizeof_buffer.
  destruct (Z.eq_dec n 0) as [-> | Hne].
  - change (u32 (0 - 1)) with (2 ^ 32 - 1). unfold u32, wrap.
    replace (PX4_STORAGE_SIZE - (2 ^ 32 - 1))
      with (PX4_STORAGE_SIZE + 1 + (-1) * 2 ^ 32) by lia.
    rewrite Z.mod_add by lia. rewrite Z.mod_small; lia.
  - rewrite (u32_small (n - 1)) by (unfold is_u32; lia).
    rewrite u32_small by (unfold is_u32; lia). lia.
Qed.

(** Past the region a size that wraps the check makes it pass. *)
Lemma guard_block_wraps (n : Z) :
  PX4_STORAGE_SIZE + 2 <= n <= 2 ^ 31 -> 0 <= PX4_STORAGE_SIZE ->
  u32 (sizeof_buffer - u32 (n - 1)) = 2 ^ 32 + PX4_STORAGE_SIZE + 1 - n.
Proof.
  intros Hn Hs. unfold sizeof_buffer.
  rewrite (u32_small (n - 1)) by (unfold is_u32; lia).
  unfold u32, wrap.
  replace (PX4_STORAGE_SIZE - (n - 1))
    with (2 ^ 32 + PX4_STORAGE_SIZE + 1 - n + (-1) * 2 ^ 32) by lia.
  rewrite Z.mod_add by lia. rewrite Z.mod_small; lia.
Qed.

Lemma read_byte_out_of_range (s : State) (loc : Z) :
  PX4_STORAGE_SIZE < loc + 1 -> read_byte loc s = Ok (0, s).
Proof.
  intros Hpast. unfold read_byte, sizeof_buffer.
  destruct (Z.leb_spec PX4_STORAGE_SIZE loc); [reflexivity | lia].
Qed.

Lemma read_word_out_of_range (s : State) (loc : Z) :
  4 <= PX4_STORAGE_SIZE < 2 ^ 32 - 1 ->
  PX4_STORAGE_SIZE < loc + 2 -> read_word loc s = Ok (0, s).
Proof.
  intros Hs Hpast. unfold read_word. change (2 - 1) with 1.
  rewrite guard_fixed by lia.
  destruct (Z.leb_spec (PX4_STORAGE_SIZE - 1) loc); [reflexivity | lia].
Qed.

Lemma read_dword_out_of_range (s : State) (loc : Z) :
  4 <= PX4_STORAGE_SIZE < 2 ^ 32 - 1 ->
  PX4_STORAGE_SIZE < loc + 4 -> read_dword loc s = Ok (0, s).
Proof.
  intros Hs Hpast. unfold read_dword. change (4 - 1) with 3.
  rewrite guard_fixed by lia.
  destruct (Z.leb_spec (PX4_STORAGE_SIZE - 3) loc); [reflexivity | lia].
Qed.

Lemma read_block_out_of_range (s : State) (dst : list Z) (loc n : Z) :
  4 <= PX4_STORAGE_SIZE < 2 ^ 32 - 1 ->
  0 <= n <= PX4_STORAGE_SIZE + 1 ->
  PX4_STORAGE_SIZE < loc + n -> read_block dst loc n s = Ok (dst, s).
Proof.
  intros Hs Hn Hpast. unfold read_block. rewrite guard_block by lia.
  destruct (Z.leb_spec (PX4_STORAGE_SIZE + 1 - n) loc); [reflexivity | lia].
Qed.

(** C3, as the code has it.  A read that ends past the region returns at
    once and leaves the store as it is: [read_byte], [read_word] and
    [read_dword] return 0, and [read_block], for a length up to one past
    the region size, returns without touching the caller's array. *)
Theorem out_of_range_read_returns_at_once (s : State) (dst : list Z) (loc n : Z) :
  4 <= PX4_STORAGE_SIZE < 2 ^ 32 - 1 ->
  (PX4_STORAGE_SIZE < loc + 1 -> read_byte loc s = Ok (0, s)) /\
  (PX4_STORAGE_SIZE < loc + 2 -> read_word loc s = Ok (0, s)) /\
  (PX4_STORAGE_SIZE < loc + 4 -> read_dword loc s = Ok (0, s)) /\
  (0 <= n <= PX4_STORAGE_SIZE + 1 -> PX4_STORAGE_SIZE < loc + n ->
   read_block dst loc n s = Ok (dst, s)).
Proof.
  intros Hs. repeat split.
  - apply read_byte_out_of_range.
  - apply read_word_out_of_range. exact Hs.
  - apply read_dword_out_of_range. exact Hs.
  - apply read_block_out_of_range. exact Hs.
Qed.

(** A write that ends past the region, by a length the check can tell,
    returns at once and leaves the store as it is. *)
Lemma out_of_range_write_is_no_op (s : State) (c : Call) :
  4 <= PX4_STORAGE_SIZE < 2 ^ 32 - 1 ->
  out_of_range c -> is_read c = false ->
  run_call c s = Ok (tt, s).
Proof.
  intros Hs (Hloc & Hsize & Hpast) Hw.
  destruct c as [| | | | loc v | loc v | loc v | loc src n];
    cbn [call_loc call_size is_read] in *; try discriminate Hw;
    cbn [run_call].
  - unfold write_byte, sizeof_buffer.
    destruct (Z.leb_spec PX4_STORAGE_SIZE loc); [reflexivity | lia].
  - unfold write_word. change (2 - 1) with 1. rewrite guard_fixed by lia.
    destruct (Z.leb_spec (PX4_STORAGE_SIZE - 1) loc); [reflexivity | lia].
  - unfold write_dword. change (4 - 1) with 3. rewrite guard_fixed by lia.
    destruct (Z.leb_spec (PX4_STORAGE_SIZE - 3) loc); [reflexivity | lia].
  - unfold write_block. rewrite guard_block by lia.
    destruct (Z.leb_spec (PX4_STORAGE_SIZE + 1 - n) loc); [reflexivity | lia].
Qed.

(** Past that length the check of [write_block] passes and the method goes
    on to read [n] bytes of a shorter [_buffer]. *)
Lemma write_block_check_wraps (s : State) (loc : Z) (src : list Z) (n : Z) :
  len (_buffer (obj s)) = PX4_STORAGE_SIZE ->
  0 <= loc < 2 ^ 16 ->
  PX4_STORAGE_SIZE + 2 <= n <= 2 ^ 31 ->
  write_block loc src n s = Fault.
Proof.
  intros Hlen Hloc Hn.
  assert (Hs : 0 <= PX4_STORAGE_SIZE) by (rewrite <- Hlen; unfold len; lia).
  unfold write_block. rewrite guard_block_wraps by lia.
  destruct (Z.leb_spec (2 ^ 32 + PX4_STORAGE_SIZE + 1 - n) loc); [lia |].
  unfold buffer_read, bind, get_obj, mem_read. rewrite Hlen.
  destruct (Z.leb_spec (loc + n) PX4_STORAGE_SIZE); [lia |].
  rewrite andb_false_r. reflexivity.
Qed.

End AccessorFacts.

Section PX4.

#[local] Existing Instance px4_params.

(** C3, against the claim: out of range [read_block] returns with the
    caller's array as it was, here still holding a 7, not zero-filled. *)
Lemma read_block_out_of_range_not_zeroed :
  4096 + 1 > PX4_STORAGE_SIZE /\
  read_block [7] 4096 1 (boot world_signed) = Ok ([7], boot world_signed) /\
  [7] <> repeat 0 (Z.to_nat 1).
Proof.
  split; [reflexivity |]. split; [vm_compute; reflexivity | discriminate].
Qed.

Lemma out_of_range_read_witness :
  read_word 4095 (boot world_signed) = Ok (0, boot world_signed).
Proof.
  refine (proj1 (proj2 (out_of_range_read_returns_at_once
                          (boot world_signed) [] 4095 0 _)) _).
  - vm_compute. intuition discriminate.
  - vm_compute. reflexivity.
Defined.

(** C5.  [write_block] at offset 0 with 4098 bytes, two more than the
    region holds: the check [loc >= sizeof(_buffer)-(n-1)] wraps to
    [0 >= 0xFFFFFFFF], does not return, and [memcmp] and [memcpy] run
    past the end of [_buffer]. *)
Theorem write_block_past_region_not_ignored :
  PX4_STORAGE_SIZE < 0 + 4098 /\
  write_block 0 (repeat 1 (Z.to_nat 4098)) 4098 (boot world_signed) = Fault /\
  write_block 0 (repeat 1 (Z.to_nat 4098)) 4098 (boot world_signed)
    <> Ok (tt, boot world_signed).
Proof.
  split; [reflexivity |].
  assert (H : write_block 0 (repeat 1 (Z.to_nat 4098)) 4098 (boot world_signed)
              = Fault) by (vm_compute; reflexivity).
  split; [exact H | rewrite H; discriminate].
Qed.


(** C2.  [_mark_dirty(127, 2)]: the two bytes lie in lines 0 and 1, the
    loop marks line 0, steps [loc] to 255, which is past [end = 129], and
    stops: line 1 is left clean. *)
Theorem mark_dirty_skips_second_line :
  Z.shiftr 127 PX4_STORAGE_LINE_SHIFT = 0 /\
  Z.shiftr (127 + 2 - 1) PX4_STORAGE_LINE_SHIFT = 1 /\
  exists s', _mark_dirty 127 2 (boot world_signed) = Ok (tt, s') /\
    _dirty_mask (obj s') = 1 /\
    Z.testbit (_dirty_mask (obj s')) 0 = true /\
    Z.testbit (_dirty_mask (obj s')) 1 = false.
Proof.
  split; [reflexivity |]. split; [reflexivity |].
  eexists. split; [vm_compute; reflexivity |].
  cbn [obj _dirty_mask]. repeat split.
Qed.

(** The same through [write_block], and what becomes of the write: the
    next invocation of [_timer_tick] writes line 0, finds the mask clear
    and syncs, and byte 128 of the device never receives the 2 that
    [_buffer] holds. *)
Lemma write_across_lines_is_half_flushed :
  exists s1 s2,
    write_block 127 [1; 2] 2 (boot world_signed) = Ok (tt, s1) /\
    slice (_buffer (obj s1)) 127 2 = [1; 2] /\
    _dirty_mask (obj s1) = 1 /\
    _timer_tick (mkTickIO 7 0 128 0) s1 = Ok (tt, s2) /\
    _dirty_mask (obj s2) = 0 /\
    slice (_buffer (obj s2)) 127 2 = [1; 2] /\
    option_map (fun d => slice d 127 2) (mtd (world s2)) = Some [1; 0].
Proof.
  eexists. eexists. split; [vm_compute; reflexivity |].
  split; [vm_compute; reflexivity |].
  split; [reflexivity |].
  split; [vm_compute; reflexivity |].
  split; [reflexivity |].
  split; vm_compute; reflexivity.
Qed.

(** C9.  On a store that has not been opened yet, [write_block(0, {0}, 1)]
    compares the 0 with the still empty [_buffer], finds no difference and
    returns without opening the store or writing; [read_block(0, 1)] then
    opens the store and returns the 5 the device holds. *)
Theorem write_before_open_is_dropped :
  0 + 1 <= PX4_STORAGE_SIZE /\
  exists s1 s2 got,
    write_block 0 [0] 1 (boot world_signed) = Ok (tt, s1) /\
    read_block [9] 0 1 s1 = Ok (got, s2) /\
    got = [5] /\ got <> [0].
Proof.
  split; [discriminate |].
  eexists. eexists. eexists. split; [vm_compute; reflexivity |].
  split; [vm_compute; reflexivity |].
  split; [reflexivity | discriminate].
Qed.

End PX4.

(** ** Opening the store *)

Ltac run_os :=
  cbv beta iota zeta delta
    [sys_stat sys_open sys_lseek sys_read sys_close printf
     open_r lseek_r open_result lseek_result
     file_of log set_fds set_mtd move_to
     fd_lookup fd_update fd_remove of_path of_mode of_pos
     mtd old_file fds perf_errors trace fst snd].

Lemma fresh_fd_ge (t : list (Z * OpenFile)) : 3 <= fresh_fd t.
Proof.
  induction t as [| [k f] r IH]; unfold fresh_fd in *; cbn [fold_right fst]; lia.
Qed.

Lemma fresh_fd_not_minus_one (t : list (Z * OpenFile)) : (fresh_fd t =? -1) = false.
Proof. pose proof (fresh_fd_ge t). apply Z.eqb_neq. lia. Qed.

Lemma fresh_fd_cons_neq (k : Z) (f : OpenFile) (t : list (Z * OpenFile)) :
  (fresh_fd ((k, f) :: t) =? k) = false.
Proof. apply Z.eqb_neq. unfold fresh_fd. cbn [fold_right fst]. lia. Qed.

(** A [write] that the device has room for. *)
Lemma sys_write_fits (fd pos : Z) (d dev : list Z) (old : option (list Z))
    (tab : list (Z * OpenFile)) (errs : Z) (tr : list Event) :
  0 <= pos -> 0 < len d -> pos + len d <= len dev ->
  sys_write fd d
    (mkWorld (Some dev) old
       ((fd, mkOpenFile MTD_PARAMS_FILE O_WRONLY pos) :: tab) errs tr)
  = (len d,
     mkWorld (Some (splice dev pos d)) old
       ((fd, mkOpenFile MTD_PARAMS_FILE O_WRONLY (pos + len d)) :: tab) errs
       (EWrite fd d (len d) :: tr)).
Proof.
  intros Hpos Hd Hfit.
  unfold sys_write, write_r, write_result, store_at, room.
  cbn [fd_lookup fds of_mode of_path of_pos mtd fd_update move_to].
  rewrite Z.eqb_refl. cbn [of_mode of_path of_pos].
  replace (Z.min (len d) (Z.max 0 (len dev - pos))) with (len d) by lia.
  destruct (Z.ltb_spec 0 (len d)); [| lia].
  replace (Z.min (len d) (Z.max 0 (len dev - pos))) with (len d) by lia.
  replace (firstn (Z.to_nat (len d)) d) with d
    by (unfold len; rewrite Nat2Z.id, firstn_all; reflexivity).
  reflexivity.
Qed.

Lemma signature_offset_nonneg : (0 <=? MTD_SIGNATURE_OFFSET) = true.
Proof. reflexivity. Qed.

Lemma stat_failed : (-1 =? 0) = false.
Proof. reflexivity. Qed.

Ltac steps :=
  repeat (progress (run; run_os;
                    rewrite ?Z.eqb_refl, ?fresh_fd_not_minus_one,
                      ?fresh_fd_cons_neq, ?signature_offset_nonneg,
                      ?stat_failed)).

Section OpenFacts.

Context {params : StorageParams}.

Lemma mtd_signature_returns (o : PX4Storage) (dev : list Z)
    (old : option (list Z)) (tab : list (Z * OpenFile)) (errs : Z)
    (tr : list Event) :
  MTD_SIGNATURE_OFFSET + 4 <= len dev ->
  let fd := fresh_fd tab in
  _mtd_signature (mkState o (mkWorld (Some dev) old tab errs tr))
  = Ok (le_value (slice dev MTD_SIGNATURE_OFFSET 4),
        mkState o (mkWorld (Some dev) old tab errs
          (EClose fd :: ERead fd 4 4
           :: ELseek fd MTD_SIGNATURE_OFFSET MTD_SIGNATURE_OFFSET
           :: EOpen MTD_PARAMS_FILE O_RDONLY fd :: tr))).
Proof.
  intros Hlen. cbn zeta.
  assert (Hsl : len (slice dev MTD_SIGNATURE_OFFSET 4) = 4).
  { apply slice_length; unfold MTD_SIGNATURE_OFFSET in *; lia. }
  unfold _mtd_signature. steps. rewrite Hsl. steps. reflexivity.
Qed.

Lemma splice_length (a : list Z) (off : Z) (d : list Z) :
  0 <= off -> off + len d <= len a -> len (splice a off d) = len a.
Proof.
  intros Hoff Hle. unfold splice, len in *.
  rewrite !length_app, length_firstn, length_skipn. lia.
Qed.

Lemma slice_splice (a : list Z) (off : Z) (d : list Z) :
  0 <= off -> off + len d <= len a -> slice (splice a off d) off (len d) = d.
Proof.
  intros Hoff Hle. unfold slice, splice, len in *.
  rewrite skipn_app, length_firstn.
  replace (Z.to_nat off - Nat.min (Z.to_nat off) (List.length a))%nat with 0%nat by lia.
  rewrite skipn_firstn_comm.
  replace (Z.to_nat off - Z.to_nat off)%nat with 0%nat by lia.
  cbn [firstn skipn app]. rewrite Nat2Z.id, firstn_app, firstn_all.
  replace (List.length d - List.length d)%nat with 0%nat by lia.
  cbn [firstn]. apply app_nil_r.
Qed.

Lemma slice_whole (a : list Z) (n : Z) : len a <= n -> slice a 0 n = a.
Proof.
  intros Hn. unfold slice, len in *. cbn [Z.to_nat skipn].
  apply firstn_all2. lia.
Qed.

Lemma mtd_write_signature_returns (o : PX4Storage) (dev : list Z)
    (old : option (list Z)) (tab : list (Z * OpenFile)) (errs : Z)
    (tr : list Event) :
  MTD_SIGNATURE_OFFSET + 4 <= len dev ->
  let fd := fresh_fd tab in
  _mtd_write_signature (mkState o (mkWorld (Some dev) old tab errs tr))
  = Ok (tt,
        mkState o (mkWorld
          (Some (splice dev MTD_SIGNATURE_OFFSET (le_bytes 4 MTD_SIGNATURE)))
          old tab errs
          (EClose fd :: EWrite fd (le_bytes 4 MTD_SIGNATURE) 4
           :: ELseek fd MTD_SIGNATURE_OFFSET MTD_SIGNATURE_OFFSET
           :: EOpen MTD_PARAMS_FILE O_WRONLY fd :: tr))).
Proof.
  intros Hlen. cbn zeta.
  assert (Hd : len (le_bytes 4 MTD_SIGNATURE) = 4) by reflexivity.
  unfold _mtd_write_signature. steps.
  rewrite sys_write_fits by (unfold MTD_SIGNATURE_OFFSET in *; lia).
  steps. rewrite Hd. steps. reflexivity.
Qed.

(** The migration with a legacy file shorter than the region: the short
    read lands in [_buffer], both descriptors are closed, a line is
    printed and the device is not written. *)
Lemma upgrade_to_mtd_short_read (o : PX4Storage) (dev f : list Z)
    (tab : list (Z * OpenFile)) (errs : Z) (tr : list Event) :
  len f < PX4_STORAGE_SIZE ->
  let old_fd := fresh_fd tab in
  let mtd_fd := fresh_fd ((old_fd, mkOpenFile OLD_STORAGE_FILE O_RDONLY 0) :: tab) in
  _upgrade_to_mtd (mkState o (mkWorld (Some dev) (Some f) tab errs tr))
  = Ok (tt,
        mkState (set_buffer (splice (_buffer o) 0 f) o)
          (mkWorld (Some dev) (Some f) tab errs
             (EPrintf "Failed to read OLD_STORAGE_FILE"
              :: EClose mtd_fd :: EClose old_fd
              :: ERead old_fd PX4_STORAGE_SIZE (len f)
              :: EOpen MTD_PARAMS_FILE O_WRONLY mtd_fd
              :: EOpen OLD_STORAGE_FILE O_RDONLY old_fd :: tr))).
Proof.
  intros Hshort. cbn zeta.
  destruct o as [fd ini have buf mask].
  unfold _upgrade_to_mtd. steps.
  unfold sizeof_buffer. rewrite slice_whole by lia.
  destruct (Z.eqb_spec (len f) PX4_STORAGE_SIZE) as [He | _]; [lia |].
  steps. reflexivity.
Qed.


(** The migration with a legacy file that fills the region: its first
    [PX4_STORAGE_SIZE] bytes go through [_buffer] to the start of the
    device. *)
Lemma upgrade_to_mtd_copies (o : PX4Storage) (dev f : list Z)
    (tab : list (Z * OpenFile)) (errs : Z) (tr : list Event) :
  len (_buffer o) = PX4_STORAGE_SIZE ->
  0 < PX4_STORAGE_SIZE <= len dev ->
  PX4_STORAGE_SIZE <= len f ->
  let old_fd := fresh_fd tab in
  let mtd_fd := fresh_fd ((old_fd, mkOpenFile OLD_STORAGE_FILE O_RDONLY 0) :: tab) in
  let data := slice f 0 PX4_STORAGE_SIZE in
  _upgrade_to_mtd (mkState o (mkWorld (Some dev) (Some f) tab errs tr))
  = Ok (tt,
        mkState (set_buffer (splice (_buffer o) 0 data) o)
          (mkWorld (Some (splice dev 0 data)) (Some f) tab errs
             (EPrintf "Upgraded MTD from OLD_STORAGE_FILE"
              :: EClose mtd_fd
              :: EWrite mtd_fd data PX4_STORAGE_SIZE
              :: EClose old_fd
              :: ERead old_fd PX4_STORAGE_SIZE PX4_STORAGE_SIZE
              :: EOpen MTD_PARAMS_FILE O_WRONLY mtd_fd
              :: EOpen OLD_STORAGE_FILE O_RDONLY old_fd :: tr))).
Proof.
  intros Hbuf Hdev Hf. cbn zeta.
  assert (Hd : len (slice f 0 PX4_STORAGE_SIZE) = PX4_STORAGE_SIZE)
    by (apply slice_length; lia).
  assert (Hsp : len (splice (_buffer o) 0 (slice f 0 PX4_STORAGE_SIZE))
                = PX4_STORAGE_SIZE)
    by (rewrite splice_length; lia).
  assert (Hrd : mem_read (splice (_buffer o) 0 (slice f 0 PX4_STORAGE_SIZE))
                  0 PX4_STORAGE_SIZE = Some (slice f 0 PX4_STORAGE_SIZE)).
  { rewrite mem_read_in_bounds by lia. f_equal.
    pose proof (slice_splice (_buffer o) 0 (slice f 0 PX4_STORAGE_SIZE)) as E.
    rewrite Hd in E. apply E; lia. }
  destruct o as [fd ini have buf mask]. cbn [_buffer] in *.
  unfold _upgrade_to_mtd. steps.
  unfold sizeof_buffer. rewrite Hd, Z.eqb_refl. steps.
  rewrite Hrd. steps.
  rewrite sys_write_fits by lia. steps.
  rewrite Hd, Z.eqb_refl. steps. reflexivity.
Qed.


Lemma splice_all (a d : list Z) : len d = len a -> splice a 0 d = d.
Proof.
  intros Hl. unfold splice, len in *. cbn [Z.to_nat firstn app Nat.add].
  rewrite skipn_all2 by lia. apply app_nil_r.
Qed.

(** Opening a store whose device carries the signature: no migration, no
    write; the region is loaded. *)
Lemma storage_open_signed (o : PX4Storage) (dev : list Z)
    (old : option (list Z)) (tab : list (Z * OpenFile)) (errs : Z)
    (tr : list Event) :
  _initialised o = false ->
  len (_buffer o) = PX4_STORAGE_SIZE ->
  0 <= PX4_STORAGE_SIZE <= len dev ->
  MTD_SIGNATURE_OFFSET + 4 <= len dev ->
  le_value (slice dev MTD_SIGNATURE_OFFSET 4) = MTD_SIGNATURE ->
  exists s',
    _storage_open (mkState o (mkWorld (Some dev) old tab errs tr)) = Ok (tt, s') /\
    obj s' = loaded o dev /\
    mtd (world s') = Some dev /\ old_file (world s') = old /\
    fds (world s') = tab /\ perf_errors (world s') = errs /\
    exists evs, trace (world s') = evs ++ tr /\
      List.length (filter is_open_run evs) = 1%nat /\
      existsb is_migration evs = false.
Proof.
  intros Hini Hbuf Hsize Hdev Hsig.
  assert (Hd : len (slice dev 0 PX4_STORAGE_SIZE) = PX4_STORAGE_SIZE)
    by (apply slice_length; lia).
  destruct o as [fd ini have buf mask]. cbn [_initialised _buffer] in *. subst ini.
  unfold _storage_open. steps.
  rewrite mtd_signature_returns by exact Hdev. steps.
  rewrite Hsig, Z.eqb_refl.
  destruct old as [f |]; steps.
  all: unfold sizeof_buffer; rewrite Hd, Z.eqb_refl; steps.
  all: rewrite splice_all by lia.
  all: eexists; split; [reflexivity |]; cbn [obj world mtd old_file fds perf_errors trace].
  all: repeat (split; [reflexivity |]); give_events; split; reflexivity.
Qed.


Lemma signed_length (dev : list Z) :
  MTD_SIGNATURE_OFFSET + 4 <= len dev ->
  len (splice dev MTD_SIGNATURE_OFFSET (le_bytes 4 MTD_SIGNATURE)) = len dev.
Proof.
  intros Hdev. apply splice_length; [discriminate |].
  change (len (le_bytes 4 MTD_SIGNATURE)) with 4. exact Hdev.
Qed.

(** Opening a store whose device carries no signature, with no legacy
    file: the signature is written and the region is loaded. *)
Lemma storage_open_unsigned (o : PX4Storage) (dev : list Z)
    (tab : list (Z * OpenFile)) (errs : Z) (tr : list Event) :
  _initialised o = false ->
  len (_buffer o) = PX4_STORAGE_SIZE ->
  0 <= PX4_STORAGE_SIZE <= len dev ->
  MTD_SIGNATURE_OFFSET + 4 <= len dev ->
  le_value (slice dev MTD_SIGNATURE_OFFSET 4) <> MTD_SIGNATURE ->
  let dev' := splice dev MTD_SIGNATURE_OFFSET (le_bytes 4 MTD_SIGNATURE) in
  exists s',
    _storage_open (mkState o (mkWorld (Some dev) None tab errs tr)) = Ok (tt, s') /\
    obj s' = loaded o dev' /\
    mtd (world s') = Some dev' /\ old_file (world s') = None /\
    fds (world s') = tab /\ perf_errors (world s') = errs /\
    exists evs, trace (world s') = evs ++ tr /\
      List.length (filter is_open_run evs) = 1%nat /\
      existsb is_migration evs = false.
Proof.
  intros Hini Hbuf Hsize Hdev Hsig. cbn zeta.
  pose proof (signed_length dev Hdev) as Hl.
  assert (Hd : len (slice (splice dev MTD_SIGNATURE_OFFSET (le_bytes 4 MTD_SIGNATURE))
                      0 PX4_STORAGE_SIZE) = PX4_STORAGE_SIZE)
    by (apply slice_length; lia).
  apply Z.eqb_neq in Hsig.
  destruct o as [fd ini have buf mask]. cbn [_initialised _buffer] in *. subst ini.
  unfold _storage_open. steps.
  rewrite mtd_signature_returns by exact Hdev. steps.
  rewrite Hsig. steps.
  rewrite mtd_write_signature_returns by exact Hdev. steps.
  unfold sizeof_buffer; rewrite Hd, Z.eqb_refl; steps.
  rewrite splice_all by lia.
  eexists; split; [reflexivity |]; cbn [obj world mtd old_file fds perf_errors trace].
  repeat (split; [reflexivity |]); give_events; split; reflexivity.
Qed.

(** Opening a store whose device carries no signature, next to a legacy
    file shorter than the region: the migration gives up with a printed
    line, and the signature is written all the same. *)
Lemma storage_open_short_legacy (o : PX4Storage) (dev f : list Z)
    (tab : list (Z * OpenFile)) (errs : Z) (tr : list Event) :
  _initialised o = false ->
  len (_buffer o) = PX4_STORAGE_SIZE ->
  0 <= PX4_STORAGE_SIZE <= len dev ->
  MTD_SIGNATURE_OFFSET + 4 <= len dev ->
  le_value (slice dev MTD_SIGNATURE_OFFSET 4) <> MTD_SIGNATURE ->
  len f < PX4_STORAGE_SIZE ->
  let dev' := splice dev MTD_SIGNATURE_OFFSET (le_bytes 4 MTD_SIGNATURE) in
  exists s',
    _storage_open (mkState o (mkWorld (Some dev) (Some f) tab errs tr)) = Ok (tt, s') /\
    obj s' = loaded o dev' /\
    mtd (world s') = Some dev' /\ old_file (world s') = Some f /\
    fds (world s') = tab /\ perf_errors (world s') = errs /\
    exists evs, trace (world s') = evs ++ tr /\
      List.length (filter is_open_run evs) = 1%nat /\
      In (EPrintf "Failed to read OLD_STORAGE_FILE") evs /\
      (forall fd d r, In (EWrite fd d r) evs -> d = le_bytes 4 MTD_SIGNATURE).
Proof.
  intros Hini Hbuf Hsize Hdev Hsig Hshort. cbn zeta.
  pose proof (signed_length dev Hdev) as Hl.
  assert (Hd : len (slice (splice dev MTD_SIGNATURE_OFFSET (le_bytes 4 MTD_SIGNATURE))
                      0 PX4_STORAGE_SIZE) = PX4_STORAGE_SIZE)
    by (apply slice_length; lia).
  assert (Hb : len (splice (_buffer o) 0 f) = PX4_STORAGE_SIZE)
    by (rewrite splice_length; lia).
  apply Z.eqb_neq in Hsig.
  destruct o as [fd ini have buf mask]. cbn [_initialised _buffer] in *. subst ini.
  unfold _storage_open. steps.
  rewrite mtd_signature_returns by exact Hdev. steps.
  rewrite Hsig. steps.
  rewrite upgrade_to_mtd_short_read by exact Hshort. steps.
  rewrite mtd_write_signature_returns by exact Hdev. steps.
  unfold sizeof_buffer; rewrite Hd, Z.eqb_refl; steps.
  rewrite splice_all by lia.
  eexists; split; [reflexivity |]; cbn [obj world mtd old_file fds perf_errors trace].
  repeat (split; [reflexivity |]); give_events.
  split; [reflexivity |]. split; [cbn [In]; tauto |].
  intros fd' d r HIn.
  repeat (destruct HIn as [HIn | HIn]; try discriminate HIn); try contradiction.
  inversion HIn. reflexivity.
Qed.

(** Opening a store whose device carries no signature, next to a legacy
    file that fills the region: the file's bytes are copied to the device,
    the signature is written, and the region is loaded from the device. *)
Lemma storage_open_migrates (o : PX4Storage) (dev f : list Z)
    (tab : list (Z * OpenFile)) (errs : Z) (tr : list Event) :
  _initialised o = false ->
  len (_buffer o) = PX4_STORAGE_SIZE ->
  0 < PX4_STORAGE_SIZE <= len dev ->
  MTD_SIGNATURE_OFFSET + 4 <= len dev ->
  le_value (slice dev MTD_SIGNATURE_OFFSET 4) <> MTD_SIGNATURE ->
  PX4_STORAGE_SIZE <= len f ->
  let dev' := splice (splice dev 0 (slice f 0 PX4_STORAGE_SIZE))
                MTD_SIGNATURE_OFFSET (le_bytes 4 MTD_SIGNATURE) in
  exists s',
    _storage_open (mkState o (mkWorld (Some dev) (Some f) tab errs tr)) = Ok (tt, s') /\
    obj s' = loaded o dev' /\
    mtd (world s') = Some dev' /\ old_file (world s') = Some f /\
    fds (world s') = tab /\ perf_errors (world s') = errs /\
    exists evs, trace (world s') = evs ++ tr /\
      List.length (filter is_open_run evs) = 1%nat /\
      existsb is_migration evs = true.
Proof.
  intros Hini Hbuf Hsize Hdev Hsig Hfull. cbn zeta.
  assert (Hf : len (slice f 0 PX4_STORAGE_SIZE) = PX4_STORAGE_SIZE)
    by (apply slice_length; lia).
  assert (Hc : len (splice dev 0 (slice f 0 PX4_STORAGE_SIZE)) = len dev)
    by (apply splice_length; lia).
  assert (Hdev' : MTD_SIGNATURE_OFFSET + 4
                  <= len (splice dev 0 (slice f 0 PX4_STORAGE_SIZE))) by lia.
  pose proof (signed_length _ Hdev') as Hl.
  assert (Hd : len (slice (splice (splice dev 0 (slice f 0 PX4_STORAGE_SIZE))
                             MTD_SIGNATURE_OFFSET (le_bytes 4 MTD_SIGNATURE))
                      0 PX4_STORAGE_SIZE) = PX4_STORAGE_SIZE)
    by (apply slice_length; lia).
  assert (Hb : len (splice (_buffer o) 0 (slice f 0 PX4_STORAGE_SIZE))
               = PX4_STORAGE_SIZE)
    by (rewrite splice_length; lia).
  apply Z.eqb_neq in Hsig.
  destruct o as [fd ini have buf mask]. cbn [_initialised _buffer] in *. subst ini.
  unfold _storage_open. steps.
  rewrite mtd_signature_returns by exact Hdev. steps.
  rewrite Hsig. steps.
  rewrite upgrade_to_mtd_copies by (cbn [_buffer]; lia). steps.
  rewrite mtd_write_signature_returns by exact Hdev'. steps.
  unfold sizeof_buffer; rewrite Hd, Z.eqb_refl; steps.
  rewrite splice_all by lia.
  eexists; split; [reflexivity |]; cbn [obj world mtd old_file fds perf_errors trace].
  repeat (split; [reflexivity |]); give_events; split; reflexivity.
Qed.


Lemma new_buffer_length :
  0 <= PX4_STORAGE_SIZE -> len (_buffer new_PX4Storage) = PX4_STORAGE_SIZE.
Proof.
  intros Hs. unfold len, new_PX4Storage. cbn [_buffer].
  rewrite repeat_length. lia.
Qed.

Lemma signature_written (dev : list Z) :
  MTD_SIGNATURE_OFFSET + 4 <= len dev ->
  le_value (slice (splice dev MTD_SIGNATURE_OFFSET (le_bytes 4 MTD_SIGNATURE))
              MTD_SIGNATURE_OFFSET 4) = MTD_SIGNATURE.
Proof.
  intros Hdev.
  pose proof (slice_splice dev MTD_SIGNATURE_OFFSET (le_bytes 4 MTD_SIGNATURE)) as E.
  change (len (le_bytes 4 MTD_SIGNATURE)) with 4 in E.
  rewrite E; [reflexivity | discriminate | exact Hdev].
Qed.

(** C1, as the code has it.  Opening a store whose device carries no
    signature, next to a legacy file shorter than the region: the
    migration is given up with a printed line and without a write to the
    device, the store is opened from the device as it is, and the
    signature is written by the same call; at the next boot the signature
    is found and the legacy file is not looked into again. *)
Theorem failed_migration_still_signs (s : State) (dev f : list Z) :
  _initialised (obj s) = false ->
  len (_buffer (obj s)) = PX4_STORAGE_SIZE ->
  PX4_STORAGE_SIZE <= len dev ->
  MTD_SIGNATURE_OFFSET + 4 <= len dev ->
  mtd (world s) = Some dev ->
  signature_of (world s) <> Some MTD_SIGNATURE ->
  old_file (world s) = Some f ->
  len f < PX4_STORAGE_SIZE ->
  exists s',
    _storage_open s = Ok (tt, s') /\
    _initialised (obj s') = true /\
    (exists evs, trace (world s') = evs ++ trace (world s) /\
       In (EPrintf "Failed to read OLD_STORAGE_FILE") evs /\
       forall fd d r, In (EWrite fd d r) evs -> d = le_bytes 4 MTD_SIGNATURE) /\
    mtd (world s')
      = Some (splice dev MTD_SIGNATURE_OFFSET (le_bytes 4 MTD_SIGNATURE)) /\
    signature_of (world s') = Some MTD_SIGNATURE /\
    exists s'',
      _storage_open (boot (world s')) = Ok (tt, s'') /\
      exists evs, trace (world s'') = evs ++ trace (world s') /\
        existsb is_migration evs = false.
Proof.
  intros Hini Hbuf Hsize Hdev Hmtd Hsig Hold Hshort.
  assert (Hs0 : 0 <= PX4_STORAGE_SIZE) by (rewrite <- Hbuf; unfold len; lia).
  destruct s as [o [m old tab errs tr]].
  cbn [obj world mtd old_file trace] in *. subst m old.
  unfold signature_of in Hsig. cbn [mtd] in Hsig.
  destruct (Z.leb_spec (MTD_SIGNATURE_OFFSET + 4) (len dev)) as [_ | Hn]; [| lia].
  assert (Hsig' : le_value (slice dev MTD_SIGNATURE_OFFSET 4) <> MTD_SIGNATURE)
    by (intros E; apply Hsig; rewrite E; reflexivity).
  destruct (storage_open_short_legacy o dev f tab errs tr Hini Hbuf
              (conj Hs0 Hsize) Hdev Hsig' Hshort)
    as (s' & Hrun & Hobj & Hm & Hof & Hfds & Herrs & evs & Htr & _ & Hprint & Hwrites).
  exists s'. split; [exact Hrun |].
  split; [rewrite Hobj; reflexivity |].
  split; [exists evs; repeat split; assumption |].
  split; [exact Hm |].
  pose proof (signed_length dev Hdev) as Hl.
  pose proof (signature_written dev Hdev) as Hnow.
  split.
  { unfold signature_of. rewrite Hm, Hl.
    destruct (Z.leb_spec (MTD_SIGNATURE_OFFSET + 4) (len dev)); [| lia].
    rewrite Hnow. reflexivity. }
  destruct s' as [o' [m' old' tab' errs' tr']].
  cbn [obj world mtd old_file fds perf_errors trace] in *. subst m' old' tab' errs'.
  destruct (storage_open_signed new_PX4Storage
              (splice dev MTD_SIGNATURE_OFFSET (le_bytes 4 MTD_SIGNATURE))
              (Some f) tab errs tr' eq_refl (new_buffer_length Hs0)
              ltac:(lia) ltac:(lia) Hnow)
    as (s'' & Hrun' & _ & _ & _ & _ & _ & evs' & Htr' & _ & Hmig).
  exists s''. split; [exact Hrun' |]. exists evs'. split; assumption.
Qed.

End OpenFacts.

Section PX4Open.

#[local] Existing Instance px4_params.

(** C1, against the claim: the device has no signature, the legacy file
    has three bytes instead of the region's 4096; [_storage_open] prints
    that the read failed and returns with the signature written. *)
Lemma failed_migration_writes_signature :
  signature_of world_short_legacy = Some 0 /\
  old_file world_short_legacy = Some [1; 2; 3] /\
  exists s',
    _storage_open (boot world_short_legacy) = Ok (tt, s') /\
    In (EPrintf "Failed to read OLD_STORAGE_FILE") (trace (world s')) /\
    signature_of (world s') = Some MTD_SIGNATURE /\
    signature_of (world s') <> signature_of world_short_legacy.
Proof.
  split; [vm_compute; reflexivity |]. split; [reflexivity |].
  eexists. split; [vm_compute; reflexivity |].
  split; [cbn [world trace In]; tauto |].
  split; [vm_compute; reflexivity | vm_compute; discriminate].
Qed.

(** With a legacy file of the region's size the region is the file's
    bytes after opening, and the device is signed. *)
Lemma migration_copies_legacy_store :
  exists s',
    _storage_open (boot world_full_legacy) = Ok (tt, s') /\
    _buffer (obj s') = repeat 9 (Z.to_nat 4096) /\
    signature_of (world s') = Some MTD_SIGNATURE.
Proof.
  eexists. split; [vm_compute; reflexivity |].
  split; vm_compute; reflexivity.
Qed.

Lemma failed_migration_still_signs_witness :
  exists s',
    _storage_open (boot world_short_legacy) = Ok (tt, s') /\
    signature_of (world s') = Some MTD_SIGNATURE.
Proof.
  destruct (failed_migration_still_signs (boot world_short_legacy)
              blank_device [1; 2; 3])
    as (s' & Hrun & _ & _ & _ & Hsig & _).
  - reflexivity.
  - vm_compute. reflexivity.
  - vm_compute. discriminate.
  - vm_compute. discriminate.
  - reflexivity.
  - vm_compute. discriminate.
  - reflexivity.
  - vm_compute. reflexivity.
  - exists s'. split; assumption.
Defined.

End PX4Open.

(** ** How often the store is opened *)

Lemma bind_ok {A B} (c : M A) (k : A -> M B) (s : State) (b : B) (s' : State) :
  bind c k s = Ok (b, s') ->
  exists a s1, c s = Ok (a, s1) /\ k a s1 = Ok (b, s').
Proof.
  unfold bind. destruct (c s) as [[a s1] | | |]; try discriminate.
  intros H. exists a, s1. split; [reflexivity | exact H].
Qed.

Section OpenCount.

Context {params : StorageParams}.

Lemma quiet_refl (s : State) : quiet s s.
Proof. split; reflexivity. Qed.

Lemma quiet_trans (s1 s2 s3 : State) : quiet s1 s2 -> quiet s2 s3 -> quiet s1 s3.
Proof. intros [H1 H2] [H3 H4]. split; congruence. Qed.

Lemma at_most_once_refl (s : State) : at_most_once s s.
Proof. left. apply quiet_refl. Qed.

Lemma at_most_once_trans (s1 s2 s3 : State) :
  at_most_once s1 s2 -> at_most_once s2 s3 -> at_most_once s1 s3.
Proof.
  intros [[H1 H2] | (H1 & H2 & H3)] [[H4 H5] | (H4 & H5 & H6)].
  - left. split; congruence.
  - right. repeat split; congruence.
  - right. repeat split; congruence.
  - congruence.
Qed.

Lemma respects_ret (R : State -> State -> Prop) {A} (a : A) :
  (forall s, R s s) -> respects R (ret a).
Proof. intros Hr s b s' H. inversion H. apply Hr. Qed.

Lemma respects_bind (R : State -> State -> Prop) {A B} (c : M A) (k : A -> M B) :
  (forall s1 s2 s3, R s1 s2 -> R s2 s3 -> R s1 s3) ->
  respects R c -> (forall a, respects R (k a)) -> respects R (bind c k).
Proof.
  intros Ht Hc Hk s b s' H.
  destruct (bind_ok _ _ _ _ _ H) as (a & s1 & H1 & H2).
  exact (Ht _ _ _ (Hc _ _ _ H1) (Hk a _ _ _ H2)).
Qed.

Lemma quiet_ret {A} (a : A) : respects quiet (ret a).
Proof. apply respects_ret. exact quiet_refl. Qed.

Lemma quiet_bind {A B} (c : M A) (k : A -> M B) :
  respects quiet c -> (forall a, respects quiet (k a)) -> respects quiet (bind c k).
Proof. apply respects_bind. exact quiet_trans. Qed.

Lemma quiet_get_obj : respects quiet get_obj.
Proof. intros s a s' H. inversion H. apply quiet_refl. Qed.

Lemma quiet_modify_obj (f : PX4Storage -> PX4Storage) :
  (forall o, _initialised (f o) = _initialised o) -> respects quiet (modify_obj f).
Proof. intros Hf s a s' H. inversion H. split; [reflexivity | apply Hf]. Qed.

Lemma quiet_sys {A} (call : World -> A * World) :
  silent call -> respects quiet (sys call).
Proof.
  intros Hc s a s' H. inversion H. split; [| reflexivity].
  unfold open_runs. cbn [world]. rewrite Hc. reflexivity.
Qed.

Lemma quiet_panic_if (c : bool) (msg : string) : respects quiet (panic_if c msg).
Proof.
  destruct c; cbn [panic_if]; [intros s a s' H; discriminate H | apply quiet_ret].
Qed.

Lemma quiet_fault {A} : respects quiet (@fault A).
Proof. intros s a s' H. discriminate H. Qed.

Lemma quiet_hang {A} : respects quiet (@hang A).
Proof. intros s a s' H. discriminate H. Qed.

Lemma silent_open (p : Path) (m : OpenMode) : silent (sys_open p m).
Proof. intros w. unfold sys_open. rewrite trace_open_r. reflexivity. Qed.

Lemma silent_lseek (fd off : Z) : silent (sys_lseek fd off).
Proof. intros w. unfold sys_lseek. rewrite trace_lseek_r. reflexivity. Qed.

Lemma silent_write (fd : Z) (d : list Z) : silent (sys_write fd d).
Proof. intros w. unfold sys_write. rewrite trace_write_r. reflexivity. Qed.

Lemma silent_read (fd n : Z) : silent (sys_read fd n).
Proof.
  intros w. unfold sys_read.
  destruct (fd_lookup fd (fds w)) as [f |]; [| reflexivity].
  destruct (of_mode f); [| reflexivity].
  destruct (file_of w (of_path f)); reflexivity.
Qed.

Lemma silent_close (fd : Z) : silent (sys_close fd).
Proof. intros w. reflexivity. Qed.

Lemma silent_printf (msg : string) : silent (printf msg).
Proof. intros w. reflexivity. Qed.

Lemma silent_stat_old : silent (sys_stat OLD_STORAGE_FILE).
Proof. intros w. reflexivity. Qed.

(** Takes a computation apart along its binds and branches. *)
Ltac quiet_steps :=
  repeat first
    [ apply quiet_ret
    | apply quiet_get_obj
    | apply quiet_panic_if
    | apply quiet_fault
    | apply quiet_hang
    | apply quiet_modify_obj; intros ?; reflexivity
    | apply quiet_sys;
      first [ apply silent_open | apply silent_lseek | apply silent_write
            | apply silent_read | apply silent_close | apply silent_printf
            | apply silent_stat_old ]
    | apply quiet_bind; [| intros ?]
    | match goal with
      | |- respects quiet (if ?c then _ else _) => destruct c
      | |- respects quiet (match ?c with Some _ => _ | None => _ end) => destruct c
      end ].

Lemma quiet_read_to_buffer (fd n : Z) : respects quiet (read_to_buffer fd n).
Proof. unfold read_to_buffer. quiet_steps. Qed.

Lemma quiet_buffer_read (off n : Z) : respects quiet (buffer_read off n).
Proof.
  unfold buffer_read. apply quiet_bind; [apply quiet_get_obj |]. intros o.
  quiet_steps.
Qed.

Lemma quiet_buffer_write (off : Z) (d : list Z) : respects quiet (buffer_write off d).
Proof.
  unfold buffer_write. apply quiet_bind; [apply quiet_get_obj |]. intros o.
  quiet_steps.
Qed.

Lemma quiet_mark_dirty (loc length : Z) : respects quiet (_mark_dirty loc length).
Proof.
  unfold _mark_dirty. cbn zeta. apply quiet_bind; [apply quiet_get_obj |].
  intros o. quiet_steps.
Qed.

Lemma initialises_bind {A B} (c : M A) (k : A -> M B) :
  respects quiet c -> (forall a, respects initialises (k a)) ->
  respects initialises (bind c k).
Proof.
  intros Hc Hk s b s' H.
  destruct (bind_ok _ _ _ _ _ H) as (a & s1 & H1 & H2).
  destruct (Hc _ _ _ H1) as [Q1 Q2]. destruct (Hk a _ _ _ H2) as [I1 I2].
  split; congruence.
Qed.

(** What [_storage_open] does after the [stat] of the device. *)
Lemma storage_open_body_initialises (st : Z) :
  respects initialises
    (modify_obj (set_have_mtd (st =? 0)) ;;
     panic_if (negb (st =? 0)) "Failed to find /fs/mtd" ;;
     sig <- _mtd_signature ;;
     let good_signature := sig =? MTD_SIGNATURE in
     st <- sys (sys_stat OLD_STORAGE_FILE) ;;
     (if st =? 0 then
        if good_signature then ret tt else _upgrade_to_mtd
      else ret tt) ;;
     (if negb good_signature then _mtd_write_signature else ret tt) ;;
     modify_obj (set_dirty_mask 0) ;;
     fd <- sys (sys_open MTD_PARAMS_FILE O_RDONLY) ;;
     panic_if (fd =? -1) "Failed to open /fs/mtd" ;;
     r <- read_to_buffer fd sizeof_buffer ;;
     panic_if (negb (r =? sizeof_buffer)) "Failed to read /fs/mtd" ;;
     sys (sys_close fd) ;;
     modify_obj (set_initialised true)).
Proof.
  cbn zeta.
  repeat (apply initialises_bind; [| intros ?]).
  all: try (intros ? ? ? H; inversion H; split; reflexivity).
  all: quiet_steps.
Qed.

(** [_storage_open] on an initialised store does nothing; otherwise, when
    it returns, its body has run once and the store is initialised. *)
Lemma storage_open_once (s s' : State) :
  _storage_open s = Ok (tt, s') ->
  (_initialised (obj s) = true -> s' = s) /\
  (_initialised (obj s) = false ->
   open_runs s' = S (open_runs s) /\ _initialised (obj s') = true).
Proof.
  unfold _storage_open. intros H.
  destruct (bind_ok _ _ _ _ _ H) as (o & s0 & H0 & H1). clear H.
  inversion H0; subst o s0. clear H0.
  destruct (_initialised (obj s)) eqn:Hini.
  - inversion H1. split; [reflexivity | discriminate].
  - split; [discriminate | intros _].
    destruct (bind_ok _ _ _ _ _ H1) as (st & s1 & Hst & H2). clear H1.
    inversion Hst; subst st s1. clear Hst.
    destruct (storage_open_body_initialises _ _ _ _ H2) as [Hr Hi].
    split; [| exact Hi]. rewrite Hr. reflexivity.
Qed.

Lemma storage_open_at_most_once : respects at_most_once _storage_open.
Proof.
  intros s [] s' H. destruct (storage_open_once s s' H) as [Ht Hf].
  destruct (_initialised (obj s)) eqn:Hini.
  - rewrite (Ht eq_refl). apply at_most_once_refl.
  - right. destruct (Hf eq_refl). repeat split; assumption.
Qed.


Lemma once_of_quiet {A} (c : M A) : respects quiet c -> respects at_most_once c.
Proof. intros Hc s a s' H. left. exact (Hc _ _ _ H). Qed.

Lemma once_bind {A B} (c : M A) (k : A -> M B) :
  respects at_most_once c -> (forall a, respects at_most_once (k a)) ->
  respects at_most_once (bind c k).
Proof. apply respects_bind. exact at_most_once_trans. Qed.

Ltac quiet_all :=
  repeat first
    [ apply quiet_buffer_read | apply quiet_buffer_write
    | apply quiet_mark_dirty | progress quiet_steps ].

Ltac once_steps :=
  repeat first
    [ apply storage_open_at_most_once
    | apply once_of_quiet; solve [quiet_all]
    | apply once_bind; [| intros ?]
    | match goal with
      | |- respects at_most_once (if ?c then _ else _) => destruct c
      end ].

(** No accessor call runs the body of [_storage_open] more than once, and
    none runs it on an initialised store. *)
Lemma call_at_most_once (c : Call) : respects at_most_once (run_call c).
Proof.
  destruct c; cbn [run_call];
    unfold read_byte, read_word, read_dword, read_block,
      write_byte, write_word, write_dword, write_block;
    once_steps.
Qed.

Lemma calls_at_most_once (cs : list Call) : respects at_most_once (run_calls cs).
Proof.
  induction cs as [| c r IH]; cbn [run_calls].
  - apply once_of_quiet. apply quiet_ret.
  - apply once_bind; [apply call_at_most_once | intros _; exact IH].
Qed.

(** What follows the call of [_storage_open] in a read leaves the count
    and the flag alone. *)
Lemma read_opens (s s' : State) {A B} (k : M A) (a : B) :
  respects quiet k ->
  _initialised (obj s) = false ->
  ((_storage_open ;; k) ;; ret a) s = Ok (a, s') ->
  open_runs s' = S (open_runs s) /\ _initialised (obj s') = true.
Proof.
  intros Hk Hini H.
  destruct (bind_ok _ _ _ _ _ H) as (x & s2 & H1 & H2). inversion H2; subst s2.
  destruct (bind_ok _ _ _ _ _ H1) as ([] & s1 & Hopen & Htail).
  destruct (storage_open_once _ _ Hopen) as [_ Hf].
  destruct (Hf Hini) as [Hr Hi]. destruct (Hk _ _ _ Htail) as [Qr Qi].
  split; congruence.
Qed.

(** The first read in range opens the store. *)
Lemma first_read_opens (c : Call) (s s' : State) :
  4 <= PX4_STORAGE_SIZE < 2 ^ 32 - 1 ->
  _initialised (obj s) = false ->
  in_range c -> is_read c = true ->
  run_call c s = Ok (tt, s') ->
  open_runs s' = S (open_runs s) /\ _initialised (obj s') = true.
Proof.
  intros Hs Hini (Hloc & Hn & Hfit) Hread.
  destruct c as [loc | loc | loc | dst loc n | | | |];
    cbn [call_loc call_size is_read] in *; try discriminate Hread;
    cbn [run_call].
  - unfold read_byte, sizeof_buffer.
    destruct (Z.leb_spec PX4_STORAGE_SIZE loc); [lia |].
    apply read_opens; [quiet_all | exact Hini].
  - unfold read_word. change (2 - 1) with 1. rewrite guard_fixed by lia.
    destruct (Z.leb_spec (PX4_STORAGE_SIZE - 1) loc); [lia |].
    apply read_opens; [quiet_all | exact Hini].
  - unfold read_dword. change (4 - 1) with 3. rewrite guard_fixed by lia.
    destruct (Z.leb_spec (PX4_STORAGE_SIZE - 3) loc); [lia |].
    apply read_opens; [quiet_all | exact Hini].
  - unfold read_block. rewrite guard_block by lia.
    destruct (Z.leb_spec (PX4_STORAGE_SIZE + 1 - n) loc); [lia |].
    apply read_opens; [quiet_all | exact Hini].
Qed.

(** A call out of range does not get as far as [_storage_open]. *)
Lemma out_of_range_call_is_no_op (c : Call) (s : State) :
  4 <= PX4_STORAGE_SIZE < 2 ^ 32 - 1 ->
  out_of_range c -> run_call c s = Ok (tt, s).
Proof.
  intros Hs Hout. destruct (is_read c) eqn:Hr.
  - destruct Hout as (Hloc & Hsize & Hpast).
    destruct c as [loc | loc | loc | dst loc n | | | |];
      try discriminate Hr; cbn [run_call call_loc call_size] in *; unfold bind.
    + rewrite read_byte_out_of_range by exact Hpast. reflexivity.
    + rewrite read_word_out_of_range by assumption. reflexivity.
    + rewrite read_dword_out_of_range by assumption. reflexivity.
    + rewrite read_block_out_of_range by assumption. reflexivity.
  - apply out_of_range_write_is_no_op; assumption.
Qed.

(** C4, as the code has it.  In a sequence of accessor calls that returns,
    the body of [_storage_open] runs at most once; it does not run at all
    when the store is initialised at the start, and when it has run the
    store is initialised.  As to the first call: out of range it returns
    with nothing changed and the store not opened; a read in range on a
    store not yet initialised runs [_storage_open] once and leaves the
    store initialised, and no later call of the sequence runs it again. *)
Theorem store_opened_at_most_once (cs : list Call) (s s' : State) :
  4 <= PX4_STORAGE_SIZE < 2 ^ 32 - 1 ->
  run_calls cs s = Ok (tt, s') ->
  (open_runs s' <= S (open_runs s))%nat /\
  (_initialised (obj s) = true ->
   open_runs s' = open_runs s /\ _initialised (obj s') = true) /\
  (open_runs s' = S (open_runs s) -> _initialised (obj s') = true) /\
  forall c r, cs = c :: r ->
    exists s1,
      run_call c s = Ok (tt, s1) /\ run_calls r s1 = Ok (tt, s') /\
      (out_of_range c -> s1 = s) /\
      (_initialised (obj s) = false -> in_range c -> is_read c = true ->
       open_runs s1 = S (open_runs s) /\ _initialised (obj s1) = true /\
       open_runs s' = open_runs s1).
Proof.
  intros Hs Hrun.
  pose proof (calls_at_most_once cs s tt s' Hrun) as Honce.
  split; [| split; [| split]].
  - destruct Honce as [[Hr _] | (_ & Hr & _)]; lia.
  - intros Hini. destruct Honce as [[Hr Hi] | (Hf & _)]; [| congruence].
    split; congruence.
  - intros Hr. destruct Honce as [[Hq _] | (_ & _ & Hi)]; [lia | exact Hi].
  - intros c r ->. cbn [run_calls] in Hrun.
    destruct (bind_ok _ _ _ _ _ Hrun) as ([] & s1 & Hcall & Hrest).
    exists s1. split; [exact Hcall |]. split; [exact Hrest |]. split.
    + intros Hout. pose proof (out_of_range_call_is_no_op c s Hs Hout) as H.
      congruence.
    + intros Hini Hin Hread.
      destruct (first_read_opens c s s1 Hs Hini Hin Hread Hcall) as [Hr Hi].
      split; [exact Hr |]. split; [exact Hi |].
      destruct (calls_at_most_once r s1 tt s' Hrest) as [[Hq _] | (Hf & _)];
        [exact Hq | congruence].
Qed.

(** On a device large enough to hold the region and the signature,
    [_storage_open] returns, whatever the signature and the legacy file. *)
Lemma storage_open_returns (s : State) (dev : list Z) :
  _initialised (obj s) = false ->
  len (_buffer (obj s)) = PX4_STORAGE_SIZE ->
  0 < PX4_STORAGE_SIZE <= len dev ->
  MTD_SIGNATURE_OFFSET + 4 <= len dev ->
  mtd (world s) = Some dev ->
  exists s', _storage_open s = Ok (tt, s') /\
    open_runs s' = S (open_runs s) /\ _initialised (obj s') = true.
Proof.
  intros Hini Hbuf Hsize Hdev Hmtd.
  assert (Hrun : exists s', _storage_open s = Ok (tt, s')).
  { destruct s as [o [m old tab errs tr]].
    cbn [obj world mtd] in *. subst m.
    destruct (Z.eq_dec (le_value (slice dev MTD_SIGNATURE_OFFSET 4)) MTD_SIGNATURE)
      as [Hsig | Hsig].
    - destruct (storage_open_signed o dev old tab errs tr Hini Hbuf
                  ltac:(lia) Hdev Hsig) as (s' & H & _).
      exists s'. exact H.
    - destruct old as [f |].
      + destruct (Z_lt_le_dec (len f) PX4_STORAGE_SIZE) as [Hshort | Hfull].
        * destruct (storage_open_short_legacy o dev f tab errs tr Hini Hbuf
                      ltac:(lia) Hdev Hsig Hshort) as (s' & H & _).
          exists s'. exact H.
        * destruct (storage_open_migrates o dev f tab errs tr Hini Hbuf
                      Hsize Hdev Hsig Hfull) as (s' & H & _).
          exists s'. exact H.
      + destruct (storage_open_unsigned o dev tab errs tr Hini Hbuf
                    ltac:(lia) Hdev Hsig) as (s' & H & _).
        exists s'. exact H. }
  destruct Hrun as (s' & H). exists s'. split; [exact H |].
  destruct (storage_open_once s s' H) as [_ Hf]. exact (Hf Hini).
Qed.

End OpenCount.

Section PX4Calls.

#[local] Existing Instance px4_params.

(** C4, against the claim: the first call a freshly booted store receives
    is a read one byte past the region; it returns 0 and the store has not
    been opened. *)
Lemma first_call_out_of_range_does_not_open :
  read_byte 4096 (boot world_signed) = Ok (0, boot world_signed) /\
  _initialised (obj (boot world_signed)) = false /\
  open_runs (boot world_signed) = 0%nat.
Proof. repeat split. Qed.

(** Nor does a first write in range open it, when the value written is
    the one the empty [_buffer] holds. *)
Lemma first_write_of_equal_value_does_not_open :
  write_byte 0 0 (boot world_signed) = Ok (tt, boot world_signed).
Proof. vm_compute. reflexivity. Qed.

Lemma store_opened_at_most_once_witness :
  exists s',
    run_calls [CallReadByte 4096; CallReadByte 0; CallWriteByte 1 1; CallReadWord 0]
      (boot world_signed) = Ok (tt, s') /\
    (open_runs s' <= 1)%nat.
Proof.
  eexists. split; [vm_compute; reflexivity |].
  refine (proj1 (store_opened_at_most_once
                   [CallReadByte 4096; CallReadByte 0; CallWriteByte 1 1;
                    CallReadWord 0]
                   (boot world_signed) _ _ _)).
  - vm_compute. intuition discriminate.
  - vm_compute. reflexivity.
Defined.

End PX4Calls.

(** ** Writing and reading back *)

Lemma bytes_differ_false (a b : list Z) :
  List.length a = List.length b -> bytes_differ a b = false -> a = b.
Proof.
  unfold bytes_differ. revert b.
  induction a as [| x a IH]; intros [| y b] Hl H; try discriminate Hl;
    [reflexivity |].
  cbn [combine forallb fst snd] in H.
  destruct (Z.eqb_spec x y) as [-> | Hne]; cbn [andb negb] in H;
    [| discriminate H].
  f_equal. apply IH; [cbn in Hl; lia | exact H].
Qed.

Section RoundTrip.

Context {params : StorageParams}.

Lemma mark_dirty_loop_returns (fuel : nat) (mask loc end_ : Z) :
  0 <= PX4_STORAGE_LINE_SHIFT ->
  0 <= loc -> end_ + PX4_STORAGE_LINE_SIZE <= 2 ^ 16 ->
  end_ - loc <= Z.of_nat fuel ->
  exists m, mark_dirty_loop fuel mask loc end_ = Some m.
Proof.
  intros Hs. pose proof (line_size_pos Hs) as Hl.
  revert mask loc. induction fuel as [| k IH]; intros mask loc Hloc Hend Hfuel;
    cbn [mark_dirty_loop]; destruct (Z.ltb_spec loc end_) as [Hlt | Hge];
    try (eexists; reflexivity); [lia |].
  assert (Hw : u16 (loc + PX4_STORAGE_LINE_SIZE) = loc + PX4_STORAGE_LINE_SIZE).
  { unfold u16, wrap. apply Z.mod_small. lia. }
  rewrite Hw. apply IH; lia.
Qed.

Lemma mark_dirty_returns (s : State) (loc n : Z) :
  0 <= PX4_STORAGE_LINE_SHIFT ->
  PX4_STORAGE_SIZE + PX4_STORAGE_LINE_SIZE <= 2 ^ 16 ->
  0 <= loc -> 0 <= n -> loc + n <= PX4_STORAGE_SIZE ->
  exists m, _mark_dirty loc n s
            = Ok (tt, mkState (set_dirty_mask m (obj s)) (world s)).
Proof.
  intros Hs Hfit Hloc Hn Hin. pose proof (line_size_pos Hs) as Hl.
  assert (Hw : u16 (loc + n) = loc + n).
  { unfold u16, wrap. apply Z.mod_small. lia. }
  destruct (mark_dirty_loop_returns mark_dirty_fuel (_dirty_mask (obj s)) loc
              (loc + n) Hs Hloc) as (m & Hm).
  - lia.
  - unfold mark_dirty_fuel. lia.
  - exists m. unfold _mark_dirty, bind, get_obj, modify_obj. cbn zeta.
    rewrite Hw, Hm. reflexivity.
Qed.

(** Whatever the line size, a range of two bytes that begins on the last
    byte of line 0 marks line 0 alone: after the first round [loc] is
    past [end]. *)
Lemma mark_dirty_skips_line (s : State) :
  1 <= PX4_STORAGE_LINE_SHIFT <= 14 ->
  Z.shiftr (PX4_STORAGE_LINE_SIZE - 1) PX4_STORAGE_LINE_SHIFT = 0 /\
  Z.shiftr (PX4_STORAGE_LINE_SIZE - 1 + 2 - 1) PX4_STORAGE_LINE_SHIFT = 1 /\
  exists m,
    _mark_dirty (PX4_STORAGE_LINE_SIZE - 1) 2 s
    = Ok (tt, mkState (set_dirty_mask m (obj s)) (world s)) /\
    Z.testbit m 0 = true /\
    Z.testbit m 1 = Z.testbit (_dirty_mask (obj s)) 1.
Proof.
  intros Hs.
  assert (Hl : PX4_STORAGE_LINE_SIZE = 2 ^ PX4_STORAGE_LINE_SHIFT)
    by (unfold PX4_STORAGE_LINE_SIZE; apply Z.shiftl_1_l).
  assert (Hlo : 2 ^ 1 <= 2 ^ PX4_STORAGE_LINE_SHIFT)
    by (apply Z.pow_le_mono_r; lia).
  assert (Hhi : 2 ^ PX4_STORAGE_LINE_SHIFT <= 2 ^ 14)
    by (apply Z.pow_le_mono_r; lia).
  assert (H0 : Z.shiftr (PX4_STORAGE_LINE_SIZE - 1) PX4_STORAGE_LINE_SHIFT = 0).
  { rewrite Z.shiftr_div_pow2, Hl by lia. apply Z.div_small. lia. }
  split; [exact H0 |]. split.
  { rewrite Z.shiftr_div_pow2, Hl by lia.
    replace (2 ^ PX4_STORAGE_LINE_SHIFT - 1 + 2 - 1)
      with (0 + 1 * 2 ^ PX4_STORAGE_LINE_SHIFT) by lia.
    rewrite Z.div_add by lia. reflexivity. }
  exists (u32 (Z.lor (_dirty_mask (obj s)) (u32 (Z.shiftl 1 (u8 0))))).
  split.
  - unfold _mark_dirty, bind, get_obj, modify_obj. cbn zeta.
    assert (Hend : u16 (PX4_STORAGE_LINE_SIZE - 1 + 2) = PX4_STORAGE_LINE_SIZE + 1).
    { unfold u16, wrap. rewrite Z.mod_small; lia. }
    assert (Hnext : u16 (PX4_STORAGE_LINE_SIZE - 1 + PX4_STORAGE_LINE_SIZE)
                    = 2 * PX4_STORAGE_LINE_SIZE - 1).
    { unfold u16, wrap. rewrite Z.mod_small; lia. }
    rewrite Hend.
    destruct mark_dirty_fuel as [| [| k]] eqn:Ef;
      try (unfold mark_dirty_fuel in Ef; lia).
    cbn [mark_dirty_loop].
    destruct (Z.ltb_spec (PX4_STORAGE_LINE_SIZE - 1) (PX4_STORAGE_LINE_SIZE + 1));
      [| lia].
    rewrite Hnext, H0.
    destruct (Z.ltb_spec (2 * PX4_STORAGE_LINE_SIZE - 1) (PX4_STORAGE_LINE_SIZE + 1));
      [lia | reflexivity].
  - change (u32 (Z.shiftl 1 (u8 0))) with 1.
    rewrite !u32_testbit, !Z.lor_spec by lia.
    split; [rewrite orb_true_r; reflexivity | rewrite orb_false_r; reflexivity].
Qed.

Lemma storage_open_initialised (s : State) :
  _initialised (obj s) = true -> _storage_open s = Ok (tt, s).
Proof.
  intros Hini. unfold _storage_open, bind, get_obj. rewrite Hini. reflexivity.
Qed.

(** On an initialised store, what [write_block] stored is what
    [read_block] returns. *)
Lemma write_block_then_read_block (s : State) (loc n : Z) (src dst : list Z) :
  params_ok -> wf_state s ->
  _initialised (obj s) = true ->
  0 <= loc -> 0 <= n -> loc + n <= PX4_STORAGE_SIZE ->
  n <= len src -> n <= len dst ->
  exists s1 dst',
    write_block loc src n s = Ok (tt, s1) /\
    read_block dst loc n s1 = Ok (dst', s1) /\
    slice dst' 0 n = slice src 0 n.
Proof.
  intros Hp [Hbuf Hmask] Hini Hloc Hn Hin Hsrc Hdst.
  destruct Hp as [Hs HN Hu16 _]. pose proof (line_size_pos Hs) as Hl.
  assert (Hdata : len (slice src 0 n) = n) by (apply slice_length; lia).
  assert (Hguard : (u32 (sizeof_buffer - u32 (n - 1)) <=? loc) = false).
  { rewrite guard_block by lia. apply Z.leb_gt. lia. }
  assert (Hback : forall buf, len buf = PX4_STORAGE_SIZE ->
            slice buf loc n = slice src 0 n ->
            forall o w, _initialised o = true -> _buffer o = buf ->
            read_block dst loc n (mkState o w)
            = Ok (splice dst 0 (slice src 0 n), mkState o w)).
  { intros buf Hlen Heq o w Hi Hb. unfold read_block. rewrite Hguard.
    unfold bind. rewrite storage_open_initialised by exact Hi.
    unfold buffer_read, bind, get_obj, ret. cbn [obj]. rewrite Hb.
    rewrite mem_read_in_bounds by lia. rewrite Heq.
    unfold mem_write. rewrite Hdata.
    destruct (Z.leb_spec (0 + n) (len dst)); [| lia]. reflexivity. }
  assert (Hgot : slice (splice dst 0 (slice src 0 n)) 0 n = slice src 0 n).
  { pose proof (slice_splice dst 0 (slice src 0 n)) as E.
    rewrite Hdata in E. apply E; lia. }
  destruct s as [[fd ini have buf mask] w].
  cbn [obj world _initialised _buffer _dirty_mask] in *. subst ini.
  unfold write_block. rewrite Hguard.
  unfold bind at 1. unfold buffer_read, bind at 1, get_obj, ret. cbn [obj _buffer].
  rewrite mem_read_in_bounds by lia.
  destruct (bytes_differ (slice src 0 n) (slice buf loc n)) eqn:Ediff.
  - unfold bind at 1. rewrite storage_open_initialised by reflexivity.
    unfold bind at 1. unfold buffer_write, bind at 1, get_obj, modify_obj.
    cbn [obj world _buffer]. unfold mem_write. rewrite Hdata, Hbuf.
    destruct (Z.leb_spec 0 loc); [| lia].
    destruct (Z.leb_spec (loc + n) PX4_STORAGE_SIZE); [| lia]. cbn [andb].
    assert (Hn16 : u16 n = n) by (unfold u16, wrap; apply Z.mod_small; lia).
    rewrite Hn16.
    match goal with
    | |- context [_mark_dirty loc n ?st] =>
        destruct (mark_dirty_returns st loc n Hs Hu16 Hloc Hn Hin) as (m & Hm);
        rewrite Hm
    end.
    eexists. eexists. split; [reflexivity |]. split; [| exact Hgot].
    apply (Hback (splice buf loc (slice src 0 n))); try reflexivity.
    + rewrite splice_length; lia.
    + pose proof (slice_splice buf loc (slice src 0 n)) as E.
      rewrite Hdata in E. apply E; lia.
  - eexists. eexists. split; [reflexivity |]. split; [| exact Hgot].
    apply (Hback buf Hbuf); try reflexivity.
    symmetry. apply bytes_differ_false; [| exact Ediff].
    assert (Hl2 : len (slice buf loc n) = n) by (apply slice_length; lia).
    unfold len in *. lia.
Qed.

End RoundTrip.

(** ** The theorems of the timer callback at work *)

Section PX4Tick.

#[local] Existing Instance px4_params.

Lemma flush_writes_one_capped_run_witness :
  exists s' evs,
    _timer_tick (mkTickIO 7 0 512 0)
      (mkState (set_dirty_mask 63 (obj dirty_store)) world_signed) = Ok (tt, s') /\
    trace (world s') = evs ++ [] /\
    fst (dirty_run 63 (first_dirty 63)) = 4 /\
    filter is_write evs
    = [EWrite 7 (slice (_buffer (obj dirty_store)) 0 512) 512] /\
    bytes_to_write evs = PX4_STORAGE_MAX_WRITE /\
    Z.testbit (_dirty_mask (obj s')) 3 = false /\
    Z.testbit (_dirty_mask (obj s')) 4 = true.
Proof.
  destruct (flush_writes_one_capped_run (mkTickIO 7 0 512 0)
              (mkState (set_dirty_mask 63 (obj dirty_store)) world_signed))
    as (_ & _ & s' & Hrun & (evs & Htrace & _ & Hwrite & Hbytes & _) & Hin & Hout).
  - split; vm_compute; intuition discriminate.
  - split; vm_compute; intuition discriminate.
  - reflexivity.
  - vm_compute. intuition discriminate.
  - exists s', evs. split; [exact Hrun |]. split; [exact Htrace |].
    split; [reflexivity |]. split; [exact Hwrite |]. split; [exact Hbytes |].
    split.
    + apply (Hin 3). vm_compute. intuition discriminate.
    + rewrite (Hout 4); [reflexivity | lia |].
      vm_compute. intuition discriminate.
Defined.

Lemma write_failure_restores_dirty_bits_witness :
  exists s',
    _timer_tick (mkTickIO 7 0 (-1) 0) dirty_store = Ok (tt, s') /\
    _dirty_mask (obj s') = 51 /\ _fd (obj s') = -1 /\
    perf_errors (world s') = 1.
Proof.
  destruct (write_failure_restores_dirty_bits (mkTickIO 7 0 (-1) 0) dirty_store)
    as (s' & Hrun & Hmask & _ & Hfd & Herr & _).
  - split; vm_compute; intuition discriminate.
  - split; vm_compute; intuition discriminate.
  - reflexivity.
  - vm_compute. discriminate.
  - vm_compute. discriminate.
  - vm_compute. discriminate.
  - vm_compute. reflexivity.
  - vm_compute. discriminate.
  - exists s'. repeat split; assumption.
Defined.

Lemma fsync_once_per_clearing_witness :
  exists s' evs,
    _timer_tick (mkTickIO 7 0 256 0)
      (mkState (set_dirty_mask 3 (obj dirty_store)) world_signed) = Ok (tt, s') /\
    trace (world s') = evs ++ [] /\
    _dirty_mask (obj s') = 0 /\
    filter is_fsync evs = [EFsync 7 0] /\
    fsync_count evs = 1%nat.
Proof.
  destruct (fsync_once_per_clearing (mkTickIO 7 0 256 0)
              (mkState (set_dirty_mask 3 (obj dirty_store)) world_signed))
    as (s' & Hrun & evs & Htrace & Hclear & Hsync & Hcount & _).
  - split; vm_compute; intuition discriminate.
  - split; vm_compute; intuition discriminate.
  - reflexivity.
  - exists s', evs. split; [exact Hrun |]. split; [exact Htrace |].
    split; [| split; [exact Hsync | exact Hcount]].
    apply Z.eqb_eq. exact Hclear.
Defined.

Lemma seek_failure_changes_nothing_witness :
  exists s',
    _timer_tick (mkTickIO 7 (-1) 256 0) dirty_store = Ok (tt, s') /\
    _dirty_mask (obj s') = 51 /\ _fd (obj s') = 7 /\
    perf_errors (world s') = 0.
Proof.
  destruct (seek_failure_changes_nothing (mkTickIO 7 (-1) 256 0) dirty_store)
    as (s' & Hrun & Hobj & _ & _ & Herr & _).
  - reflexivity.
  - vm_compute. discriminate.
  - vm_compute. discriminate.
  - vm_compute. discriminate.
  - vm_compute. discriminate.
  - exists s'. rewrite Hobj. repeat split; assumption.
Defined.

End PX4Tick.

(** * More of the code *)

(** ** Opening the store: errors and outcomes *)

Lemma slice_short (a : list Z) (off n : Z) :
  0 <= off -> 0 < n -> len a < off + n -> len (slice a off n) < n.
Proof.
  intros Hoff Hn Hshort. unfold slice, len in *.
  rewrite length_firstn, length_skipn. lia.
Qed.

Lemma slice_splice_before (a : list Z) (off n : Z) (d : list Z) :
  0 <= n <= off -> off <= len a ->
  slice (splice a off d) 0 n = slice a 0 n.
Proof.
  intros Hn Hoff. unfold slice, splice, len in *. cbn [Z.to_nat skipn].
  rewrite firstn_app, length_firstn.
  replace (Z.to_nat n - Nat.min (Z.to_nat off) (List.length a))%nat with 0%nat by lia.
  cbn [firstn]. rewrite app_nil_r, firstn_firstn.
  replace (Nat.min (Z.to_nat n) (Z.to_nat off)) with (Z.to_nat n) by lia.
  reflexivity.
Qed.

Section OpenOutcomes.

Context {params : StorageParams}.

(** X1.  Without the device [_storage_open] panics at its first check, and
    so does the first read in range: the store cannot be used. *)
Theorem open_without_device_panics (s : State) (loc : Z) :
  _initialised (obj s) = false ->
  mtd (world s) = None ->
  0 <= loc < PX4_STORAGE_SIZE ->
  _storage_open s = Panic "Failed to find /fs/mtd" /\
  read_byte loc s = Panic "Failed to find /fs/mtd".
Proof.
  intros Hini Hmtd Hloc.
  assert (H : _storage_open s = Panic "Failed to find /fs/mtd").
  { destruct s as [[fd ini have buf mask] [m old tab errs tr]].
    cbn [obj world _initialised mtd] in *. subst ini m.
    unfold _storage_open. steps. reflexivity. }
  split; [exact H |].
  unfold read_byte, sizeof_buffer.
  destruct (Z.leb_spec PX4_STORAGE_SIZE loc); [lia |].
  unfold bind. rewrite H. reflexivity.
Qed.

(** X2.  A device too short to hold the signature makes [_storage_open]
    panic on the short read of the signature. *)
Theorem open_short_device_panics (s : State) (dev : list Z) :
  _initialised (obj s) = false ->
  mtd (world s) = Some dev ->
  len dev < MTD_SIGNATURE_OFFSET + 4 ->
  _storage_open s = Panic "Failed to read signature from /fs/mtd".
Proof.
  intros Hini Hmtd Hshort.
  pose proof (slice_short dev MTD_SIGNATURE_OFFSET 4 ltac:(discriminate)
                ltac:(reflexivity) Hshort) as Hl.
  destruct s as [[fd ini have buf mask] [m old tab errs tr]].
  cbn [obj world _initialised mtd] in *. subst ini m.
  unfold _storage_open. steps. unfold _mtd_signature. steps.
  destruct (Z.eqb_spec (len (slice dev MTD_SIGNATURE_OFFSET 4)) 4) as [E | _]; [lia |].
  steps. reflexivity.
Qed.


(** X3.  On a device that holds the region and the signature,
    [_storage_open] returns whatever the signature and the legacy file
    are, and leaves the store coherent: the device is signed and of the
    same size, [_buffer] is the device's region, no line is dirty, the
    flag is set, and every descriptor the call opened is closed again
    (the table, [_fd] and the error counter are as before). *)
Theorem open_loads_a_signed_device (s : State) (dev : list Z) :
  _initialised (obj s) = false ->
  len (_buffer (obj s)) = PX4_STORAGE_SIZE ->
  0 < PX4_STORAGE_SIZE <= len dev ->
  MTD_SIGNATURE_OFFSET + 4 <= len dev ->
  mtd (world s) = Some dev ->
  exists s' dev',
    _storage_open s = Ok (tt, s') /\
    mtd (world s') = Some dev' /\ len dev' = len dev /\
    signature_of (world s') = Some MTD_SIGNATURE /\
    _buffer (obj s') = slice dev' 0 PX4_STORAGE_SIZE /\
    _dirty_mask (obj s') = 0 /\ _initialised (obj s') = true /\
    _fd (obj s') = _fd (obj s) /\
    fds (world s') = fds (world s) /\
    perf_errors (world s') = perf_errors (world s) /\
    old_file (world s') = old_file (world s).
Proof.
  intros Hini Hbuf Hsize Hdev Hmtd.
  destruct s as [o [m old tab errs tr]].
  cbn [obj world mtd old_file fds perf_errors] in *. subst m.
  assert (Hsig_of : forall w d, mtd w = Some d -> MTD_SIGNATURE_OFFSET + 4 <= len d ->
            le_value (slice d MTD_SIGNATURE_OFFSET 4) = MTD_SIGNATURE ->
            signature_of w = Some MTD_SIGNATURE).
  { intros w d Hw Hd Hs. unfold signature_of. rewrite Hw.
    destruct (Z.leb_spec (MTD_SIGNATURE_OFFSET + 4) (len d)); [| lia].
    rewrite Hs. reflexivity. }
  destruct (Z.eq_dec (le_value (slice dev MTD_SIGNATURE_OFFSET 4)) MTD_SIGNATURE)
    as [Hsig | Hsig].
  - destruct (storage_open_signed o dev old tab errs tr Hini Hbuf
                ltac:(lia) Hdev Hsig)
      as (s' & H & Hobj & Hm & Hold & Hfds & Herr & _).
    exists s', dev. rewrite Hobj. cbn [loaded _buffer _dirty_mask _initialised _fd].
    repeat split; try assumption. exact (Hsig_of _ _ Hm Hdev Hsig).
  - destruct old as [f |].
    + destruct (Z_lt_le_dec (len f) PX4_STORAGE_SIZE) as [Hshort | Hfull].
      * destruct (storage_open_short_legacy o dev f tab errs tr Hini Hbuf
                    ltac:(lia) Hdev Hsig Hshort)
          as (s' & H & Hobj & Hm & Hold & Hfds & Herr & _).
        eexists s', _. rewrite Hobj. cbn [loaded _buffer _dirty_mask _initialised _fd].
        split; [exact H |]. split; [exact Hm |].
        split; [apply signed_length; exact Hdev |].
        split; [| repeat split; assumption].
        apply (Hsig_of _ _ Hm); [rewrite signed_length; assumption |].
        apply signature_written. exact Hdev.
      * assert (Hc : len (splice dev 0 (slice f 0 PX4_STORAGE_SIZE)) = len dev).
        { apply splice_length; [lia |]. rewrite slice_length; lia. }
        destruct (storage_open_migrates o dev f tab errs tr Hini Hbuf
                    Hsize Hdev Hsig Hfull)
          as (s' & H & Hobj & Hm & Hold & Hfds & Herr & _).
        eexists s', _. rewrite Hobj. cbn [loaded _buffer _dirty_mask _initialised _fd].
        split; [exact H |]. split; [exact Hm |].
        split; [rewrite signed_length; lia |].
        split; [| repeat split; assumption].
        apply (Hsig_of _ _ Hm); [rewrite signed_length; lia |].
        apply signature_written. lia.
    + destruct (storage_open_unsigned o dev tab errs tr Hini Hbuf
                  ltac:(lia) Hdev Hsig)
        as (s' & H & Hobj & Hm & Hold & Hfds & Herr & _).
      eexists s', _. rewrite Hobj. cbn [loaded _buffer _dirty_mask _initialised _fd].
      split; [exact H |]. split; [exact Hm |].
      split; [apply signed_length; exact Hdev |].
      split; [| repeat split; assumption].
      apply (Hsig_of _ _ Hm); [rewrite signed_length; assumption |].
      apply signature_written. exact Hdev.
Qed.

(** X4.  The migration proper.  The device is unsigned and the legacy file
    fills the region (it may be longer): after [_storage_open] the region
    in memory and the region on the device are the file's first
    [PX4_STORAGE_SIZE] bytes, and the device is signed. *)
Theorem open_migrates_legacy_store (s : State) (dev f : list Z) :
  _initialised (obj s) = false ->
  len (_buffer (obj s)) = PX4_STORAGE_SIZE ->
  0 < PX4_STORAGE_SIZE <= MTD_SIGNATURE_OFFSET ->
  MTD_SIGNATURE_OFFSET + 4 <= len dev ->
  mtd (world s) = Some dev ->
  signature_of (world s) <> Some MTD_SIGNATURE ->
  old_file (world s) = Some f ->
  PX4_STORAGE_SIZE <= len f ->
  exists s' dev',
    _storage_open s = Ok (tt, s') /\
    mtd (world s') = Some dev' /\
    _buffer (obj s') = slice f 0 PX4_STORAGE_SIZE /\
    slice dev' 0 PX4_STORAGE_SIZE = slice f 0 PX4_STORAGE_SIZE /\
    signature_of (world s') = Some MTD_SIGNATURE /\
    old_file (world s') = Some f.
Proof.
  intros Hini Hbuf Hsize Hdev Hmtd Hsig Hold Hfull.
  destruct s as [o [m old tab errs tr]].
  cbn [obj world mtd old_file] in *. subst m old.
  unfold signature_of in Hsig. cbn [mtd] in Hsig.
  destruct (Z.leb_spec (MTD_SIGNATURE_OFFSET + 4) (len dev)) as [_ | Hn]; [| lia].
  assert (Hsig' : le_value (slice dev MTD_SIGNATURE_OFFSET 4) <> MTD_SIGNATURE)
    by (intros E; apply Hsig; rewrite E; reflexivity).
  assert (Hd : len (slice f 0 PX4_STORAGE_SIZE) = PX4_STORAGE_SIZE)
    by (apply slice_length; lia).
  assert (Hc : len (splice dev 0 (slice f 0 PX4_STORAGE_SIZE)) = len dev)
    by (apply splice_length; lia).
  assert (Hoff : MTD_SIGNATURE_OFFSET = 8188) by reflexivity.
  destruct (storage_open_migrates o dev f tab errs tr Hini Hbuf
              ltac:(lia) Hdev Hsig' Hfull)
    as (s' & H & Hobj & Hm & Hof & _).
  assert (Hregion :
    slice (splice (splice dev 0 (slice f 0 PX4_STORAGE_SIZE))
             MTD_SIGNATURE_OFFSET (le_bytes 4 MTD_SIGNATURE)) 0 PX4_STORAGE_SIZE
    = slice f 0 PX4_STORAGE_SIZE).
  { rewrite slice_splice_before by lia.
    pose proof (slice_splice dev 0 (slice f 0 PX4_STORAGE_SIZE)) as E.
    rewrite Hd in E. apply E; lia. }
  eexists s', _. split; [exact H |]. split; [exact Hm |].
  rewrite Hobj. cbn [loaded _buffer].
  split; [exact Hregion |]. split; [exact Hregion |]. split; [| exact Hof].
  unfold signature_of. rewrite Hm, signed_length by lia.
  destruct (Z.leb_spec (MTD_SIGNATURE_OFFSET + 4)
              (len (splice dev 0 (slice f 0 PX4_STORAGE_SIZE)))); [| lia].
  rewrite signature_written by lia. reflexivity.
Qed.

(** X5.  An unsigned device and no legacy file: [_storage_open] writes the
    four bytes of the signature and nothing else, and the region in memory
    is the region the device held before. *)
Theorem open_signs_and_keeps_payload (s : State) (dev : list Z) :
  _initialised (obj s) = false ->
  len (_buffer (obj s)) = PX4_STORAGE_SIZE ->
  0 <= PX4_STORAGE_SIZE <= MTD_SIGNATURE_OFFSET ->
  MTD_SIGNATURE_OFFSET + 4 <= len dev ->
  mtd (world s) = Some dev ->
  signature_of (world s) <> Some MTD_SIGNATURE ->
  old_file (world s) = None ->
  exists s',
    _storage_open s = Ok (tt, s') /\
    mtd (world s')
      = Some (splice dev MTD_SIGNATURE_OFFSET (le_bytes 4 MTD_SIGNATURE)) /\
    _buffer (obj s') = slice dev 0 PX4_STORAGE_SIZE /\
    signature_of (world s') = Some MTD_SIGNATURE.
Proof.
  intros Hini Hbuf Hsize Hdev Hmtd Hsig Hold.
  destruct s as [o [m old tab errs tr]].
  cbn [obj world mtd old_file] in *. subst m old.
  unfold signature_of in Hsig. cbn [mtd] in Hsig.
  destruct (Z.leb_spec (MTD_SIGNATURE_OFFSET + 4) (len dev)) as [_ | Hn]; [| lia].
  assert (Hsig' : le_value (slice dev MTD_SIGNATURE_OFFSET 4) <> MTD_SIGNATURE)
    by (intros E; apply Hsig; rewrite E; reflexivity).
  destruct (storage_open_unsigned o dev tab errs tr Hini Hbuf
              ltac:(lia) Hdev Hsig')
    as (s' & H & Hobj & Hm & _).
  exists s'. split; [exact H |]. split; [exact Hm |].
  rewrite Hobj. cbn [loaded _buffer].
  split; [apply slice_splice_before; lia |].
  unfold signature_of. rewrite Hm, signed_length by lia.
  destruct (Z.leb_spec (MTD_SIGNATURE_OFFSET + 4) (len dev)); [| lia].
  rewrite signature_written by lia. reflexivity.
Qed.


(** X6.  A signed device: [_storage_open] reads only.  It makes no [write]
    call, leaves the device as it is, and does not open the legacy file,
    whether there is one or not. *)
Theorem open_signed_device_reads_only (s : State) (dev : list Z) :
  _initialised (obj s) = false ->
  len (_buffer (obj s)) = PX4_STORAGE_SIZE ->
  0 <= PX4_STORAGE_SIZE <= len dev ->
  MTD_SIGNATURE_OFFSET + 4 <= len dev ->
  mtd (world s) = Some dev ->
  signature_of (world s) = Some MTD_SIGNATURE ->
  exists s',
    _storage_open s = Ok (tt, s') /\
    mtd (world s') = Some dev /\
    _buffer (obj s') = slice dev 0 PX4_STORAGE_SIZE /\
    exists evs, trace (world s') = evs ++ trace (world s) /\
      existsb is_write evs = false /\ existsb is_migration evs = false.
Proof.
  intros Hini Hbuf Hsize Hdev Hmtd Hsig.
  destruct s as [[fd ini have buf mask] [m old tab errs tr]].
  cbn [obj world mtd trace _initialised _buffer] in *. subst ini m.
  unfold signature_of in Hsig. cbn [mtd] in Hsig.
  destruct (Z.leb_spec (MTD_SIGNATURE_OFFSET + 4) (len dev)) as [_ | Hn]; [| lia].
  assert (Hsig' : le_value (slice dev MTD_SIGNATURE_OFFSET 4) = MTD_SIGNATURE)
    by (inversion Hsig; reflexivity).
  assert (Hd : len (slice dev 0 PX4_STORAGE_SIZE) = PX4_STORAGE_SIZE)
    by (apply slice_length; lia).
  unfold _storage_open. steps.
  rewrite mtd_signature_returns by exact Hdev. steps.
  rewrite Hsig', Z.eqb_refl.
  destruct old as [f |]; steps.
  all: unfold sizeof_buffer; rewrite Hd, Z.eqb_refl; steps.
  all: rewrite splice_all by lia.
  all: eexists; split; [reflexivity |]; cbn [obj world mtd trace _buffer].
  all: repeat (split; [reflexivity |]); give_events; split; reflexivity.
Qed.

(** X7.  Writing the signature and reading it back: on a device that has
    room for it, [_mtd_write_signature] followed by [_mtd_signature]
    returns [MTD_SIGNATURE], the bytes below the signature are untouched,
    and both descriptors are closed again. *)
Theorem signature_round_trip (s : State) (dev : list Z) :
  MTD_SIGNATURE_OFFSET + 4 <= len dev ->
  mtd (world s) = Some dev ->
  exists s' dev',
    (_mtd_write_signature ;; _mtd_signature) s = Ok (MTD_SIGNATURE, s') /\
    mtd (world s') = Some dev' /\
    slice dev' 0 MTD_SIGNATURE_OFFSET = slice dev 0 MTD_SIGNATURE_OFFSET /\
    obj s' = obj s /\ fds (world s') = fds (world s).
Proof.
  intros Hdev Hmtd.
  destruct s as [o [m old tab errs tr]]. cbn [obj world mtd fds] in *. subst m.
  unfold bind. rewrite mtd_write_signature_returns by exact Hdev.
  rewrite mtd_signature_returns by (rewrite signed_length; assumption).
  rewrite signature_written by exact Hdev.
  eexists. eexists. split; [reflexivity |]. cbn [obj world mtd fds].
  split; [reflexivity |]. split; [| split; reflexivity].
  apply slice_splice_before; [split; discriminate |].
  unfold MTD_SIGNATURE_OFFSET in *. lia.
Qed.

End OpenOutcomes.

Section PX4OpenRuns.

#[local] Existing Instance px4_params.

Lemma open_without_device_panics_witness :
  _storage_open (boot (mkWorld None None [] 0 []))
  = Panic "Failed to find /fs/mtd".
Proof.
  refine (proj1 (open_without_device_panics
                   (boot (mkWorld None None [] 0 [])) 0 _ _ _)).
  - reflexivity.
  - reflexivity.
  - vm_compute. intuition discriminate.
Defined.

Lemma open_short_device_panics_witness :
  _storage_open (boot (mkWorld (Some [1; 2; 3]) None [] 0 []))
  = Panic "Failed to read signature from /fs/mtd".
Proof.
  apply (open_short_device_panics _ [1; 2; 3]).
  - reflexivity.
  - reflexivity.
  - vm_compute. reflexivity.
Defined.

Lemma open_loads_a_signed_device_witness :
  exists s', _storage_open (boot world_short_legacy) = Ok (tt, s') /\
    signature_of (world s') = Some MTD_SIGNATURE.
Proof.
  destruct (open_loads_a_signed_device (boot world_short_legacy) blank_device)
    as (s' & dev' & H & _ & _ & Hsig & _).
  - reflexivity.
  - vm_compute. reflexivity.
  - vm_compute. intuition discriminate.
  - vm_compute. discriminate.
  - reflexivity.
  - exists s'. split; assumption.
Defined.

Lemma open_migrates_legacy_store_witness :
  exists s', _storage_open (boot world_full_legacy) = Ok (tt, s') /\
    _buffer (obj s') = slice (repeat 9 (Z.to_nat 4096)) 0 PX4_STORAGE_SIZE.
Proof.
  destruct (open_migrates_legacy_store (boot world_full_legacy) blank_device
              (repeat 9 (Z.to_nat 4096)))
    as (s' & dev' & H & _ & Hbuf & _).
  - reflexivity.
  - vm_compute. reflexivity.
  - vm_compute. intuition discriminate.
  - vm_compute. discriminate.
  - reflexivity.
  - vm_compute. discriminate.
  - reflexivity.
  - vm_compute. discriminate.
  - exists s'. split; assumption.
Defined.

Lemma open_signs_and_keeps_payload_witness :
  exists s',
    _storage_open (boot (mkWorld (Some blank_device) None [] 0 [])) = Ok (tt, s') /\
    signature_of (world s') = Some MTD_SIGNATURE.
Proof.
  destruct (open_signs_and_keeps_payload
              (boot (mkWorld (Some blank_device) None [] 0 [])) blank_device)
    as (s' & H & _ & _ & Hsig).
  - reflexivity.
  - vm_compute. reflexivity.
  - vm_compute. intuition discriminate.
  - vm_compute. discriminate.
  - reflexivity.
  - vm_compute. discriminate.
  - reflexivity.
  - exists s'. split; assumption.
Defined.

Lemma open_signed_device_reads_only_witness :
  exists s', _storage_open (boot world_signed) = Ok (tt, s') /\
    mtd (world s') = Some signed_device.
Proof.
  destruct (open_signed_device_reads_only (boot world_signed) signed_device)
    as (s' & H & Hm & _).
  - reflexivity.
  - vm_compute. reflexivity.
  - vm_compute. intuition discriminate.
  - vm_compute. discriminate.
  - reflexivity.
  - vm_compute. reflexivity.
  - exists s'. split; assumption.
Defined.

Lemma signature_round_trip_witness :
  exists s',
    (_mtd_write_signature ;; _mtd_signature) (boot world_short_legacy)
    = Ok (MTD_SIGNATURE, s').
Proof.
  destruct (signature_round_trip (boot world_short_legacy) blank_device)
    as (s' & dev' & H & _).
  - vm_compute. discriminate.
  - reflexivity.
  - exists s'. exact H.
Defined.

End PX4OpenRuns.

(** ** Reading and writing an opened store *)

Lemma splice_slice_same (a : list Z) (off n : Z) :
  0 <= off -> 0 <= n -> off + n <= len a ->
  splice a off (slice a off n) = a.
Proof.
  intros Hoff Hn Hin.
  pose proof (slice_length a off n Hoff Hn Hin) as Hl.
  unfold splice, slice, len in *.
  replace (Z.to_nat off + List.length (firstn (Z.to_nat n) (skipn (Z.to_nat off) a)))%nat
    with (Z.to_nat n + Z.to_nat off)%nat by lia.
  rewrite <- skipn_skipn, firstn_skipn, firstn_skipn. reflexivity.
Qed.

(** Bytes below a spliced range are those of the array. *)
Lemma slice_splice_below (a : list Z) (off : Z) (d : list Z) (p k : Z) :
  0 <= p -> 0 <= k -> p + k <= off -> off <= len a ->
  slice (splice a off d) p k = slice a p k.
Proof.
  intros Hp Hk Hbelow Hoff. unfold slice, splice, len in *.
  rewrite skipn_app, firstn_app, length_skipn, !length_firstn.
  replace (Z.to_nat k - (Nat.min (Z.to_nat off) (List.length a) - Z.to_nat p))%nat
    with 0%nat by lia.
  cbn [firstn]. rewrite app_nil_r, skipn_firstn_comm, firstn_firstn.
  replace (Nat.min (Z.to_nat k) (Z.to_nat off - Z.to_nat p)) with (Z.to_nat k) by lia.
  reflexivity.
Qed.

(** Bytes above a spliced range are those of the array. *)
Lemma slice_splice_above (a : list Z) (off : Z) (d : list Z) (p k : Z) :
  0 <= off -> off + len d <= p -> off + len d <= len a ->
  slice (splice a off d) p k = slice a p k.
Proof.
  intros Hoff Habove Hin. unfold slice, splice, len in *. f_equal.
  rewrite !skipn_app, !length_firstn.
  rewrite (skipn_all2 (firstn (Z.to_nat off) a)) by (rewrite length_firstn; lia).
  rewrite (skipn_all2 d) by lia.
  cbn [app]. rewrite skipn_skipn. f_equal. lia.
Qed.

Lemma bytes_differ_same (a : list Z) : bytes_differ a a = false.
Proof.
  unfold bytes_differ. induction a as [| x a IH]; [reflexivity |].
  cbn [combine forallb fst snd]. rewrite Z.eqb_refl. exact IH.
Qed.

Lemma le_value_le_bytes (n : nat) (v : Z) :
  le_value (le_bytes n v) = v mod 256 ^ Z.of_nat n.
Proof.
  revert v. induction n as [| k IH]; intros v; cbn [le_bytes le_value].
  - rewrite Z.mod_1_r. reflexivity.
  - rewrite IH, Nat2Z.inj_succ, Z.pow_succ_r by lia.
    rewrite Z.rem_mul_r; [reflexivity | lia |].
    apply Z.pow_pos_nonneg; lia.
Qed.

Lemma slice_step (a : list Z) (p n : Z) :
  0 <= p < len a -> 0 < n ->
  slice a p n = nth (Z.to_nat p) a 0 :: slice a (p + 1) (n - 1).
Proof.
  intros Hp Hn. unfold slice, len in *.
  replace (Z.to_nat n) with (S (Z.to_nat (n - 1))) by lia.
  replace (Z.to_nat (p + 1)) with (S (Z.to_nat p)) by lia.
  assert (Hlt : (Z.to_nat p < List.length a)%nat) by lia.
  revert Hlt. generalize (Z.to_nat p). clear Hp.
  induction a as [| x a IH]; intros q Hq; cbn [List.length] in Hq; [lia |].
  destruct q as [| q]; [reflexivity |].
  cbn [skipn nth]. apply IH. lia.
Qed.

Section StoreFacts.

Context {params : StorageParams}.

(** On an opened store the three steps of a write that found a difference
    return and store the bytes. *)
Lemma store_bytes (s : State) (loc : Z) (data : list Z) :
  params_ok -> wf_state s ->
  _initialised (obj s) = true ->
  0 <= loc -> loc + len data <= PX4_STORAGE_SIZE ->
  exists s', (_storage_open ;; buffer_write loc data ;; _mark_dirty loc (len data)) s
             = Ok (tt, s') /\ stored s loc data s'.
Proof.
  intros [Hs _ Hu16 _] [Hbuf _] Hini Hloc Hin.
  assert (Hd : 0 <= len data) by (unfold len; lia).
  unfold bind at 1. rewrite storage_open_initialised by exact Hini.
  unfold bind at 1. unfold buffer_write, bind at 1, get_obj, modify_obj, mem_write.
  rewrite Hbuf.
  destruct (Z.leb_spec 0 loc); [| lia].
  destruct (Z.leb_spec (loc + len data) PX4_STORAGE_SIZE); [| lia]. cbn [andb].
  match goal with
  | |- context [_mark_dirty loc (len data) ?st] =>
      destruct (mark_dirty_returns st loc (len data) Hs Hu16 Hloc Hd Hin) as (m & Hm);
      rewrite Hm
  end.
  eexists. split; [reflexivity |].
  destruct s as [[fd ini have buf mask] w]. repeat split.
Qed.

Lemma unchanged_is_stored (s : State) (loc n : Z) :
  0 <= loc -> 0 <= n -> loc + n <= len (_buffer (obj s)) ->
  stored s loc (slice (_buffer (obj s)) loc n) s.
Proof.
  intros Hloc Hn Hin. unfold stored.
  rewrite splice_slice_same by assumption. repeat split.
Qed.

Lemma write_block_stores (s : State) (loc n : Z) (src : list Z) :
  params_ok -> wf_state s ->
  _initialised (obj s) = true ->
  0 <= loc -> 0 <= n -> loc + n <= PX4_STORAGE_SIZE -> n <= len src ->
  exists s', write_block loc src n s = Ok (tt, s') /\
             stored s loc (slice src 0 n) s'.
Proof.
  intros Hp Hwf Hini Hloc Hn Hin Hsrc.
  pose proof (buffer_size s Hwf) as Hbuf.
  pose proof (region_fits_u16 Hp) as Hu16.
  pose proof (line_size_pos (shift_nonneg Hp)) as Hl.
  assert (Hdata : len (slice src 0 n) = n) by (apply slice_length; lia).
  unfold write_block. rewrite guard_block by lia.
  destruct (Z.leb_spec (PX4_STORAGE_SIZE + 1 - n) loc); [lia |].
  unfold bind at 1. unfold buffer_read, bind at 1, get_obj, ret.
  rewrite mem_read_in_bounds by lia.
  destruct (bytes_differ (slice src 0 n) (slice (_buffer (obj s)) loc n)) eqn:Ediff.
  - assert (Hn16 : u16 n = n) by (unfold u16, wrap; apply Z.mod_small; lia).
    rewrite Hn16.
    replace (_mark_dirty loc n) with (_mark_dirty loc (len (slice src 0 n)))
      by (rewrite Hdata; reflexivity).
    apply store_bytes; try assumption. lia.
  - exists s. split; [reflexivity |].
    replace (slice src 0 n) with (slice (_buffer (obj s)) loc n).
    + apply unchanged_is_stored; lia.
    + symmetry. apply bytes_differ_false; [| exact Ediff].
      assert (Hl2 : len (slice (_buffer (obj s)) loc n) = n)
        by (apply slice_length; lia).
      unfold len in *. lia.
Qed.

Lemma write_byte_stores (s : State) (loc v : Z) :
  params_ok -> wf_state s ->
  _initialised (obj s) = true ->
  0 <= loc -> loc + 1 <= PX4_STORAGE_SIZE ->
  exists s', write_byte loc v s = Ok (tt, s') /\ stored s loc [v] s'.
Proof.
  intros Hp Hwf Hini Hloc Hin.
  pose proof (buffer_size s Hwf) as Hbuf.
  unfold write_byte, sizeof_buffer.
  destruct (Z.leb_spec PX4_STORAGE_SIZE loc); [lia |].
  unfold bind at 1. unfold buffer_read, bind at 1, get_obj, ret.
  rewrite mem_read_in_bounds by lia.
  rewrite (slice_step (_buffer (obj s)) loc 1) by lia.
  change (1 - 1) with 0. unfold slice at 1. cbn [Z.to_nat firstn le_value].
  destruct (Z.eqb_spec (nth (Z.to_nat loc) (_buffer (obj s)) 0 + 256 * 0) v)
    as [E | E]; cbn [negb].
  - exists s. split; [reflexivity |].
    replace [v] with (slice (_buffer (obj s)) loc 1).
    + apply unchanged_is_stored; lia.
    + rewrite (slice_step (_buffer (obj s)) loc 1) by lia.
      unfold slice. cbn [Z.to_nat firstn]. f_equal. lia.
  - apply (store_bytes s loc [v]); assumption.
Qed.

Lemma write_word_stores (s : State) (loc v : Z) :
  params_ok -> wf_state s -> 4 <= PX4_STORAGE_SIZE ->
  _initialised (obj s) = true ->
  0 <= loc -> loc + 2 <= PX4_STORAGE_SIZE ->
  exists s', write_word loc v s = Ok (tt, s') /\ stored s loc (le_bytes 2 v) s'.
Proof.
  intros Hp Hwf Hsz Hini Hloc Hin.
  pose proof (buffer_size s Hwf) as Hbuf.
  pose proof (region_fits_u16 Hp) as Hu16.
  pose proof (line_size_pos (shift_nonneg Hp)) as Hl.
  unfold write_word. change (2 - 1) with 1. rewrite guard_fixed by lia.
  destruct (Z.leb_spec (PX4_STORAGE_SIZE - 1) loc); [lia |].
  unfold bind at 1. unfold buffer_read, bind at 1, get_obj, ret.
  rewrite mem_read_in_bounds by lia.
  destruct (bytes_differ (le_bytes 2 v) (slice (_buffer (obj s)) loc 2)) eqn:Ediff.
  - apply (store_bytes s loc (le_bytes 2 v)); assumption.
  - exists s. split; [reflexivity |].
    replace (le_bytes 2 v) with (slice (_buffer (obj s)) loc 2).
    + apply unchanged_is_stored; lia.
    + symmetry. apply bytes_differ_false; [| exact Ediff].
      assert (Hl2 : len (slice (_buffer (obj s)) loc 2) = 2)
        by (apply slice_length; lia).
      unfold len in Hl2. cbn [le_bytes List.length]. lia.
Qed.

Lemma write_dword_stores (s : State) (loc v : Z) :
  params_ok -> wf_state s -> 4 <= PX4_STORAGE_SIZE ->
  _initialised (obj s) = true ->
  0 <= loc -> loc + 4 <= PX4_STORAGE_SIZE ->
  exists s', write_dword loc v s = Ok (tt, s') /\ stored s loc (le_bytes 4 v) s'.
Proof.
  intros Hp Hwf Hsz Hini Hloc Hin.
  pose proof (buffer_size s Hwf) as Hbuf.
  pose proof (region_fits_u16 Hp) as Hu16.
  pose proof (line_size_pos (shift_nonneg Hp)) as Hl.
  unfold write_dword. change (4 - 1) with 3. rewrite guard_fixed by lia.
  destruct (Z.leb_spec (PX4_STORAGE_SIZE - 3) loc); [lia |].
  unfold bind at 1. unfold buffer_read, bind at 1, get_obj, ret.
  rewrite mem_read_in_bounds by lia.
  destruct (bytes_differ (le_bytes 4 v) (slice (_buffer (obj s)) loc 4)) eqn:Ediff.
  - apply (store_bytes s loc (le_bytes 4 v)); assumption.
  - exists s. split; [reflexivity |].
    replace (le_bytes 4 v) with (slice (_buffer (obj s)) loc 4).
    + apply unchanged_is_stored; lia.
    + symmetry. apply bytes_differ_false; [| exact Ediff].
      assert (Hl2 : len (slice (_buffer (obj s)) loc 4) = 4)
        by (apply slice_length; lia).
      unfold len in Hl2. cbn [le_bytes List.length]. lia.
Qed.

(** What a read of [k] bytes in range finds on an opened store. *)
Lemma read_bytes_initialised (s : State) (loc k : Z) {A} (f : list Z -> M A) :
  len (_buffer (obj s)) = PX4_STORAGE_SIZE ->
  _initialised (obj s) = true ->
  0 <= loc -> 0 <= k -> loc + k <= PX4_STORAGE_SIZE ->
  (_storage_open ;; d <- buffer_read loc k ;; f d) s
  = f (slice (_buffer (obj s)) loc k) s.
Proof.
  intros Hbuf Hini Hloc Hk Hin.
  unfold bind at 1. rewrite storage_open_initialised by exact Hini.
  unfold bind at 1. unfold buffer_read, bind at 1, get_obj, ret.
  rewrite mem_read_in_bounds by lia. reflexivity.
Qed.


Lemma byte_of_slice (a : list Z) (p : Z) :
  0 <= p < len a -> slice a p 1 = [nth (Z.to_nat p) a 0].
Proof.
  intros Hp. rewrite slice_step by lia. unfold slice. reflexivity.
Qed.

Lemma slice_splice_inside (a : list Z) (off : Z) (d : list Z) (i k : Z) :
  0 <= off -> off <= len a -> 0 <= i -> 0 <= k -> i + k <= len d ->
  slice (splice a off d) (off + i) k = slice d i k.
Proof.
  intros Hoff Hin Hi Hk Hik. unfold slice, splice, len in *.
  rewrite skipn_app, length_firstn.
  rewrite (skipn_all2 (firstn (Z.to_nat off) a)) by (rewrite length_firstn; lia).
  cbn [app].
  replace (Z.to_nat (off + i) - Nat.min (Z.to_nat off) (List.length a))%nat
    with (Z.to_nat i) by lia.
  rewrite skipn_app, firstn_app, length_skipn.
  replace (Z.to_nat k - (List.length d - Z.to_nat i))%nat with 0%nat by lia.
  cbn [firstn]. apply app_nil_r.
Qed.

(** X8.  On an opened store a read in range changes nothing and returns
    the bytes of the region: [read_word] and [read_dword] are the
    little-endian values of the bytes [read_byte] returns, and
    [read_block] lays the [n] bytes over the start of the caller's array. *)
Theorem reads_return_the_region (s : State) (loc : Z) :
  4 <= PX4_STORAGE_SIZE < 2 ^ 32 - 1 ->
  len (_buffer (obj s)) = PX4_STORAGE_SIZE ->
  _initialised (obj s) = true ->
  0 <= loc ->
  (loc + 1 <= PX4_STORAGE_SIZE -> read_byte loc s = Ok (byte_at s loc, s)) /\
  (loc + 2 <= PX4_STORAGE_SIZE ->
   read_word loc s = Ok (byte_at s loc + 256 * byte_at s (loc + 1), s)) /\
  (loc + 4 <= PX4_STORAGE_SIZE ->
   read_dword loc s
   = Ok (byte_at s loc + 256 * byte_at s (loc + 1)
         + 65536 * byte_at s (loc + 2) + 16777216 * byte_at s (loc + 3), s)) /\
  (forall dst n, 0 <= n <= len dst -> loc + n <= PX4_STORAGE_SIZE ->
   read_block dst loc n s
   = Ok (splice dst 0 (slice (_buffer (obj s)) loc n), s)).
Proof.
  intros Hs Hbuf Hini Hloc. unfold byte_at. repeat split.
  - intros Hin. unfold read_byte, sizeof_buffer.
    destruct (Z.leb_spec PX4_STORAGE_SIZE loc); [lia |].
    rewrite read_bytes_initialised by (assumption || lia).
    rewrite byte_of_slice by lia. unfold ret. cbn [le_value]. do 2 f_equal. lia.
  - intros Hin. unfold read_word. change (2 - 1) with 1. rewrite guard_fixed by lia.
    destruct (Z.leb_spec (PX4_STORAGE_SIZE - 1) loc); [lia |].
    rewrite read_bytes_initialised by (assumption || lia).
    rewrite slice_step by lia. change (2 - 1) with 1.
    rewrite byte_of_slice by lia. unfold ret. cbn [le_value]. do 2 f_equal. lia.
  - intros Hin. unfold read_dword. change (4 - 1) with 3. rewrite guard_fixed by lia.
    destruct (Z.leb_spec (PX4_STORAGE_SIZE - 3) loc); [lia |].
    rewrite read_bytes_initialised by (assumption || lia).
    rewrite slice_step by lia. change (4 - 1) with 3.
    rewrite slice_step by lia. change (3 - 1) with 2.
    rewrite slice_step by lia. change (2 - 1) with 1.
    rewrite byte_of_slice by lia. unfold ret. cbn [le_value].
    replace (loc + 1 + 1) with (loc + 2) by lia.
    replace (loc + 2 + 1) with (loc + 3) by lia.
    do 2 f_equal. lia.
  - intros dst n Hn Hin. unfold read_block. rewrite guard_block by lia.
    destruct (Z.leb_spec (PX4_STORAGE_SIZE + 1 - n) loc); [lia |].
    rewrite read_bytes_initialised by (assumption || lia).
    unfold mem_write. rewrite slice_length by lia.
    destruct (Z.leb_spec (0 + n) (len dst)); [| lia]. reflexivity.
Qed.

(** X9.  On an opened store a value written is the value read back:
    [write_byte]/[read_byte] for a value a [uint8_t] holds, and
    [write_word]/[read_word], [write_dword]/[read_dword] up to the 16 and
    32 bits the value is stored in. *)
Theorem scalar_write_then_read (s : State) (loc v : Z) :
  params_ok -> wf_state s ->
  4 <= PX4_STORAGE_SIZE ->
  _initialised (obj s) = true ->
  0 <= loc ->
  (loc + 1 <= PX4_STORAGE_SIZE -> 0 <= v < 256 ->
   exists s', write_byte loc v s = Ok (tt, s') /\ read_byte loc s' = Ok (v, s')) /\
  (loc + 2 <= PX4_STORAGE_SIZE ->
   exists s', write_word loc v s = Ok (tt, s') /\
              read_word loc s' = Ok (v mod 2 ^ 16, s')) /\
  (loc + 4 <= PX4_STORAGE_SIZE ->
   exists s', write_dword loc v s = Ok (tt, s') /\
              read_dword loc s' = Ok (v mod 2 ^ 32, s')).
Proof.
  intros Hp Hwf Hsz Hini Hloc.
  pose proof (buffer_size s Hwf) as Hbuf.
  pose proof (region_fits_u16 Hp) as Hu16.
  pose proof (line_size_pos (shift_nonneg Hp)) as Hl.
  assert (Hback : forall data s', stored s loc data s' ->
            loc + len data <= PX4_STORAGE_SIZE ->
            len (_buffer (obj s')) = PX4_STORAGE_SIZE /\
            _initialised (obj s') = true /\
            slice (_buffer (obj s')) loc (len data) = data).
  { intros data s' (Hb & _ & Hi & _) Hin. rewrite Hb.
    split; [rewrite splice_length; lia |]. split; [congruence |].
    apply slice_splice; lia. }
  repeat split.
  - intros Hin Hv.
    destruct (write_byte_stores s loc v Hp Hwf Hini Hloc Hin) as (s' & Hw & Hst).
    destruct (Hback [v] s' Hst Hin) as (Hb' & Hi' & Hsl).
    exists s'. split; [exact Hw |].
    unfold read_byte, sizeof_buffer.
    destruct (Z.leb_spec PX4_STORAGE_SIZE loc); [lia |].
    rewrite read_bytes_initialised by (assumption || lia).
    change 1 with (len [v]) at 1. rewrite Hsl. unfold ret. cbn [le_value].
    do 2 f_equal. lia.
  - intros Hin.
    destruct (write_word_stores s loc v Hp Hwf Hsz Hini Hloc Hin) as (s' & Hw & Hst).
    destruct (Hback (le_bytes 2 v) s' Hst Hin) as (Hb' & Hi' & Hsl).
    exists s'. split; [exact Hw |].
    unfold read_word. change (2 - 1) with 1. rewrite guard_fixed by lia.
    destruct (Z.leb_spec (PX4_STORAGE_SIZE - 1) loc); [lia |].
    rewrite read_bytes_initialised by (assumption || lia).
    change (len (le_bytes 2 v)) with 2 in Hsl. rewrite Hsl. unfold ret.
    rewrite le_value_le_bytes. reflexivity.
  - intros Hin.
    destruct (write_dword_stores s loc v Hp Hwf Hsz Hini Hloc Hin) as (s' & Hw & Hst).
    destruct (Hback (le_bytes 4 v) s' Hst Hin) as (Hb' & Hi' & Hsl).
    exists s'. split; [exact Hw |].
    unfold read_dword. change (4 - 1) with 3. rewrite guard_fixed by lia.
    destruct (Z.leb_spec (PX4_STORAGE_SIZE - 3) loc); [lia |].
    rewrite read_bytes_initialised by (assumption || lia).
    change (len (le_bytes 4 v)) with 4 in Hsl. rewrite Hsl. unfold ret.
    rewrite le_value_le_bytes. reflexivity.
Qed.

(** X10.  On an opened store [write_block] is local: it makes no call to
    the operating system, the bytes of the range become those of [src],
    and every other byte of the region stays as it was. *)
Theorem write_block_is_local (s : State) (loc n : Z) (src : list Z) :
  params_ok -> wf_state s ->
  _initialised (obj s) = true ->
  0 <= loc -> 0 <= n -> loc + n <= PX4_STORAGE_SIZE -> n <= len src ->
  exists s',
    write_block loc src n s = Ok (tt, s') /\
    world s' = world s /\
    len (_buffer (obj s')) = PX4_STORAGE_SIZE /\
    (forall i, 0 <= i < n -> byte_at s' (loc + i) = nth (Z.to_nat i) src 0) /\
    (forall p, 0 <= p < PX4_STORAGE_SIZE -> ~ (loc <= p < loc + n) ->
     byte_at s' p = byte_at s p).
Proof.
  intros Hp Hwf Hini Hloc Hn Hin Hsrc.
  pose proof (buffer_size s Hwf) as Hbuf.
  assert (Hdata : len (slice src 0 n) = n) by (apply slice_length; lia).
  destruct (write_block_stores s loc n src Hp Hwf Hini Hloc Hn Hin Hsrc)
    as (s' & Hw & Hb & _ & _ & _ & Hworld).
  assert (Hlen : len (_buffer (obj s')) = PX4_STORAGE_SIZE)
    by (rewrite Hb, splice_length; lia).
  assert (Hbyte : forall a b p q, 0 <= p < len a -> 0 <= q < len b ->
            slice a p 1 = slice b q 1 ->
            nth (Z.to_nat p) a 0 = nth (Z.to_nat q) b 0).
  { intros a b p q Hpa Hqb E. rewrite !byte_of_slice in E by assumption.
    inversion E. reflexivity. }
  exists s'. split; [exact Hw |]. split; [exact Hworld |]. split; [exact Hlen |].
  unfold byte_at. split.
  - intros i Hi. apply Hbyte; try lia.
    rewrite Hb, slice_splice_inside by lia.
    unfold slice. cbn [Z.to_nat skipn]. rewrite skipn_firstn_comm.
    rewrite firstn_firstn. f_equal. lia.
  - intros p Hpr Hout. apply Hbyte; try lia. rewrite Hb.
    destruct (Z_lt_le_dec p loc).
    + apply slice_splice_below; lia.
    + apply slice_splice_above; lia.
Qed.

(** X11.  Writing what is already stored changes nothing, on any store:
    no byte, no dirty bit, no call; and when no line was dirty, the
    invocation of [_timer_tick] that follows makes no device call
    either. *)
Theorem identical_write_is_no_op (s : State) (loc v n : Z) (src : list Z)
    (io : TickIO) :
  4 <= PX4_STORAGE_SIZE < 2 ^ 32 - 1 ->
  len (_buffer (obj s)) = PX4_STORAGE_SIZE ->
  0 <= loc ->
  (loc + 1 <= PX4_STORAGE_SIZE -> byte_at s loc = v ->
   write_byte loc v s = Ok (tt, s)) /\
  (loc + 2 <= PX4_STORAGE_SIZE -> slice (_buffer (obj s)) loc 2 = le_bytes 2 v ->
   write_word loc v s = Ok (tt, s)) /\
  (loc + 4 <= PX4_STORAGE_SIZE -> slice (_buffer (obj s)) loc 4 = le_bytes 4 v ->
   write_dword loc v s = Ok (tt, s)) /\
  (0 <= n -> loc + n <= PX4_STORAGE_SIZE ->
   slice (_buffer (obj s)) loc n = slice src 0 n ->
   write_block loc src n s = Ok (tt, s) /\
   (_dirty_mask (obj s) = 0 ->
    (write_block loc src n ;; _timer_tick io) s = Ok (tt, s))).
Proof.
  intros Hs Hbuf Hloc. split; [| split; [| split]].
  - intros Hin Hv. unfold write_byte, sizeof_buffer.
    destruct (Z.leb_spec PX4_STORAGE_SIZE loc); [lia |].
    unfold buffer_read, bind, get_obj, ret.
    rewrite mem_read_in_bounds, byte_of_slice by lia. cbn [le_value].
    unfold byte_at in Hv. rewrite Hv.
    replace (v + 256 * 0) with v by lia. rewrite Z.eqb_refl. reflexivity.
  - intros Hin Hv. unfold write_word. change (2 - 1) with 1.
    rewrite guard_fixed by lia.
    destruct (Z.leb_spec (PX4_STORAGE_SIZE - 1) loc); [lia |].
    unfold buffer_read, bind, get_obj, ret.
    rewrite mem_read_in_bounds, Hv, bytes_differ_same by lia. reflexivity.
  - intros Hin Hv. unfold write_dword. change (4 - 1) with 3.
    rewrite guard_fixed by lia.
    destruct (Z.leb_spec (PX4_STORAGE_SIZE - 3) loc); [lia |].
    unfold buffer_read, bind, get_obj, ret.
    rewrite mem_read_in_bounds, Hv, bytes_differ_same by lia. reflexivity.
  - intros Hn Hin Heq.
    assert (Hw : write_block loc src n s = Ok (tt, s)).
    { unfold write_block. rewrite guard_block by lia.
      destruct (Z.leb_spec (PX4_STORAGE_SIZE + 1 - n) loc); [lia |].
      unfold buffer_read, bind, get_obj, ret.
      rewrite mem_read_in_bounds, Heq, bytes_differ_same by lia. reflexivity. }
    split; [exact Hw |].
    intros Hclean. unfold bind. rewrite Hw.
    unfold _timer_tick, bind, get_obj, ret. rewrite Hclean.
    rewrite orb_true_r. reflexivity.
Qed.

End StoreFacts.

(** ** Marking lines dirty *)

Lemma is_u32_u32 (x : Z) : is_u32 (u32 x).
Proof. unfold is_u32, u32, wrap. apply Z.mod_pos_bound. lia. Qed.

Section MarkFacts.

Context {params : StorageParams}.

Lemma line_of (x : Z) :
  0 <= PX4_STORAGE_LINE_SHIFT ->
  Z.shiftr x PX4_STORAGE_LINE_SHIFT = x / PX4_STORAGE_LINE_SIZE.
Proof.
  intros Hs. unfold PX4_STORAGE_LINE_SIZE. rewrite Z.shiftl_1_l.
  apply Z.shiftr_div_pow2. exact Hs.
Qed.

(** The loop of [_mark_dirty] adds to the mask the lines of [loc],
    [loc + LINE_SIZE], [loc + 2*LINE_SIZE], ... below [end], and nothing
    else. *)
Lemma mark_dirty_loop_bits (fuel : nat) (mask loc end_ m : Z) :
  0 <= PX4_STORAGE_LINE_SHIFT ->
  is_u32 mask -> 0 <= loc ->
  end_ + PX4_STORAGE_LINE_SIZE <= 2 ^ 16 ->
  (forall x, loc <= x < end_ -> Z.shiftr x PX4_STORAGE_LINE_SHIFT < 32) ->
  mark_dirty_loop fuel mask loc end_ = Some m ->
  is_u32 m /\
  forall j, 0 <= j ->
    Z.testbit m j = true <->
    (Z.testbit mask j = true \/
     exists k, 0 <= k /\ loc + k * PX4_STORAGE_LINE_SIZE < end_ /\
               j = Z.shiftr (loc + k * PX4_STORAGE_LINE_SIZE) PX4_STORAGE_LINE_SHIFT).
Proof.
  intros Hs. pose proof (line_size_pos Hs) as Hl.
  revert mask loc. induction fuel as [| f IH]; intros mask loc Hmask Hloc Hend Hlines E;
    cbn [mark_dirty_loop] in E;
    destruct (Z.ltb_spec loc end_) as [Hlt | Hge]; try discriminate E.
  1, 3: inversion E; subst m; split; [exact Hmask |]; intros j Hj; split;
    [ intros H; left; exact H
    | intros [H | (k & Hk & Hlt & _)]; [exact H | nia] ].
  pose proof (Hlines loc ltac:(lia)) as Hline.
  assert (Hline0 : 0 <= Z.shiftr loc PX4_STORAGE_LINE_SHIFT)
    by (apply Z.shiftr_nonneg; exact Hloc).
  assert (Hu8 : u8 (Z.shiftr loc PX4_STORAGE_LINE_SHIFT)
                = Z.shiftr loc PX4_STORAGE_LINE_SHIFT).
  { unfold u8, wrap. apply Z.mod_small. lia. }
  assert (Hu16 : u16 (loc + PX4_STORAGE_LINE_SIZE) = loc + PX4_STORAGE_LINE_SIZE).
  { unfold u16, wrap. apply Z.mod_small. lia. }
  rewrite Hu8, Hu16, line_bit in E by lia.
  apply IH in E; try lia.
  - destruct E as [Hm Hbits]. split; [exact Hm |]. intros j Hj.
    rewrite Hbits by exact Hj. rewrite u32_testbit, Z.lor_spec, Z.pow2_bits_eqb by lia.
    split.
    + intros [H | (k & Hk & Hklt & Hkj)].
      * apply andb_true_iff in H. destruct H as [_ H].
        apply orb_true_iff in H. destruct H as [H | H]; [left; exact H |].
        right. exists 0. apply Z.eqb_eq in H.
        split; [lia |]. split; [lia |]. rewrite Z.mul_0_l, Z.add_0_r. lia.
      * right. exists (k + 1). split; [lia |].
        replace (loc + (k + 1) * PX4_STORAGE_LINE_SIZE)
          with (loc + PX4_STORAGE_LINE_SIZE + k * PX4_STORAGE_LINE_SIZE) by lia.
        split; assumption.
    + intros [H | (k & Hk & Hklt & Hkj)].
      * left. rewrite H, orb_true_l, andb_true_r.
        apply Z.ltb_lt. destruct (Z_lt_le_dec j 32); [assumption |].
        rewrite (is_u32_high_bits mask j Hmask) in H by lia. discriminate.
      * destruct (Z.eq_dec k 0) as [-> | Hk0].
        -- left. rewrite Z.mul_0_l, Z.add_0_r in Hkj. subst j.
           rewrite Z.eqb_refl, orb_true_r, andb_true_r. apply Z.ltb_lt. lia.
        -- right. exists (k - 1). split; [lia |].
           replace (loc + PX4_STORAGE_LINE_SIZE + (k - 1) * PX4_STORAGE_LINE_SIZE)
             with (loc + k * PX4_STORAGE_LINE_SIZE) by lia.
           split; assumption.
  - apply is_u32_u32.
  - intros x Hx. apply Hlines. lia.
Qed.


(** A mask with no bit at or above [n] is below [2^n], and conversely. *)
Lemma bits_below (m n : Z) :
  0 <= n -> 0 <= m ->
  (forall j, n <= j -> Z.testbit m j = false) -> m < 2 ^ n.
Proof.
  intros Hn Hm Hbits. destruct (Z.eq_dec m 0) as [-> | Hne].
  - apply Z.pow_pos_nonneg; lia.
  - assert (Hpos : 0 < m) by lia.
    pose proof (Z.bit_log2 m Hpos) as Hb.
    pose proof (Z.log2_nonneg m) as Hl.
    destruct (Z_lt_le_dec (Z.log2 m) n) as [Hlt | Hge].
    + apply Z.log2_lt_pow2; assumption.
    + rewrite Hbits in Hb by exact Hge. discriminate.
Qed.

Lemma below_bits (m n j : Z) :
  0 <= m < 2 ^ n -> 0 <= n <= j -> Z.testbit m j = false.
Proof.
  intros Hm Hj. rewrite <- (Z.mod_small m (2 ^ n)) by exact Hm.
  apply Z.mod_pow2_bits_high. exact Hj.
Qed.

Lemma line_in_region (x : Z) :
  0 <= PX4_STORAGE_LINE_SHIFT ->
  PX4_STORAGE_SIZE = PX4_STORAGE_NUM_LINES * PX4_STORAGE_LINE_SIZE ->
  0 <= x < PX4_STORAGE_SIZE ->
  0 <= Z.shiftr x PX4_STORAGE_LINE_SHIFT < PX4_STORAGE_NUM_LINES.
Proof.
  intros Hs Hwhole Hx. pose proof (line_size_pos Hs) as Hl.
  rewrite line_of by exact Hs. split.
  - apply Z.div_pos; lia.
  - apply Z.div_lt_upper_bound; [exact Hl |]. rewrite Z.mul_comm, <- Hwhole. lia.
Qed.

(** [_mark_dirty] on a range inside a region of whole lines returns with a
    mask over the region's lines, made of the old bits and the lines of
    [loc], [loc + LINE_SIZE], ... below the end of the range. *)
Lemma mark_dirty_result (s : State) (loc n : Z) :
  params_ok ->
  PX4_STORAGE_SIZE = PX4_STORAGE_NUM_LINES * PX4_STORAGE_LINE_SIZE ->
  0 <= _dirty_mask (obj s) < 2 ^ PX4_STORAGE_NUM_LINES ->
  0 <= loc -> 0 <= n -> loc + n <= PX4_STORAGE_SIZE ->
  exists m,
    _mark_dirty loc n s = Ok (tt, mkState (set_dirty_mask m (obj s)) (world s)) /\
    0 <= m < 2 ^ PX4_STORAGE_NUM_LINES /\
    forall j, 0 <= j ->
      Z.testbit m j = true <->
      (Z.testbit (_dirty_mask (obj s)) j = true \/
       exists k, 0 <= k /\ loc + k * PX4_STORAGE_LINE_SIZE < loc + n /\
                 j = Z.shiftr (loc + k * PX4_STORAGE_LINE_SIZE) PX4_STORAGE_LINE_SHIFT).
Proof.
  intros [Hs HN Hu16 _] Hwhole Hmask Hloc Hn Hin.
  pose proof (line_size_pos Hs) as Hl.
  assert (H32 : 2 ^ PX4_STORAGE_NUM_LINES <= 2 ^ 32)
    by (apply Z.pow_le_mono_r; lia).
  assert (Hu32 : is_u32 (_dirty_mask (obj s))) by (unfold is_u32; lia).
  assert (Hw : u16 (loc + n) = loc + n).
  { unfold u16, wrap. apply Z.mod_small. lia. }
  assert (Hlines : forall x, loc <= x < loc + n ->
            0 <= Z.shiftr x PX4_STORAGE_LINE_SHIFT < PX4_STORAGE_NUM_LINES).
  { intros x Hx. apply line_in_region; [assumption | assumption | lia]. }
  destruct (mark_dirty_loop_returns mark_dirty_fuel (_dirty_mask (obj s)) loc
              (loc + n) Hs Hloc) as (m & Hm);
    [lia | unfold mark_dirty_fuel; lia |].
  assert (Hlines32 : forall x, loc <= x < loc + n ->
            Z.shiftr x PX4_STORAGE_LINE_SHIFT < 32).
  { intros x Hx. specialize (Hlines x Hx). lia. }
  destruct (mark_dirty_loop_bits mark_dirty_fuel (_dirty_mask (obj s)) loc
              (loc + n) m Hs Hu32 Hloc ltac:(lia) Hlines32 Hm) as [Hm32 Hbits].
  exists m. split.
  { unfold _mark_dirty, bind, get_obj, modify_obj. cbn zeta.
    rewrite Hw, Hm. reflexivity. }
  split; [| exact Hbits].
  split; [apply Hm32 |]. apply bits_below; [lia | apply Hm32 |].
  intros j Hj. destruct (Z.testbit m j) eqn:Eb; [| reflexivity].
  apply Hbits in Eb; [| lia].
  destruct Eb as [Hb | (k & Hk & Hklt & Hkj)].
  - rewrite (below_bits _ PX4_STORAGE_NUM_LINES j Hmask) in Hb by lia.
    discriminate.
  - assert (Hx : loc <= loc + k * PX4_STORAGE_LINE_SIZE < loc + n) by nia.
    specialize (Hlines _ Hx). lia.
Qed.

(** X12.  What [_mark_dirty] does for a range inside a region of whole
    lines.  It returns, changes nothing but the mask and sets no bit
    outside the region's lines; no dirty bit is lost; the line of the
    first byte is marked; every line newly marked holds a byte of the
    range; and when the range begins on a line boundary every line that
    holds a byte of the range is marked. *)
Theorem mark_dirty_in_range (s : State) (loc n : Z) :
  params_ok ->
  PX4_STORAGE_SIZE = PX4_STORAGE_NUM_LINES * PX4_STORAGE_LINE_SIZE ->
  0 <= _dirty_mask (obj s) < 2 ^ PX4_STORAGE_NUM_LINES ->
  0 <= loc -> 0 <= n -> loc + n <= PX4_STORAGE_SIZE ->
  exists m,
    _mark_dirty loc n s = Ok (tt, mkState (set_dirty_mask m (obj s)) (world s)) /\
    0 <= m < 2 ^ PX4_STORAGE_NUM_LINES /\
    (forall j, 0 <= j -> Z.testbit (_dirty_mask (obj s)) j = true ->
               Z.testbit m j = true) /\
    (0 < n -> Z.testbit m (Z.shiftr loc PX4_STORAGE_LINE_SHIFT) = true) /\
    (forall j, 0 <= j -> Z.testbit m j = true ->
       Z.testbit (_dirty_mask (obj s)) j = true \/
       exists x, loc <= x < loc + n /\ j = Z.shiftr x PX4_STORAGE_LINE_SHIFT) /\
    (loc mod PX4_STORAGE_LINE_SIZE = 0 ->
     forall x, loc <= x < loc + n ->
       Z.testbit m (Z.shiftr x PX4_STORAGE_LINE_SHIFT) = true).
Proof.
  intros Hp Hwhole Hmask Hloc Hn Hin.
  destruct (mark_dirty_result s loc n Hp Hwhole Hmask Hloc Hn Hin)
    as (m & Hrun & Hm & Hbits).
  destruct Hp as [Hs HN Hu16 _]. pose proof (line_size_pos Hs) as Hl.
  exists m. split; [exact Hrun |]. split; [exact Hm |].
  split.
  { intros j Hj Hb. apply Hbits; [exact Hj | left; exact Hb]. }
  split.
  { intros Hpos. apply Hbits; [apply Z.shiftr_nonneg; exact Hloc |].
    right. exists 0. rewrite Z.mul_0_l, Z.add_0_r. repeat split; lia. }
  split.
  { intros j Hj Hb. apply Hbits in Hb; [| exact Hj].
    destruct Hb as [Hb | (k & Hk & Hklt & Hkj)]; [left; exact Hb |].
    right. exists (loc + k * PX4_STORAGE_LINE_SIZE). split; [nia | exact Hkj]. }
  intros Haligned x Hx.
  assert (Hline : 0 <= Z.shiftr x PX4_STORAGE_LINE_SHIFT)
    by (apply Z.shiftr_nonneg; lia).
  apply Hbits; [exact Hline |]. right.
  rewrite !line_of in * by exact Hs.
  assert (Hq : loc = PX4_STORAGE_LINE_SIZE * (loc / PX4_STORAGE_LINE_SIZE)).
  { assert (Hne : PX4_STORAGE_LINE_SIZE <> 0) by lia.
    pose proof (Z.div_mod loc PX4_STORAGE_LINE_SIZE Hne). lia. }
  assert (Hmono : loc / PX4_STORAGE_LINE_SIZE <= x / PX4_STORAGE_LINE_SIZE)
    by (apply Z.div_le_mono; lia).
  pose proof (Z.mul_div_le x PX4_STORAGE_LINE_SIZE Hl) as Hfloor.
  exists (x / PX4_STORAGE_LINE_SIZE - loc / PX4_STORAGE_LINE_SIZE).
  assert (Hval : loc + (x / PX4_STORAGE_LINE_SIZE - loc / PX4_STORAGE_LINE_SIZE)
                       * PX4_STORAGE_LINE_SIZE
                 = x / PX4_STORAGE_LINE_SIZE * PX4_STORAGE_LINE_SIZE) by nia.
  split; [lia |]. rewrite Hval. split; [nia |].
  rewrite line_of by exact Hs. rewrite Z.div_mul by lia. reflexivity.
Qed.

End MarkFacts.

(** ** The store between operations *)

Section SoundnessFacts.

Context {params : StorageParams}.

Lemma land_clears (mask x : Z) :
  is_u32 mask ->
  is_u32 (Z.land mask x) /\
  forall j, Z.testbit (Z.land mask x) j = true -> Z.testbit mask j = true.
Proof.
  intros Hm.
  assert (Hbits : forall j, Z.testbit (Z.land mask x) j = true ->
                            Z.testbit mask j = true).
  { intros j. rewrite Z.land_spec. intros H.
    apply andb_true_iff in H. apply H. }
  split; [| exact Hbits].
  assert (H0 : 0 <= Z.land mask x) by (apply Z.land_nonneg; left; apply Hm).
  split; [exact H0 |]. apply bits_below; [lia | exact H0 |].
  intros j Hj. destruct (Z.testbit (Z.land mask x) j) eqn:E; [| reflexivity].
  apply Hbits in E. rewrite (below_bits mask 32 j) in E; [discriminate | exact Hm | lia].
Qed.

(** An invocation of [_timer_tick] returns, whatever the device answers;
    it leaves the region and the flags as they are and sets no bit of the
    mask. *)
Lemma tick_object (io : TickIO) (s : State) :
  params_ok -> wf_state s ->
  exists s', _timer_tick io s = Ok (tt, s') /\
    _buffer (obj s') = _buffer (obj s) /\
    _initialised (obj s') = _initialised (obj s) /\
    _have_mtd (obj s') = _have_mtd (obj s) /\
    is_u32 (_dirty_mask (obj s')) /\
    forall j, Z.testbit (_dirty_mask (obj s')) j = true ->
              Z.testbit (_dirty_mask (obj s)) j = true.
Proof.
  intros Hp Hwf. pose proof (mask_u32 s Hwf) as Hu32.
  destruct (_initialised (obj s)) eqn:Hini.
  2: { exists s. destruct s as [[fd ini have buf mask] w].
       cbn [obj _initialised] in Hini. subst ini. unfold _timer_tick. run.
       repeat split; try reflexivity; try apply Hu32. intros j H; exact H. }
  destruct (Z.eqb_spec (_dirty_mask (obj s)) 0) as [Hz | Hmask].
  { exists s. destruct s as [[fd ini have buf mask] w].
    cbn [obj _initialised _dirty_mask] in Hini, Hz. subst ini mask.
    unfold _timer_tick. run.
    repeat split; try reflexivity; try apply Hu32. intros j H; exact H. }
  destruct (dirty_run (_dirty_mask (obj s)) (first_dirty (_dirty_mask (obj s))))
    as [n wm] eqn:Erun.
  destruct (Z.eqb_spec (first_dirty (_dirty_mask (obj s))) PX4_STORAGE_NUM_LINES)
    as [Hi | Hi].
  - destruct s as [[fd ini have buf mask] w].
    cbn [obj world _fd _initialised _dirty_mask _buffer] in *. subst ini.
    apply Z.eqb_neq in Hmask. apply Z.eqb_eq in Hi.
    unfold _timer_tick. run. rewrite Hmask.
    destruct (fd =? -1) eqn:Efd.
    1: run; autorewrite with os; destruct (io_open io =? -1) eqn:Eopen.
    all: run; rewrite ?Hi; run.
    all: eexists; split; [reflexivity |];
         cbn [obj world _dirty_mask _buffer _initialised _have_mtd].
    all: repeat split; try reflexivity; try apply Hu32; intros j H; exact H.
  - destruct (tick_selects_run s n wm Hp Hwf Hmask Hi Erun)
      as (_ & (_ & _ & _ & Hwm & Hdirty & _) & Hread & Hlen).
    pose proof (restore_run _ wm _ n Hu32 Hwm Hdirty) as Hrestore.
    pose proof (land_clears _ (u32 (Z.lnot wm)) Hu32) as [Hc32 Hcbits].
    destruct s as [[fd ini have buf mask] w].
    cbn [obj world _fd _initialised _dirty_mask _buffer] in *. subst ini.
    apply Z.eqb_neq in Hmask, Hi.
    unfold _timer_tick. run. rewrite Hmask.
    destruct (fd =? -1) eqn:Efd.
    1: run; autorewrite with os; destruct (io_open io =? -1) eqn:Eopen.
    all: run; rewrite ?Hi, ?Erun; run; autorewrite with os.
    1: { eexists; split; [reflexivity |];
         cbn [obj world _dirty_mask _buffer _initialised _have_mtd].
         repeat split; try reflexivity; try apply Hu32; intros j H; exact H. }
    all: destruct (io_lseek io =? _) eqn:Eseek; run.
    2, 4: eexists; split; [reflexivity |];
          cbn [obj world _dirty_mask _buffer _initialised _have_mtd];
          repeat split; try reflexivity; try apply Hu32; intros j H; exact H.
    all: rewrite Hread; run; autorewrite with os.
    all: destruct (io_write io =? _) eqn:Ewrite; run.
    2, 4: rewrite Hrestore, Hmask; run;
          eexists; split; [reflexivity |];
          cbn [obj world _dirty_mask _buffer _initialised _have_mtd];
          repeat split; try reflexivity; try apply Hu32; intros j H; exact H.
    all: destruct (Z.land mask (u32 (Z.lnot wm)) =? 0) eqn:Ezero; run;
         autorewrite with os.
    1, 3: destruct (io_fsync io =? 0) eqn:Esync; run.
    all: eexists; split; [reflexivity |];
         cbn [obj world _dirty_mask _buffer _initialised _have_mtd];
         repeat split; try reflexivity; try apply Hc32; exact Hcbits.
Qed.

Lemma keeps_refl (s : State) : keeps_inv s s.
Proof. intros H. exact H. Qed.

Lemma keeps_trans (s1 s2 s3 : State) :
  keeps_inv s1 s2 -> keeps_inv s2 s3 -> keeps_inv s1 s3.
Proof. intros H12 H23 H. apply H23, H12, H. Qed.

(** The invariant speaks of the object only. *)
Lemma keeps_of_object (s s' : State) :
  len (_buffer (obj s')) = len (_buffer (obj s)) ->
  _dirty_mask (obj s') = _dirty_mask (obj s) ->
  (_initialised (obj s) = true -> _initialised (obj s') = true) ->
  keeps_inv s s'.
Proof.
  intros Hb Hm Hi [[Hlen Hu32] [Hlt Hini]].
  split; [split |]; rewrite ?Hb, ?Hm; try assumption.
  split; [exact Hlt |]. intros Hne. apply Hi, Hini. exact Hne.
Qed.

Lemma keeps_of_clean (s s' : State) :
  len (_buffer (obj s')) = len (_buffer (obj s)) ->
  _dirty_mask (obj s') = 0 ->
  keeps_inv s s'.
Proof.
  intros Hb Hm [[Hlen Hu32] [Hlt Hini]].
  split; [split |]; rewrite ?Hb, ?Hm; try assumption.
  - unfold is_u32. lia.
  - split; [destruct Hu32; lia | intros Hne; contradiction Hne; reflexivity].
Qed.

Lemma keeps_ret {A} (a : A) : respects keeps_inv (ret a).
Proof. apply respects_ret. exact keeps_refl. Qed.

Lemma keeps_bind {A B} (c : M A) (k : A -> M B) :
  respects keeps_inv c -> (forall a, respects keeps_inv (k a)) ->
  respects keeps_inv (bind c k).
Proof. apply respects_bind. exact keeps_trans. Qed.

Lemma keeps_get_obj : respects keeps_inv get_obj.
Proof. intros s a s' H. inversion H. apply keeps_refl. Qed.

Lemma keeps_sys {A} (call : World -> A * World) : respects keeps_inv (sys call).
Proof.
  intros s a s' H. inversion H. apply keeps_of_object; intros; reflexivity || assumption.
Qed.

Lemma keeps_panic_if (c : bool) (msg : string) : respects keeps_inv (panic_if c msg).
Proof.
  destruct c; intros s a s' H; [discriminate | inversion H; apply keeps_refl].
Qed.

Lemma keeps_fault {A} : respects keeps_inv (@fault A).
Proof. intros s a s' H. discriminate. Qed.

Lemma keeps_hang {A} : respects keeps_inv (@hang A).
Proof. intros s a s' H. discriminate. Qed.

Lemma keeps_set_have_mtd (v : bool) : respects keeps_inv (modify_obj (set_have_mtd v)).
Proof.
  intros s a s' H. inversion H. apply keeps_of_object; intros; reflexivity || assumption.
Qed.

Lemma keeps_set_initialised : respects keeps_inv (modify_obj (set_initialised true)).
Proof.
  intros s a s' H. inversion H. apply keeps_of_object; intros; reflexivity.
Qed.

Lemma keeps_clear_mask : respects keeps_inv (modify_obj (set_dirty_mask 0)).
Proof.
  intros s a s' H. inversion H. apply keeps_of_clean; reflexivity.
Qed.

(** [read] delivers no more than it was asked for. *)
Lemma sys_read_length (fd n : Z) (w : World) :
  len (snd (fst (sys_read fd n w))) <= Z.max 0 n.
Proof.
  unfold sys_read.
  destruct (fd_lookup fd (fds w)) as [f |]; [| cbn; lia].
  destruct (of_mode f); [| cbn; lia].
  destruct (file_of w (of_path f)) as [c |]; [| cbn; lia].
  cbn [fst snd]. unfold slice, len. rewrite length_firstn. lia.
Qed.

Lemma keeps_read_to_buffer (fd : Z) :
  respects keeps_inv (read_to_buffer fd sizeof_buffer).
Proof.
  intros s a s' H Hinv. revert H. unfold read_to_buffer, bind, sys, modify_obj, ret.
  intros H. inversion H. clear H. revert Hinv.
  pose proof (sys_read_length fd sizeof_buffer (world s)) as Hlen.
  intros Hinv. pose proof Hinv as [[Hb _] _].
  revert Hinv. apply keeps_of_object; cbn [obj _buffer _dirty_mask _initialised set_buffer];
    try reflexivity; try (intros E; exact E).
  unfold sizeof_buffer in *. apply splice_length; unfold len in *; lia.
Qed.

Lemma keeps_buffer_read (off n : Z) : respects keeps_inv (buffer_read off n).
Proof.
  unfold buffer_read. apply keeps_bind; [apply keeps_get_obj |]. intros o.
  destruct (mem_read (_buffer o) off n); [apply keeps_ret | apply keeps_fault].
Qed.

Lemma keeps_buffer_write (off : Z) (data : list Z) :
  respects keeps_inv (buffer_write off data).
Proof.
  intros s a s' H. revert H. unfold buffer_write, bind, get_obj, mem_write.
  destruct (0 <=? off) eqn:E0; [| discriminate].
  destruct (off + len data <=? len (_buffer (obj s))) eqn:E1; [| discriminate].
  cbn [andb]. unfold modify_obj. intros H. inversion H.
  apply keeps_of_object; cbn [obj _buffer _dirty_mask _initialised set_buffer];
    try reflexivity; try (intros E; exact E).
  apply splice_length; lia.
Qed.

Ltac keeps_steps :=
  repeat first
    [ apply keeps_ret
    | apply keeps_get_obj
    | apply keeps_panic_if
    | apply keeps_fault
    | apply keeps_hang
    | apply keeps_sys
    | apply keeps_set_have_mtd
    | apply keeps_set_initialised
    | apply keeps_clear_mask
    | apply keeps_read_to_buffer
    | apply keeps_buffer_read
    | apply keeps_bind; [| intros ?]
    | match goal with
      | |- respects keeps_inv (if ?c then _ else _) => destruct c
      | |- respects keeps_inv (match ?c with Some _ => _ | None => _ end) => destruct c
      end ].

(** [_storage_open] leaves a store as the accessors and the timer
    callback expect it. *)
Lemma storage_open_keeps : respects keeps_inv _storage_open.
Proof.
  unfold _storage_open, _mtd_signature, _mtd_write_signature, _upgrade_to_mtd.
  cbn zeta. keeps_steps.
Qed.

Lemma buffer_read_ok (off n : Z) (s s1 : State) (d : list Z) :
  buffer_read off n s = Ok (d, s1) ->
  s1 = s /\ 0 <= off /\ 0 <= n /\ off + n <= len (_buffer (obj s)).
Proof.
  unfold buffer_read, bind, get_obj, mem_read.
  destruct (Z.leb_spec 0 off) as [Hoff |]; [| discriminate].
  destruct (Z.leb_spec 0 n) as [Hn |]; [| discriminate].
  destruct (Z.leb_spec (off + n) (len (_buffer (obj s)))) as [Hin |]; [| discriminate].
  cbn [andb]. unfold ret. intros E. inversion E. subst.
  repeat split; first [assumption | reflexivity].
Qed.

(** The three statements that end every write accessor. *)
Lemma write_tail_keeps (loc k : Z) (data : list Z) (s s' : State) :
  params_ok ->
  PX4_STORAGE_SIZE = PX4_STORAGE_NUM_LINES * PX4_STORAGE_LINE_SIZE ->
  0 <= loc -> 0 <= k -> loc + k <= PX4_STORAGE_SIZE ->
  (_storage_open ;; buffer_write loc data ;; _mark_dirty loc k) s = Ok (tt, s') ->
  keeps_inv s s'.
Proof.
  intros Hp Hwhole Hloc Hk Hin H Hinv.
  destruct (bind_ok _ _ _ _ _ H) as ([] & s1 & Hopen & H1). clear H.
  destruct (bind_ok _ _ _ _ _ H1) as ([] & s2 & Hwrite & Hmark). clear H1.
  pose proof (storage_open_keeps _ _ _ Hopen Hinv) as Hinv1.
  pose proof (keeps_buffer_write _ _ _ _ _ Hwrite Hinv1) as Hinv2.
  assert (Hini1 : _initialised (obj s1) = true).
  { destruct (storage_open_once _ _ Hopen) as [Hsame Hran].
    destruct (_initialised (obj s)) eqn:E.
    - rewrite (Hsame eq_refl). exact E.
    - apply Hran. reflexivity. }
  assert (Hini2 : _initialised (obj s2) = true).
  { destruct (quiet_buffer_write _ _ _ _ _ Hwrite) as [_ Hq]. rewrite Hq. exact Hini1. }
  destruct Hinv2 as [[Hlen Hu32] [Hlt _]].
  assert (Hmask : 0 <= _dirty_mask (obj s2) < 2 ^ PX4_STORAGE_NUM_LINES)
    by (destruct Hu32; lia).
  destruct (mark_dirty_result s2 loc k Hp Hwhole Hmask Hloc Hk Hin)
    as (m & Hrun & Hm & _).
  rewrite Hrun in Hmark. inversion Hmark. clear Hmark.
  destruct Hp as [Hs HN _ _].
  assert (H32 : 2 ^ PX4_STORAGE_NUM_LINES <= 2 ^ 32)
    by (apply Z.pow_le_mono_r; lia).
  split; [split |]; cbn [obj _buffer _dirty_mask _initialised set_dirty_mask].
  - exact Hlen.
  - unfold is_u32. lia.
  - split; [lia | intros _; exact Hini2].
Qed.

Lemma write_call_keeps (loc n k : Z) (data : list Z) (differ : list Z -> bool)
    (s s' : State) :
  params_ok ->
  PX4_STORAGE_SIZE = PX4_STORAGE_NUM_LINES * PX4_STORAGE_LINE_SIZE ->
  0 <= k <= n ->
  (d <- buffer_read loc n ;;
   if differ d then _storage_open ;; buffer_write loc data ;; _mark_dirty loc k
   else ret tt) s = Ok (tt, s') ->
  keeps_inv s s'.
Proof.
  intros Hp Hwhole Hk H Hinv.
  destruct (bind_ok _ _ _ _ _ H) as (d & s1 & Hread & H1). clear H.
  destruct (buffer_read_ok _ _ _ _ _ Hread) as (-> & Hoff & Hn & Hin).
  destruct (differ d).
  - pose proof Hinv as [[Hlen _] _]. rewrite Hlen in Hin.
    refine (write_tail_keeps loc k data s s' Hp Hwhole Hoff _ _ H1 Hinv); lia.
  - inversion H1. subst s'. exact Hinv.
Qed.

Lemma call_keeps (c : Call) :
  params_ok ->
  PX4_STORAGE_SIZE = PX4_STORAGE_NUM_LINES * PX4_STORAGE_LINE_SIZE ->
  respects keeps_inv (run_call c).
Proof.
  intros Hp Hwhole.
  destruct c; cbn [run_call];
    unfold read_byte, read_word, read_dword, read_block,
      write_byte, write_word, write_dword, write_block.
  1-4: keeps_steps; apply storage_open_keeps.
  - destruct (sizeof_buffer <=? loc); [apply keeps_ret |].
    intros s a s' H. destruct a.
    exact (write_call_keeps loc 1 1 [value]
             (fun d => negb (le_value d =? value)) s s' Hp Hwhole ltac:(lia) H).
  - destruct (u32 (sizeof_buffer - (2 - 1)) <=? loc); [apply keeps_ret |].
    intros s a s' H. destruct a.
    exact (write_call_keeps loc 2 2 (le_bytes 2 value)
             (bytes_differ (le_bytes 2 value)) s s' Hp Hwhole ltac:(lia) H).
  - destruct (u32 (sizeof_buffer - (4 - 1)) <=? loc); [apply keeps_ret |].
    intros s a s' H. destruct a.
    exact (write_call_keeps loc 4 4 (le_bytes 4 value)
             (bytes_differ (le_bytes 4 value)) s s' Hp Hwhole ltac:(lia) H).
  - destruct (u32 (sizeof_buffer - u32 (n - 1)) <=? loc); [apply keeps_ret |].
    intros s a s' H Hinv. destruct a.
    destruct (bind_ok _ _ _ _ _ H) as (d & s1 & Hread & _).
    destruct (buffer_read_ok _ _ _ _ _ Hread) as (_ & _ & Hn & _).
    assert (Hk : 0 <= u16 n <= n).
    { unfold u16, wrap. split; [apply Z.mod_pos_bound; lia | apply Z.mod_le; lia]. }
    exact (write_call_keeps loc n (u16 n) (slice src 0 n)
             (bytes_differ (slice src 0 n)) s s' Hp Hwhole Hk H Hinv).
Qed.

Lemma tick_keeps (io : TickIO) :
  params_ok -> respects keeps_inv (_timer_tick io).
Proof.
  intros Hp s a s' H Hinv. pose proof Hinv as [Hwf [Hlt Hini]].
  destruct (tick_object io s Hp Hwf) as (s2 & Hrun & Hb & Hi & _ & Hu32 & Hbits).
  rewrite Hrun in H. inversion H. subst s2. clear H.
  split; [split |].
  - rewrite Hb. apply Hwf.
  - exact Hu32.
  - split.
    + apply bits_below; [| apply Hu32 |].
      * destruct Hp as [_ HN _ _]. lia.
      * intros j Hj. destruct (Z.testbit (_dirty_mask (obj s')) j) eqn:E; [| reflexivity].
        apply Hbits in E.
        rewrite (below_bits (_dirty_mask (obj s)) PX4_STORAGE_NUM_LINES j) in E;
          [discriminate | destruct Hwf as [_ []]; lia |].
        destruct Hp as [_ HN _ _]. lia.
    + intros Hne. rewrite Hi. apply Hini. intros Hz. apply Hne.
      apply Z.bits_inj'. intros j Hj. rewrite Z.bits_0.
      destruct (Z.testbit (_dirty_mask (obj s')) j) eqn:E; [| reflexivity].
      apply Hbits in E. rewrite Hz, Z.bits_0 in E. discriminate.
Qed.

Lemma ops_keep (ops : list Op) :
  params_ok ->
  PX4_STORAGE_SIZE = PX4_STORAGE_NUM_LINES * PX4_STORAGE_LINE_SIZE ->
  respects keeps_inv (run_ops ops).
Proof.
  intros Hp Hwhole. induction ops as [| o r IH]; cbn [run_ops].
  - apply keeps_ret.
  - apply keeps_bind; [| intros _; exact IH].
    destruct o; cbn [run_op]; [apply call_keeps | apply tick_keeps]; assumption.
Qed.

Lemma boot_inv (w : World) : 0 < PX4_STORAGE_NUM_LINES -> store_inv (boot w).
Proof.
  intros HN. unfold boot, new_PX4Storage.
  split; [split |]; cbn [obj _buffer _dirty_mask _initialised].
  - unfold len. rewrite repeat_length. apply Z2Nat.id.
    unfold PX4_STORAGE_NUM_LINES in HN.
    destruct (Z_lt_le_dec PX4_STORAGE_SIZE 0) as [Hneg | Hpos]; [| exact Hpos].
    exfalso.
    destruct (Z_lt_le_dec 0 PX4_STORAGE_LINE_SIZE) as [Hl | Hl].
    + pose proof (Z.div_lt_upper_bound PX4_STORAGE_SIZE PX4_STORAGE_LINE_SIZE 0 Hl).
      lia.
    + unfold PX4_STORAGE_LINE_SIZE in *.
      destruct (Z_lt_le_dec PX4_STORAGE_LINE_SHIFT 0) as [Hs | Hs].
      * rewrite Z.shiftl_1_l, Z.pow_neg_r in HN by exact Hs.
        rewrite Z.div_0_r in HN. lia.
      * rewrite Z.shiftl_1_l in Hl. pose proof (Z.pow_pos_nonneg 2 _ ltac:(lia) Hs). lia.
  - unfold is_u32. lia.
  - split; [apply Z.pow_pos_nonneg; lia | intros H; contradiction H; reflexivity].
Qed.

(** X13.  Whatever accessor calls and timer invocations a store goes
    through, with whatever the device answers to the timer's calls, and
    provided none of them ends the process: the region keeps its size,
    the mask has bits for the region's lines only, and lines are dirty in
    an opened store only.  The store the constructor leaves is such a
    store.  So the scan of [_timer_tick] always finds a dirty line: the
    branch after it that counts an error is never taken. *)
Theorem operations_keep_the_store_sound (ops : list Op) (s s' : State) :
  params_ok ->
  PX4_STORAGE_SIZE = PX4_STORAGE_NUM_LINES * PX4_STORAGE_LINE_SIZE ->
  store_inv s ->
  run_ops ops s = Ok (tt, s') ->
  (forall w, store_inv (boot w)) /\
  store_inv s' /\
  (_dirty_mask (obj s') <> 0 ->
   _initialised (obj s') = true /\
   first_dirty (_dirty_mask (obj s')) < PX4_STORAGE_NUM_LINES).
Proof.
  intros Hp Hwhole Hinv Hrun.
  pose proof (ops_keep ops Hp Hwhole s tt s' Hrun Hinv) as Hinv'.
  destruct Hp as [_ HN _ _].
  split; [intros w; apply boot_inv; lia |].
  split; [exact Hinv' |].
  destruct Hinv' as [[_ Hu32] [Hlt Hini]]. intros Hne.
  split; [apply Hini; exact Hne |].
  apply first_dirty_found; [exact HN | destruct Hu32; lia].
Qed.

End SoundnessFacts.

(** ** Flushes *)

Lemma mtd_fsync_r r fd w : mtd (snd (fsync_r r fd w)) = mtd w.
Proof. reflexivity. Qed.
Lemma mtd_sys_close fd w : mtd (snd (sys_close fd w)) = mtd w.
Proof. reflexivity. Qed.
Lemma old_file_open_r r p m w : old_file (snd (open_r r p m w)) = old_file w.
Proof. unfold open_r. destruct (r =? -1); reflexivity. Qed.
Lemma old_file_lseek_r r fd off w : old_file (snd (lseek_r r fd off w)) = old_file w.
Proof.
  unfold lseek_r. destruct (fd_lookup fd (fds w)); [destruct (r =? off) |];
    reflexivity.
Qed.
Lemma old_file_write_r r fd d w : old_file (snd (write_r r fd d w)) = old_file w.
Proof.
  unfold write_r, store_at.
  destruct (fd_lookup fd (fds w)) as [f |]; [| reflexivity].
  destruct (0 <? r); [| reflexivity].
  destruct (of_mode f), (of_path f), (mtd w); reflexivity.
Qed.

Lemma old_file_fsync_r r fd w : old_file (snd (fsync_r r fd w)) = old_file w.
Proof. reflexivity. Qed.
Lemma old_file_sys_close fd w : old_file (snd (sys_close fd w)) = old_file w.
Proof. reflexivity. Qed.
Lemma old_file_perf_begin w : old_file (snd (perf_begin w)) = old_file w.
Proof. reflexivity. Qed.
Lemma old_file_perf_end w : old_file (snd (perf_end w)) = old_file w.
Proof. reflexivity. Qed.
Lemma old_file_perf_count w : old_file (snd (perf_count w)) = old_file w.
Proof. reflexivity. Qed.

#[local] Hint Rewrite mtd_fsync_r mtd_sys_close
  old_file_open_r old_file_lseek_r old_file_write_r old_file_fsync_r
  old_file_sys_close old_file_perf_begin old_file_perf_end
  old_file_perf_count : os.

Lemma fd_lookup_update (fd : Z) (f g : OpenFile) (t : list (Z * OpenFile)) :
  fd_lookup fd t = Some g -> fd_lookup fd (fd_update fd f t) = Some f.
Proof.
  induction t as [| [k h] r IH]; cbn [fd_lookup fd_update]; [discriminate |].
  destruct (k =? fd) eqn:E; intros H; cbn [fd_lookup]; rewrite E;
    [reflexivity | apply IH, H].
Qed.

(** After [lseek] returned the offset asked for, the descriptor is there. *)
Lemma lookup_lseek_r (fd off : Z) (w : World) (f : OpenFile) :
  fd_lookup fd (fds w) = Some f ->
  fd_lookup fd (fds (snd (lseek_r off fd off w))) = Some (move_to off f).
Proof.
  intros H. unfold lseek_r. rewrite H, Z.eqb_refl. cbn [snd log fds set_fds].
  apply (fd_lookup_update fd _ f), H.
Qed.

Lemma lookup_open_r (r : Z) (p : Path) (m : OpenMode) (w : World) :
  r <> -1 ->
  fd_lookup r (fds (snd (open_r r p m w))) = Some (mkOpenFile p m 0).
Proof.
  intros H. apply Z.eqb_neq in H. unfold open_r. rewrite H.
  cbn [snd log fds set_fds fd_lookup]. rewrite Z.eqb_refl. reflexivity.
Qed.

(** A [write] that transfers all of [data] to a descriptor open for
    writing on the device lays [data] over the device at the descriptor's
    position. *)
Lemma write_r_stores (r fd pos : Z) (data dev : list Z) (w : World) :
  fd_lookup fd (fds w) = Some (mkOpenFile MTD_PARAMS_FILE O_WRONLY pos) ->
  mtd w = Some dev ->
  0 <= pos -> r = len data -> 0 < r -> pos + r <= len dev ->
  mtd (snd (write_r r fd data w)) = Some (splice dev pos data).
Proof.
  intros Hfd Hdev Hpos Hr Hr0 Hin. unfold write_r. rewrite Hfd.
  destruct (Z.ltb_spec 0 r); [| lia].
  unfold store_at, room. cbn [of_mode of_path of_pos]. rewrite Hdev.
  cbn [snd log mtd set_fds set_mtd].
  replace (Z.min r (Z.max 0 (len dev - pos))) with (len data) by lia.
  unfold len at 1. rewrite Nat2Z.id, firstn_all. reflexivity.
Qed.

(** Whatever [write] transfers through a descriptor whose position is on
    the device, the device keeps its size. *)
Lemma write_r_keeps_size (r fd pos : Z) (data dev : list Z) (w : World) :
  fd_lookup fd (fds w) = Some (mkOpenFile MTD_PARAMS_FILE O_WRONLY pos) ->
  mtd w = Some dev -> 0 <= pos <= len dev ->
  exists dev', mtd (snd (write_r r fd data w)) = Some dev' /\ len dev' = len dev.
Proof.
  intros Hfd Hdev Hpos. unfold write_r. rewrite Hfd.
  destruct (0 <? r); [| exists dev; split; [exact Hdev | reflexivity]].
  unfold store_at, room. cbn [of_mode of_path of_pos]. rewrite Hdev.
  cbn [snd log mtd set_fds set_mtd]. eexists. split; [reflexivity |].
  apply splice_length; [lia |]. unfold len in *. rewrite length_firstn. lia.
Qed.

Section FlushFacts.

Context {params : StorageParams}.

(** An invocation of [_timer_tick] for which the descriptor is there,
    [lseek] returns the offset of the run and [write] transfers the run:
    the state it returns with. *)
Lemma tick_flushes (io : TickIO) (s : State) (dev : list Z) :
  params_ok -> wf_state s ->
  _initialised (obj s) = true ->
  0 < _dirty_mask (obj s) < 2 ^ PX4_STORAGE_NUM_LINES ->
  mtd (world s) = Some dev -> PX4_STORAGE_SIZE <= len dev ->
  descriptor_ready io s ->
  io_lseek io = run_offset (_dirty_mask (obj s)) ->
  io_write io = run_count (_dirty_mask (obj s)) ->
  let mask := _dirty_mask (obj s) in
  let data := slice (_buffer (obj s)) (run_offset mask) (run_count mask) in
  let mask' := Z.land mask (u32 (Z.lnot (run_mask mask))) in
  let failed := (mask' =? 0) && negb (io_fsync io =? 0) in
  exists s', _timer_tick io s = Ok (tt, s') /\
    mtd (world s') = Some (splice dev (run_offset mask) data) /\
    obj s' = mkObj (if failed then -1 else tick_fd io s) true (_have_mtd (obj s))
                   (_buffer (obj s)) mask' /\
    perf_errors (world s')
    = perf_errors (world s) + (if failed then 1 else 0) /\
    old_file (world s') = old_file (world s).
Proof.
  intros Hp Hwf Hini Hm Hdev Hsize Hfd Hseek Hwrite. cbn zeta.
  unfold run_offset, run_count, run_mask, tick_fd, descriptor_ready in *.
  assert (Hmask : _dirty_mask (obj s) <> 0) by lia.
  assert (Hi : first_dirty (_dirty_mask (obj s)) <> PX4_STORAGE_NUM_LINES).
  { pose proof (first_dirty_found _ (lines_fit_mask Hp) Hm). lia. }
  destruct (dirty_run (_dirty_mask (obj s)) (first_dirty (_dirty_mask (obj s))))
    as [n wm] eqn:Erun.
  cbn [fst snd] in *.
  destruct (tick_selects_run s n wm Hp Hwf Hmask Hi Erun)
    as ((Hi0 & _) & (Hn1 & Hin & _) & Hread & Hlen).
  assert (Hi1 : 0 <= first_dirty (_dirty_mask (obj s))) by lia.
  destruct (run_in_buffer _ n (shift_nonneg Hp) Hi1 Hn1 Hin) as (Hoff & Hcnt & Hend).
  assert (Hpos : 0 < Z.shiftl n PX4_STORAGE_LINE_SHIFT).
  { rewrite shiftl_lines by apply Hp.
    pose proof (line_size_pos (shift_nonneg Hp)). nia. }
  destruct s as [[fd ini have buf mask] w].
  cbn [obj world _fd _initialised _dirty_mask _buffer _have_mtd] in *. subst ini.
  apply Z.eqb_neq in Hmask, Hi.
  unfold _timer_tick. run. rewrite Hmask.
  destruct (fd =? -1) eqn:Efd.
  1: apply Z.eqb_neq in Hfd; run; autorewrite with os; rewrite Hfd.
  all: run; rewrite Hi, Erun; run; autorewrite with os;
       rewrite Hseek, Z.eqb_refl; run; rewrite Hread; run; autorewrite with os;
       rewrite Hwrite, Z.eqb_refl; run.
  all: destruct (Z.land mask (u32 (Z.lnot wm)) =? 0) eqn:Ezero; run;
       autorewrite with os.
  1, 3: destruct (io_fsync io =? 0) eqn:Esync; run.
  all: eexists; split; [reflexivity |];
       cbn [obj world andb negb]; autorewrite with os.
  all: split; [| repeat split; rewrite ?Z.add_0_r; reflexivity].
  all: apply (write_r_stores _ _ (Z.shiftl (first_dirty mask) PX4_STORAGE_LINE_SHIFT));
       try assumption; try lia; [| autorewrite with os; exact Hdev].
  all: lazymatch type of Hfd with
       | ex _ =>
           destruct Hfd as [pos Hfd];
           apply (lookup_lseek_r _ _ _ (mkOpenFile MTD_PARAMS_FILE O_WRONLY pos));
           exact Hfd
       | _ =>
           apply (lookup_lseek_r _ _ _ (mkOpenFile MTD_PARAMS_FILE O_WRONLY 0));
           apply lookup_open_r; apply Z.eqb_neq; exact Hfd
       end.
Qed.

(** Clearing a run takes its lines, at least one, out of the mask. *)
Lemma clear_run_decreases (mask wm i n : Z) :
  is_u32 mask -> 0 <= i -> 1 <= n ->
  (forall j, 0 <= j -> Z.testbit wm j = (i <=? j) && (j <? i + n)) ->
  (forall j, i <= j < i + n -> Z.testbit mask j = true) ->
  0 <= Z.land mask (u32 (Z.lnot wm)) < mask.
Proof.
  intros Hm Hi Hn Hwm Hrun.
  pose proof (restore_run mask wm i n Hm Hwm Hrun) as Hrestore.
  assert (Hdisjoint : Z.land (Z.land mask (u32 (Z.lnot wm))) wm = 0).
  { apply Z.bits_inj'. intros j Hj.
    rewrite Z.land_spec, (clear_run_bits mask wm i n j Hm Hj Hwm), Hwm, Z.bits_0 by lia.
    destruct ((i <=? j) && (j <? i + n)); cbn;
      rewrite ?andb_false_r, ?andb_true_r; reflexivity. }
  assert (Hwm0 : 0 <= wm).
  { apply Z.bits_iff_nonneg_ex. exists (i + n). intros j Hj.
    rewrite Hwm by lia. destruct (Z.ltb_spec j (i + n)); [lia |].
    apply andb_false_r. }
  assert (Hwm1 : wm <> 0).
  { intros E. pose proof (Hwm i Hi) as Hb. rewrite E, Z.bits_0 in Hb.
    destruct (Z.leb_spec i i); [| lia]. destruct (Z.ltb_spec i (i + n)); [| lia].
    discriminate. }
  pose proof (Z.add_lor_land (Z.land mask (u32 (Z.lnot wm))) wm) as Hadd.
  rewrite Hrestore, Hdisjoint in Hadd.
  assert (H0 : 0 <= Z.land mask (u32 (Z.lnot wm)))
    by (apply Z.land_nonneg; left; apply Hm).
  lia.
Qed.

(** An invocation that seeks to the run and then fails to write it: the
    state it returns with. *)
Lemma tick_write_fails (io : TickIO) (s : State) (dev : list Z) :
  params_ok -> wf_state s ->
  _initialised (obj s) = true ->
  0 < _dirty_mask (obj s) < 2 ^ PX4_STORAGE_NUM_LINES ->
  mtd (world s) = Some dev -> PX4_STORAGE_SIZE <= len dev ->
  descriptor_ready io s ->
  io_lseek io = run_offset (_dirty_mask (obj s)) ->
  io_write io <> run_count (_dirty_mask (obj s)) ->
  exists s' dev', _timer_tick io s = Ok (tt, s') /\
    obj s' = mkObj (-1) true (_have_mtd (obj s)) (_buffer (obj s))
                   (_dirty_mask (obj s)) /\
    mtd (world s') = Some dev' /\ len dev' = len dev /\
    perf_errors (world s') = perf_errors (world s) + 1.
Proof.
  intros Hp Hwf Hini Hm Hdev Hsize Hfd Hseek Hwrite.
  unfold run_offset, run_count, run_mask, tick_fd, descriptor_ready in *.
  assert (Hmask : _dirty_mask (obj s) <> 0) by lia.
  assert (Hi : first_dirty (_dirty_mask (obj s)) <> PX4_STORAGE_NUM_LINES).
  { pose proof (first_dirty_found _ (lines_fit_mask Hp) Hm). lia. }
  destruct (dirty_run (_dirty_mask (obj s)) (first_dirty (_dirty_mask (obj s))))
    as [n wm] eqn:Erun.
  cbn [fst snd] in *.
  destruct (tick_selects_run s n wm Hp Hwf Hmask Hi Erun)
    as ((Hi0 & _) & (Hn1 & Hin & _ & Hwm & Hdirty & _) & Hread & Hlen).
  pose proof (restore_run _ wm _ n (mask_u32 s Hwf) Hwm Hdirty) as Hrestore.
  assert (Hi1 : 0 <= first_dirty (_dirty_mask (obj s))) by lia.
  destruct (run_in_buffer _ n (shift_nonneg Hp) Hi1 Hn1 Hin) as (Hoff & Hcnt & Hend).
  destruct s as [[fd ini have buf mask] w].
  cbn [obj world _fd _initialised _dirty_mask _buffer _have_mtd] in *. subst ini.
  apply Z.eqb_neq in Hmask, Hi, Hwrite.
  unfold _timer_tick. run. rewrite Hmask.
  destruct (fd =? -1) eqn:Efd.
  1: apply Z.eqb_neq in Hfd; run; autorewrite with os; rewrite Hfd.
  all: run; rewrite Hi, Erun; run; autorewrite with os;
       rewrite Hseek, Z.eqb_refl; run; rewrite Hread; run; autorewrite with os;
       rewrite Hwrite; run; rewrite Hrestore, Hmask; run.
  all: match goal with
       | |- context [write_r ?r ?f ?d ?W] =>
           destruct (write_r_keeps_size r f
                       (Z.shiftl (first_dirty mask) PX4_STORAGE_LINE_SHIFT) d dev W)
             as (dev' & Hd' & Hl');
           [ | autorewrite with os; exact Hdev | lia | ]
       end.
  1, 3: lazymatch type of Hfd with
        | ex _ =>
            destruct Hfd as [pos Hfd];
            apply (lookup_lseek_r _ _ _ (mkOpenFile MTD_PARAMS_FILE O_WRONLY pos));
            exact Hfd
        | _ =>
            apply (lookup_lseek_r _ _ _ (mkOpenFile MTD_PARAMS_FILE O_WRONLY 0));
            apply lookup_open_r; apply Z.eqb_neq; exact Hfd
        end.
  all: eexists; exists dev'; split; [reflexivity |];
       cbn [obj world]; autorewrite with os.
  all: repeat split; assumption.
Qed.

(** X14.  An invocation of [_timer_tick] that meets no failure stores the
    run on the device.  With a descriptor to the device, [lseek] at the
    run's offset and [write] taking the whole run, the device holds the
    region's bytes at the run, keeps its size and every byte beside the
    run; the region is not touched; the lines of the run, and no other,
    leave the mask, which gets smaller. *)
Theorem successful_flush_stores_the_run (io : TickIO) (s : State) (dev : list Z) :
  params_ok -> wf_state s ->
  _initialised (obj s) = true ->
  0 < _dirty_mask (obj s) < 2 ^ PX4_STORAGE_NUM_LINES ->
  mtd (world s) = Some dev -> PX4_STORAGE_SIZE <= len dev ->
  descriptor_ready io s ->
  io_lseek io = run_offset (_dirty_mask (obj s)) ->
  io_write io = run_count (_dirty_mask (obj s)) ->
  let mask := _dirty_mask (obj s) in
  let i := first_dirty mask in
  let n := fst (dirty_run mask i) in
  exists s' dev', _timer_tick io s = Ok (tt, s') /\
    mtd (world s') = Some dev' /\
    len dev' = len dev /\
    slice dev' (run_offset mask) (run_count mask)
    = slice (_buffer (obj s)) (run_offset mask) (run_count mask) /\
    slice dev' 0 (run_offset mask) = slice dev 0 (run_offset mask) /\
    (forall p k, run_offset mask + run_count mask <= p ->
       slice dev' p k = slice dev p k) /\
    _buffer (obj s') = _buffer (obj s) /\
    (forall j, 0 <= j ->
       Z.testbit (_dirty_mask (obj s')) j
       = Z.testbit mask j && negb ((i <=? j) && (j <? i + n))) /\
    0 <= _dirty_mask (obj s') < mask.
Proof.
  intros Hp Hwf Hini Hm Hdev Hsize Hfd Hseek Hwrite. cbn zeta.
  destruct (tick_flushes io s dev Hp Hwf Hini Hm Hdev Hsize Hfd Hseek Hwrite)
    as (s' & Hrun & Hdev' & Hobj & _).
  cbn zeta in Hdev', Hobj.
  unfold run_offset, run_count, run_mask in *.
  assert (Hmask : _dirty_mask (obj s) <> 0) by lia.
  assert (Hi : first_dirty (_dirty_mask (obj s)) <> PX4_STORAGE_NUM_LINES).
  { pose proof (first_dirty_found _ (lines_fit_mask Hp) Hm). lia. }
  destruct (dirty_run (_dirty_mask (obj s)) (first_dirty (_dirty_mask (obj s))))
    as [n wm] eqn:Erun.
  cbn [fst snd] in *.
  destruct (tick_selects_run s n wm Hp Hwf Hmask Hi Erun)
    as ((Hi0 & _) & (Hn1 & Hin & _ & Hwm & Hdirty & _) & Hread & Hlen).
  assert (Hi1 : 0 <= first_dirty (_dirty_mask (obj s))) by lia.
  destruct (run_in_buffer _ n (shift_nonneg Hp) Hi1 Hn1 Hin) as (Hoff & Hcnt & Hend).
  pose proof (mask_u32 s Hwf) as Hu32.
  exists s'. eexists. split; [exact Hrun |]. split; [exact Hdev' |].
  rewrite Hobj. cbn [_buffer _dirty_mask].
  split; [apply splice_length; lia |].
  split.
  { match goal with
    | |- slice (splice _ ?off ?d) _ _ = _ =>
        pose proof (slice_splice dev off d Hoff) as Hs
    end.
    rewrite Hlen in Hs. apply Hs. lia. }
  split; [apply slice_splice_below; lia |].
  split; [intros p k Hpk; apply slice_splice_above; lia |].
  split; [reflexivity |].
  split; [intros j Hj; apply clear_run_bits; assumption |].
  apply (clear_run_decreases _ wm (first_dirty (_dirty_mask (obj s))) n);
    assumption || lia.
Qed.

(** X15.  A failed [fsync] is not made up for.  When the invocation wrote
    the last dirty lines and [fsync] then fails, the descriptor is given
    up ([_fd] is -1) and an error is counted, but the mask stays clear:
    the device has the bytes, and every later invocation returns at once,
    without opening the device or calling [fsync] again. *)
Theorem sync_failure_is_not_retried (io io' : TickIO) (s : State) (dev : list Z) :
  params_ok -> wf_state s ->
  _initialised (obj s) = true ->
  0 < _dirty_mask (obj s) < 2 ^ PX4_STORAGE_NUM_LINES ->
  mtd (world s) = Some dev -> PX4_STORAGE_SIZE <= len dev ->
  descriptor_ready io s ->
  io_lseek io = run_offset (_dirty_mask (obj s)) ->
  io_write io = run_count (_dirty_mask (obj s)) ->
  Z.land (_dirty_mask (obj s)) (u32 (Z.lnot (run_mask (_dirty_mask (obj s))))) = 0 ->
  io_fsync io <> 0 ->
  let mask := _dirty_mask (obj s) in
  exists s', _timer_tick io s = Ok (tt, s') /\
    _fd (obj s') = -1 /\
    _dirty_mask (obj s') = 0 /\
    perf_errors (world s') = perf_errors (world s) + 1 /\
    mtd (world s')
    = Some (splice dev (run_offset mask)
              (slice (_buffer (obj s)) (run_offset mask) (run_count mask))) /\
    _timer_tick io' s' = Ok (tt, s').
Proof.
  intros Hp Hwf Hini Hm Hdev Hsize Hfd Hseek Hwrite Hclear Hsync. cbn zeta.
  destruct (tick_flushes io s dev Hp Hwf Hini Hm Hdev Hsize Hfd Hseek Hwrite)
    as (s' & Hrun & Hdev' & Hobj & Herr & _).
  cbn zeta in Hdev', Hobj, Herr.
  apply Z.eqb_neq in Hsync. rewrite Hclear, Hsync in Hobj, Herr.
  cbn [Z.eqb andb negb] in Hobj, Herr.
  exists s'. split; [exact Hrun |]. rewrite Hobj. cbn [_fd _dirty_mask].
  repeat split; try assumption.
  destruct s' as [o' w']. cbn [obj] in Hobj. subst o'.
  unfold _timer_tick. run. reflexivity.
Qed.

(** X16.  When no descriptor is held and [open] fails, the invocation of
    [_timer_tick] counts an error and ends: the object is as it was, the
    lines stay dirty, and the device saw no call but the [open]. *)
Theorem tick_open_failure_counts_an_error (io : TickIO) (s : State) :
  _initialised (obj s) = true ->
  _dirty_mask (obj s) <> 0 ->
  _fd (obj s) = -1 ->
  io_open io = -1 ->
  exists s', _timer_tick io s = Ok (tt, s') /\
    obj s' = obj s /\
    mtd (world s') = mtd (world s) /\
    fds (world s') = fds (world s) /\
    perf_errors (world s') = perf_errors (world s) + 1 /\
    trace (world s')
    = EPerfEnd :: EOpen MTD_PARAMS_FILE O_WRONLY (-1) :: EPerfBegin
        :: trace (world s).
Proof.
  intros Hini Hmask Hfd Hopen.
  destruct s as [[fd ini have buf mask] w].
  cbn [obj world _fd _initialised _dirty_mask] in *. subst ini fd.
  apply Z.eqb_neq in Hmask.
  unfold _timer_tick. run. rewrite Hmask. run. autorewrite with os.
  rewrite Hopen. run.
  eexists. split; [reflexivity |]. cbn [obj world].
  repeat split.
Qed.

(** X17.  A run whose write failed is written by the next invocation.
    The failed invocation leaves the mask as it found it and holds no
    descriptor; the next one, given a descriptor and no failure, selects
    the same run, and afterwards the device holds the region's bytes at
    the run, whatever the failed write had transferred. *)
Theorem failed_write_is_retried (io io' : TickIO) (s : State) (dev : list Z) :
  params_ok -> wf_state s ->
  _initialised (obj s) = true ->
  0 < _dirty_mask (obj s) < 2 ^ PX4_STORAGE_NUM_LINES ->
  mtd (world s) = Some dev -> PX4_STORAGE_SIZE <= len dev ->
  descriptor_ready io s ->
  io_lseek io = run_offset (_dirty_mask (obj s)) ->
  io_write io <> run_count (_dirty_mask (obj s)) ->
  io_open io' <> -1 ->
  io_lseek io' = run_offset (_dirty_mask (obj s)) ->
  io_write io' = run_count (_dirty_mask (obj s)) ->
  let mask := _dirty_mask (obj s) in
  exists s1 s2 dev2,
    _timer_tick io s = Ok (tt, s1) /\
    _dirty_mask (obj s1) = mask /\ _fd (obj s1) = -1 /\
    perf_errors (world s1) = perf_errors (world s) + 1 /\
    _timer_tick io' s1 = Ok (tt, s2) /\
    mtd (world s2) = Some dev2 /\ len dev2 = len dev /\
    slice dev2 (run_offset mask) (run_count mask)
    = slice (_buffer (obj s)) (run_offset mask) (run_count mask) /\
    _dirty_mask (obj s2) = Z.land mask (u32 (Z.lnot (run_mask mask))).
Proof.
  intros Hp Hwf Hini Hm Hdev Hsize Hfd Hseek Hwrite Hopen' Hseek' Hwrite'.
  cbn zeta.
  destruct (tick_write_fails io s dev Hp Hwf Hini Hm Hdev Hsize Hfd Hseek Hwrite)
    as (s1 & dev1 & Hrun1 & Hobj1 & Hdev1 & Hlen1 & Herr1).
  assert (Hwf1 : wf_state s1).
  { split; rewrite Hobj1; cbn [_buffer _dirty_mask]; apply Hwf. }
  assert (Hini1 : _initialised (obj s1) = true) by (rewrite Hobj1; reflexivity).
  assert (Hmask1 : _dirty_mask (obj s1) = _dirty_mask (obj s))
    by (rewrite Hobj1; reflexivity).
  assert (Hbuf1 : _buffer (obj s1) = _buffer (obj s))
    by (rewrite Hobj1; reflexivity).
  assert (Hfd1 : descriptor_ready io' s1).
  { unfold descriptor_ready. rewrite Hobj1. cbn [_fd]. exact Hopen'. }
  rewrite <- Hmask1 in Hm, Hseek', Hwrite'. rewrite <- Hlen1 in Hsize.
  destruct (tick_flushes io' s1 dev1 Hp Hwf1 Hini1 Hm Hdev1 Hsize Hfd1 Hseek' Hwrite')
    as (s2 & Hrun2 & Hdev2 & Hobj2 & _).
  cbn zeta in Hdev2, Hobj2. rewrite Hmask1, Hbuf1 in *.
  assert (Hmask : _dirty_mask (obj s) <> 0) by lia.
  assert (Hi : first_dirty (_dirty_mask (obj s)) <> PX4_STORAGE_NUM_LINES).
  { pose proof (first_dirty_found _ (lines_fit_mask Hp) Hm). lia. }
  destruct (dirty_run (_dirty_mask (obj s)) (first_dirty (_dirty_mask (obj s))))
    as [n wm] eqn:Erun.
  destruct (tick_selects_run s n wm Hp Hwf Hmask Hi Erun)
    as ((Hi0 & _) & (Hn1 & Hin & _) & _ & Hlen).
  assert (Hi1 : 0 <= first_dirty (_dirty_mask (obj s))) by lia.
  destruct (run_in_buffer _ n (shift_nonneg Hp) Hi1 Hn1 Hin) as (Hoff & Hcnt & Hend).
  exists s1, s2. eexists.
  split; [exact Hrun1 |]. split; [exact Hmask1 |].
  split; [rewrite Hobj1; reflexivity |]. split; [exact Herr1 |].
  split; [exact Hrun2 |]. split; [exact Hdev2 |].
  unfold run_offset, run_count, run_mask in *. rewrite Erun in *. cbn [fst snd] in *.
  split; [rewrite <- Hlen1; apply splice_length; lia |].
  split; [| rewrite Hobj2; reflexivity].
  match goal with
  | |- slice (splice _ ?off ?d) _ _ = _ =>
      pose proof (slice_splice dev1 off d Hoff) as Hs
  end.
  rewrite Hlen in Hs. apply Hs. lia.
Qed.

End FlushFacts.

(** ** From the first call to the device *)

Lemma slice_slice (a : list Z) (off m p k : Z) :
  0 <= off -> 0 <= p -> 0 <= k -> p + k <= m ->
  slice (slice a off m) p k = slice a (off + p) k.
Proof.
  intros Hoff Hp Hk Hin. unfold slice.
  rewrite skipn_firstn_comm, firstn_firstn, skipn_skipn.
  replace (Nat.min (Z.to_nat k) (Z.to_nat m - Z.to_nat p)) with (Z.to_nat k) by lia.
  replace (Z.to_nat p + Z.to_nat off)%nat with (Z.to_nat (off + p)) by lia.
  reflexivity.
Qed.

Lemma le_value_byte (x : Z) : le_value [x] = x.
Proof. cbn [le_value]. lia. Qed.

Section EndToEnd.

Context {params : StorageParams}.

(** X18.  The first read of a store loads the device and answers from it.
    On a store that was not opened and a device with the signature in
    place, [read_byte] returns the device's byte at [loc] and
    [read_block] the device's bytes from [loc] on, and they leave the
    store opened, with the region a copy of the head of the device. *)
Theorem first_read_loads_the_device (s : State) (dev : list Z) (loc : Z) :
  _initialised (obj s) = false ->
  len (_buffer (obj s)) = PX4_STORAGE_SIZE ->
  4 <= PX4_STORAGE_SIZE < 2 ^ 32 - 1 ->
  PX4_STORAGE_SIZE <= len dev ->
  MTD_SIGNATURE_OFFSET + 4 <= len dev ->
  mtd (world s) = Some dev ->
  le_value (slice dev MTD_SIGNATURE_OFFSET 4) = MTD_SIGNATURE ->
  0 <= loc ->
  (loc + 1 <= PX4_STORAGE_SIZE ->
   exists s', read_byte loc s = Ok (nth (Z.to_nat loc) dev 0, s') /\
     obj s' = loaded (obj s) dev /\ mtd (world s') = Some dev) /\
  (forall dst n, 0 <= n <= len dst -> loc + n <= PX4_STORAGE_SIZE ->
   exists s', read_block dst loc n s = Ok (splice dst 0 (slice dev loc n), s') /\
     obj s' = loaded (obj s) dev /\ mtd (world s') = Some dev).
Proof.
  intros Hini Hbuf Hsize Hdev Hsig_in Hmtd Hsig Hloc.
  destruct s as [o [m old tab errs tr]].
  cbn [obj world mtd] in *. subst m.
  destruct (storage_open_signed o dev old tab errs tr Hini Hbuf ltac:(lia) Hsig_in Hsig)
    as (s' & Hopen & Hobj & Hm & _).
  assert (Hlen : len (slice dev 0 PX4_STORAGE_SIZE) = PX4_STORAGE_SIZE)
    by (apply slice_length; lia).
  assert (Hread : forall k, 0 <= k -> loc + k <= PX4_STORAGE_SIZE ->
            buffer_read loc k s' = Ok (slice dev loc k, s')).
  { intros k Hk Hin. unfold buffer_read, bind, get_obj. rewrite Hobj.
    cbn [loaded _buffer]. rewrite mem_read_in_bounds by lia.
    rewrite slice_slice by lia. reflexivity. }
  split.
  - intros Hin. exists s'. split; [| split; assumption].
    unfold read_byte, sizeof_buffer.
    destruct (Z.leb_spec PX4_STORAGE_SIZE loc); [lia |].
    unfold bind at 1. rewrite Hopen. unfold bind. rewrite Hread by lia.
    unfold ret. rewrite byte_of_slice by lia. rewrite le_value_byte. reflexivity.
  - intros dst n Hn Hin. exists s'. split; [| split; assumption].
    unfold read_block. rewrite guard_block by lia.
    destruct (Z.leb_spec (PX4_STORAGE_SIZE + 1 - n) loc); [lia |].
    unfold bind at 1. rewrite Hopen. unfold bind. rewrite Hread by lia.
    unfold mem_write.
    assert (Hl : len (slice dev loc n) = n) by (apply slice_length; lia).
    rewrite Hl.
    destruct (Z.leb_spec 0 0); [| lia].
    destruct (Z.leb_spec (0 + n) (len dst)); [| lia].
    reflexivity.
Qed.

(** The mask with one line dirty: the run is that line. *)
Lemma single_line_run (line : Z) :
  params_ok -> 0 <= line < PX4_STORAGE_NUM_LINES ->
  first_dirty (2 ^ line) = line /\
  fst (dirty_run (2 ^ line) line) = 1 /\
  Z.land (2 ^ line) (u32 (Z.lnot (snd (dirty_run (2 ^ line) line)))) = 0.
Proof.
  intros Hp Hline. pose proof (lines_fit_mask Hp) as HN.
  assert (Hm : 0 < 2 ^ line < 2 ^ PX4_STORAGE_NUM_LINES).
  { split; [apply Z.pow_pos_nonneg; lia | apply Z.pow_lt_mono_r; lia]. }
  assert (Hu32 : is_u32 (2 ^ line)).
  { split; [lia |]. apply Z.pow_lt_mono_r; lia. }
  assert (Hfirst : first_dirty (2 ^ line) = line).
  { destruct (first_dirty_spec (2 ^ line) HN) as (Hr & _ & Hhit).
    pose proof (first_dirty_found (2 ^ line) HN Hm) as Hlt.
    specialize (Hhit Hlt). rewrite Z.pow2_bits_eqb in Hhit by lia.
    apply Z.eqb_eq in Hhit. symmetry. exact Hhit. }
  split; [exact Hfirst |].
  destruct (dirty_run (2 ^ line) line) as [n wm] eqn:Erun. cbn [fst snd].
  assert (Hbit : Z.testbit (2 ^ line) line = true).
  { rewrite Z.pow2_bits_eqb by lia. apply Z.eqb_refl. }
  assert (HN32 : PX4_STORAGE_NUM_LINES <= 32) by lia.
  destruct (dirty_run_spec (2 ^ line) line HN32 Hline Hbit n wm Erun)
    as (Hn1 & _ & _ & Hwm & Hdirty & _).
  assert (Hn : n = 1).
  { destruct (Z.eq_dec n 1) as [E | E]; [exact E | exfalso].
    assert (Hnext : line <= line + 1 < line + n) by lia.
    specialize (Hdirty (line + 1) Hnext).
    rewrite Z.pow2_bits_eqb in Hdirty by lia.
    apply Z.eqb_eq in Hdirty. lia. }
  split; [exact Hn |].
  apply Z.bits_inj'. intros j Hj.
  rewrite (clear_run_bits (2 ^ line) wm line n j Hu32 Hj Hwm), Z.bits_0.
  rewrite Z.pow2_bits_eqb by lia. subst n.
  destruct (Z.eqb_spec line j) as [E | E]; [| reflexivity].
  subst j. destruct (Z.leb_spec line line); [| lia].
  destruct (Z.ltb_spec line (line + 1)); [| lia]. reflexivity.
Qed.

(** [write_byte] of a new value on an opened, clean store: the byte is in
    the region and the line of [loc], and no other, is dirty. *)
Lemma write_byte_dirties_its_line (s : State) (loc v : Z) :
  params_ok ->
  PX4_STORAGE_SIZE = PX4_STORAGE_NUM_LINES * PX4_STORAGE_LINE_SIZE ->
  wf_state s ->
  _initialised (obj s) = true ->
  _dirty_mask (obj s) = 0 ->
  0 <= loc < PX4_STORAGE_SIZE ->
  byte_at s loc <> v ->
  write_byte loc v s
  = Ok (tt, mkState (mkObj (_fd (obj s)) true (_have_mtd (obj s))
                       (splice (_buffer (obj s)) loc [v])
                       (2 ^ Z.shiftr loc PX4_STORAGE_LINE_SHIFT))
              (world s)).
Proof.
  intros Hp Hwhole Hwf Hini Hclean Hloc Hne.
  pose proof (buffer_size s Hwf) as Hbuf.
  pose proof (shift_nonneg Hp) as Hs.
  pose proof (line_in_region loc Hs Hwhole Hloc) as Hline.
  unfold write_byte, sizeof_buffer.
  destruct (Z.leb_spec PX4_STORAGE_SIZE loc); [lia |].
  unfold bind at 1. unfold buffer_read, bind at 1, get_obj.
  rewrite mem_read_in_bounds by lia. unfold ret at 1.
  rewrite byte_of_slice by lia. rewrite le_value_byte.
  fold (byte_at s loc). apply Z.eqb_neq in Hne. rewrite Hne. cbn [negb].
  unfold bind at 1. rewrite (storage_open_initialised s Hini).
  unfold bind at 1, buffer_write, bind at 1, get_obj, mem_write.
  change (len [v]) with 1.
  destruct (Z.leb_spec 0 loc); [| lia].
  destruct (Z.leb_spec (loc + 1) (len (_buffer (obj s)))); [| lia].
  cbn [andb]. unfold modify_obj at 1.
  set (s1 := mkState (set_buffer (splice (_buffer (obj s)) loc [v]) (obj s)) (world s)).
  assert (Hmask1 : 0 <= _dirty_mask (obj s1) < 2 ^ PX4_STORAGE_NUM_LINES).
  { unfold s1. cbn [obj set_buffer _dirty_mask]. rewrite Hclean.
    split; [lia | apply Z.pow_pos_nonneg; lia]. }
  destruct (mark_dirty_result s1 loc 1 Hp Hwhole Hmask1) as (m & Hrun & Hm & Hbits);
    try lia.
  rewrite Hrun. f_equal. f_equal.
  assert (Em : m = 2 ^ Z.shiftr loc PX4_STORAGE_LINE_SHIFT).
  { apply Z.bits_inj'. intros j Hj. rewrite Z.pow2_bits_eqb by lia.
    pose proof (line_size_pos Hs) as Hl.
    destruct (Z.eqb_spec (Z.shiftr loc PX4_STORAGE_LINE_SHIFT) j) as [E | E].
    - apply Hbits; [exact Hj |]. right. exists 0.
      rewrite Z.mul_0_l, Z.add_0_r. repeat split; lia.
    - destruct (Z.testbit m j) eqn:Eb; [| reflexivity].
      apply Hbits in Eb; [| exact Hj].
      destruct Eb as [Hb | (k & Hk & Hklt & Hkj)].
      + unfold s1 in Hb. cbn [obj set_buffer _dirty_mask] in Hb.
        rewrite Hclean, Z.bits_0 in Hb.
        discriminate.
      + assert (k = 0) by nia. subst k.
        rewrite Z.mul_0_l, Z.add_0_r in Hkj. congruence. }
  rewrite Em. unfold s1, set_dirty_mask, set_buffer.
  cbn [obj world _fd _initialised _have_mtd _buffer].
  rewrite Hini. reflexivity.
Qed.

(** X19.  A byte written to an opened, clean store is on the device after
    one invocation of [_timer_tick] that meets no failure.  [write_byte]
    with a new value makes the line of [loc], and no other, dirty; the
    invocation seeks to the start of that line and writes the line, and
    then the device holds the value at [loc], the whole line as the
    region has it, and the mask is clear again. *)
Theorem written_byte_reaches_the_device (io : TickIO) (s : State) (dev : list Z)
    (loc v : Z) :
  params_ok ->
  PX4_STORAGE_SIZE = PX4_STORAGE_NUM_LINES * PX4_STORAGE_LINE_SIZE ->
  wf_state s ->
  _initialised (obj s) = true ->
  _dirty_mask (obj s) = 0 ->
  mtd (world s) = Some dev -> PX4_STORAGE_SIZE <= len dev ->
  descriptor_ready io s ->
  0 <= loc < PX4_STORAGE_SIZE -> 0 <= v < 256 ->
  byte_at s loc <> v ->
  let line := Z.shiftr loc PX4_STORAGE_LINE_SHIFT in
  let off := Z.shiftl line PX4_STORAGE_LINE_SHIFT in
  io_lseek io = off ->
  io_write io = PX4_STORAGE_LINE_SIZE ->
  exists s1 s2 dev2,
    write_byte loc v s = Ok (tt, s1) /\
    _dirty_mask (obj s1) = 2 ^ line /\
    _timer_tick io s1 = Ok (tt, s2) /\
    mtd (world s2) = Some dev2 /\
    nth (Z.to_nat loc) dev2 0 = v /\
    slice dev2 off PX4_STORAGE_LINE_SIZE
    = slice (_buffer (obj s2)) off PX4_STORAGE_LINE_SIZE /\
    _dirty_mask (obj s2) = 0.
Proof.
  intros Hp Hwhole Hwf Hini Hclean Hdev Hsize Hfd Hloc Hv Hne. cbn zeta.
  intros Hseek Hwrite.
  pose proof (buffer_size s Hwf) as Hbuf.
  pose proof (shift_nonneg Hp) as Hs.
  pose proof (line_size_pos Hs) as Hl.
  pose proof (line_in_region loc Hs Hwhole Hloc) as Hline.
  pose proof (write_byte_dirties_its_line s loc v Hp Hwhole Hwf Hini Hclean Hloc Hne)
    as Hw.
  set (line := Z.shiftr loc PX4_STORAGE_LINE_SHIFT) in *.
  set (buf1 := splice (_buffer (obj s)) loc [v]) in *.
  set (s1 := mkState (mkObj (_fd (obj s)) true (_have_mtd (obj s)) buf1 (2 ^ line))
               (world s)) in *.
  destruct (single_line_run line Hp Hline) as (Hfirst & Hn & Hzero).
  assert (Hlen1 : len buf1 = PX4_STORAGE_SIZE).
  { unfold buf1. rewrite splice_length; [exact Hbuf | lia |].
    change (len [v]) with 1. lia. }
  assert (Hm1 : 0 < 2 ^ line < 2 ^ PX4_STORAGE_NUM_LINES).
  { split; [apply Z.pow_pos_nonneg; lia | apply Z.pow_lt_mono_r; lia]. }
  assert (Hwf1 : wf_state s1).
  { split; unfold s1; cbn [obj _buffer _dirty_mask]; [exact Hlen1 |].
    split; [lia |]. apply Z.pow_lt_mono_r; destruct Hp as [_ HN _ _]; lia. }
  assert (Hoffset : run_offset (2 ^ line) = Z.shiftl line PX4_STORAGE_LINE_SHIFT).
  { unfold run_offset. rewrite Hfirst. reflexivity. }
  assert (Hcount : run_count (2 ^ line) = PX4_STORAGE_LINE_SIZE).
  { unfold run_count. rewrite Hfirst, Hn. reflexivity. }
  assert (Hrmask : Z.land (2 ^ line) (u32 (Z.lnot (run_mask (2 ^ line)))) = 0).
  { unfold run_mask. rewrite Hfirst. exact Hzero. }
  destruct (tick_flushes io s1 dev Hp Hwf1 eq_refl Hm1 Hdev Hsize Hfd)
    as (s2 & Hrun & Hdev2 & Hobj2 & _).
  { unfold s1. cbn [obj _dirty_mask]. rewrite Hoffset. exact Hseek. }
  { unfold s1. cbn [obj _dirty_mask]. rewrite Hcount. exact Hwrite. }
  cbn zeta in Hdev2, Hobj2. unfold s1 in Hdev2, Hobj2.
  cbn [obj _dirty_mask _buffer _have_mtd] in Hdev2, Hobj2.
  rewrite Hoffset, Hcount in Hdev2. rewrite Hrmask in Hobj2.
  assert (Hq : Z.shiftl line PX4_STORAGE_LINE_SHIFT <= loc
               < Z.shiftl line PX4_STORAGE_LINE_SHIFT + PX4_STORAGE_LINE_SIZE).
  { rewrite shiftl_lines by exact Hs. unfold line. rewrite line_of by exact Hs.
    assert (Hne0 : PX4_STORAGE_LINE_SIZE <> 0) by lia.
    pose proof (Z.div_mod loc PX4_STORAGE_LINE_SIZE Hne0) as Hdm.
    pose proof (Z.mod_pos_bound loc PX4_STORAGE_LINE_SIZE Hl) as Hmod. lia. }
  assert (Hend : Z.shiftl line PX4_STORAGE_LINE_SHIFT + PX4_STORAGE_LINE_SIZE
                 <= PX4_STORAGE_SIZE).
  { rewrite shiftl_lines by exact Hs. nia. }
  assert (Hoff0 : 0 <= Z.shiftl line PX4_STORAGE_LINE_SHIFT).
  { rewrite shiftl_lines by exact Hs. nia. }
  set (off := Z.shiftl line PX4_STORAGE_LINE_SHIFT) in *.
  assert (Hdata : len (slice buf1 off PX4_STORAGE_LINE_SIZE) = PX4_STORAGE_LINE_SIZE)
    by (apply slice_length; lia).
  exists s1, s2. eexists.
  split; [exact Hw |]. split; [reflexivity |]. split; [exact Hrun |].
  split; [exact Hdev2 |].
  split; [| split; [| rewrite Hobj2; reflexivity]].
  - assert (Hlen2 : len (splice dev off (slice buf1 off PX4_STORAGE_LINE_SIZE))
                    = len dev) by (apply splice_length; lia).
    assert (Hone : slice (splice dev off (slice buf1 off PX4_STORAGE_LINE_SIZE)) loc 1
                   = [v]).
    { replace loc with (off + (loc - off)) at 1 by lia.
      rewrite slice_splice_inside by lia.
      rewrite slice_slice by lia.
      replace (off + (loc - off)) with loc by lia.
      unfold buf1. apply (slice_splice (_buffer (obj s)) loc [v]); [lia |].
      change (len [v]) with 1. lia. }
    rewrite byte_of_slice in Hone by lia. inversion Hone. reflexivity.
  - rewrite Hobj2. cbn [_buffer].
    pose proof (slice_splice dev off (slice buf1 off PX4_STORAGE_LINE_SIZE) Hoff0)
      as Hsl.
    rewrite Hdata in Hsl. apply Hsl. lia.
Qed.

End EndToEnd.

(** ** The PX4 store: accessors, marking and flushes on [dirty_store] *)

Section PX4StoreRuns.

#[local] Existing Instance px4_params.

Lemma reads_return_the_region_witness :
  read_byte 0 dirty_store = Ok (1, dirty_store) /\
  read_dword 0 dirty_store = Ok (1, dirty_store) /\
  read_block [9; 9; 9] 0 2 dirty_store = Ok ([1; 0; 9], dirty_store).
Proof.
  destruct (reads_return_the_region dirty_store 0) as (Hb & _ & Hd & Hblock).
  - vm_compute. intuition discriminate.
  - vm_compute. reflexivity.
  - reflexivity.
  - lia.
  - split; [apply Hb; vm_compute; discriminate |].
    split; [apply Hd; vm_compute; discriminate |].
    apply (Hblock [9; 9; 9] 2); vm_compute; intuition discriminate.
Defined.

Lemma scalar_write_then_read_witness :
  (exists s', write_byte 10 7 dirty_store = Ok (tt, s') /\
              read_byte 10 s' = Ok (7, s')) /\
  (exists s', write_word 10 70000 dirty_store = Ok (tt, s') /\
              read_word 10 s' = Ok (4464, s')).
Proof.
  destruct (scalar_write_then_read dirty_store 10 7) as (Hb & _).
  1, 2: split; vm_compute; intuition discriminate.
  1: vm_compute; discriminate.
  1: reflexivity.
  1: lia.
  destruct (scalar_write_then_read dirty_store 10 70000) as (_ & Hw & _).
  1, 2: split; vm_compute; intuition discriminate.
  1: vm_compute; discriminate.
  1: reflexivity.
  1: lia.
  split.
  - apply Hb; [vm_compute; discriminate | lia].
  - apply Hw. vm_compute. discriminate.
Defined.

Lemma write_block_is_local_witness :
  exists s', write_block 10 [7; 8; 9] 3 dirty_store = Ok (tt, s') /\
    byte_at s' 11 = 8 /\ byte_at s' 0 = 1.
Proof.
  destruct (write_block_is_local dirty_store 10 3 [7; 8; 9])
    as (s' & Hrun & _ & _ & Hin & Hout).
  1, 2: split; vm_compute; intuition discriminate.
  1: reflexivity.
  1, 2: lia.
  1, 2: vm_compute; discriminate.
  exists s'. split; [exact Hrun |]. split.
  - apply (Hin 1). lia.
  - rewrite (Hout 0); [reflexivity | vm_compute; intuition discriminate | lia].
Defined.

Lemma identical_write_is_no_op_witness :
  write_byte 0 1 dirty_store = Ok (tt, dirty_store) /\
  write_block 0 [1; 0; 0] 3 dirty_store = Ok (tt, dirty_store).
Proof.
  destruct (identical_write_is_no_op dirty_store 0 1 3 [1; 0; 0]
              (mkTickIO 7 0 256 0)) as (Hb & _ & _ & Hblock).
  - vm_compute. intuition discriminate.
  - vm_compute. reflexivity.
  - lia.
  - split; [apply Hb; [vm_compute; discriminate | reflexivity] |].
    apply Hblock; [lia | vm_compute; discriminate | reflexivity].
Defined.

Lemma mark_dirty_in_range_witness :
  exists m,
    _mark_dirty 300 200 dirty_store
    = Ok (tt, mkState (set_dirty_mask m (obj dirty_store)) (world dirty_store)) /\
    Z.testbit m 2 = true /\ Z.testbit m 0 = true.
Proof.
  destruct (mark_dirty_in_range dirty_store 300 200)
    as (m & Hrun & _ & Hkeep & Hfirst & _).
  - split; vm_compute; intuition discriminate.
  - reflexivity.
  - vm_compute. intuition discriminate.
  - lia.
  - lia.
  - vm_compute. discriminate.
  - exists m. split; [exact Hrun |]. split.
    + apply Hfirst. lia.
    + apply Hkeep; [lia | reflexivity].
Defined.

Lemma operations_keep_the_store_sound_witness :
  exists s',
    run_ops [OpCall (CallWriteByte 200 7); OpTick (mkTickIO 7 0 256 0);
             OpCall (CallReadWord 0)] dirty_store = Ok (tt, s') /\
    store_inv s'.
Proof.
  assert (Hrun : { s' | run_ops [OpCall (CallWriteByte 200 7);
                                 OpTick (mkTickIO 7 0 256 0);
                                 OpCall (CallReadWord 0)] dirty_store
                        = Ok (tt, s') }).
  { eexists. vm_compute. reflexivity. }
  destruct Hrun as [s' Hrun]. exists s'. split; [exact Hrun |].
  refine (proj1 (proj2 (operations_keep_the_store_sound _ dirty_store s' _ _ _ Hrun))).
  - split; vm_compute; intuition discriminate.
  - reflexivity.
  - split; [split | split]; vm_compute; intuition discriminate.
Defined.

Lemma successful_flush_stores_the_run_witness :
  exists s' dev',
    _timer_tick (mkTickIO 7 0 256 0) dirty_store = Ok (tt, s') /\
    mtd (world s') = Some dev' /\
    slice dev' 0 256 = slice (_buffer (obj dirty_store)) 0 256 /\
    _dirty_mask (obj s') < 51.
Proof.
  destruct (successful_flush_stores_the_run (mkTickIO 7 0 256 0) dirty_store
              signed_device)
    as (s' & dev' & Hrun & Hdev & _ & Hbytes & _ & _ & _ & _ & Hless).
  1, 2: split; vm_compute; intuition discriminate.
  1: reflexivity.
  1: vm_compute; intuition discriminate.
  1: reflexivity.
  1: vm_compute; discriminate.
  1: vm_compute; discriminate.
  1, 2: reflexivity.
  exists s', dev'. split; [exact Hrun |]. split; [exact Hdev |].
  split; [exact Hbytes | apply Hless].
Defined.

Lemma sync_failure_is_not_retried_witness :
  exists s',
    _timer_tick (mkTickIO 7 0 256 1)
      (mkState (set_dirty_mask 3 (obj dirty_store)) world_signed) = Ok (tt, s') /\
    _fd (obj s') = -1 /\ _dirty_mask (obj s') = 0 /\
    _timer_tick (mkTickIO 8 0 256 0) s' = Ok (tt, s').
Proof.
  destruct (sync_failure_is_not_retried (mkTickIO 7 0 256 1) (mkTickIO 8 0 256 0)
              (mkState (set_dirty_mask 3 (obj dirty_store)) world_signed)
              signed_device)
    as (s' & Hrun & Hfd & Hmask & _ & _ & Hnext).
  1, 2: split; vm_compute; intuition discriminate.
  1: reflexivity.
  1: vm_compute; intuition discriminate.
  1: reflexivity.
  1: vm_compute; discriminate.
  1: vm_compute; discriminate.
  1, 2, 3: reflexivity.
  1: vm_compute; discriminate.
  exists s'. repeat split; assumption.
Defined.

Lemma tick_open_failure_counts_an_error_witness :
  exists s',
    _timer_tick (mkTickIO (-1) 0 256 0) dirty_store = Ok (tt, s') /\
    obj s' = obj dirty_store /\ perf_errors (world s') = 1.
Proof.
  destruct (tick_open_failure_counts_an_error (mkTickIO (-1) 0 256 0) dirty_store)
    as (s' & Hrun & Hobj & _ & _ & Herr & _).
  - reflexivity.
  - vm_compute. discriminate.
  - reflexivity.
  - reflexivity.
  - exists s'. repeat split; assumption.
Defined.

Lemma failed_write_is_retried_witness :
  exists s1 s2 dev2,
    _timer_tick (mkTickIO 7 0 100 0) dirty_store = Ok (tt, s1) /\
    _dirty_mask (obj s1) = 51 /\
    _timer_tick (mkTickIO 8 0 256 0) s1 = Ok (tt, s2) /\
    mtd (world s2) = Some dev2 /\
    slice dev2 0 256 = slice (_buffer (obj dirty_store)) 0 256.
Proof.
  destruct (failed_write_is_retried (mkTickIO 7 0 100 0) (mkTickIO 8 0 256 0)
              dirty_store signed_device)
    as (s1 & s2 & dev2 & Hrun1 & Hmask & _ & _ & Hrun2 & Hdev & _ & Hbytes & _).
  1, 2: split; vm_compute; intuition discriminate.
  1: reflexivity.
  1: vm_compute; intuition discriminate.
  1: reflexivity.
  1: vm_compute; discriminate.
  1: vm_compute; discriminate.
  1: reflexivity.
  1: vm_compute; discriminate.
  1: vm_compute; discriminate.
  1, 2: reflexivity.
  exists s1, s2, dev2. repeat split; assumption.
Defined.

Lemma first_read_loads_the_device_witness :
  exists s', read_byte 0 (boot world_signed) = Ok (5, s') /\
    _initialised (obj s') = true.
Proof.
  destruct (first_read_loads_the_device (boot world_signed) signed_device 0)
    as (Hb & _).
  - reflexivity.
  - vm_compute. reflexivity.
  - vm_compute. intuition discriminate.
  - vm_compute. discriminate.
  - vm_compute. discriminate.
  - reflexivity.
  - vm_compute. reflexivity.
  - lia.
  - destruct Hb as (s' & Hrun & Hobj & _); [vm_compute; discriminate |].
    exists s'. split; [exact Hrun |]. rewrite Hobj. reflexivity.
Defined.

Lemma written_byte_reaches_the_device_witness :
  exists s1 s2 dev2,
    write_byte 200 7 (mkState (set_dirty_mask 0 (obj dirty_store)) world_signed)
    = Ok (tt, s1) /\
    _dirty_mask (obj s1) = 2 /\
    _timer_tick (mkTickIO 7 128 128 0) s1 = Ok (tt, s2) /\
    mtd (world s2) = Some dev2 /\
    nth 200 dev2 0 = 7 /\ _dirty_mask (obj s2) = 0.
Proof.
  destruct (written_byte_reaches_the_device (mkTickIO 7 128 128 0)
              (mkState (set_dirty_mask 0 (obj dirty_store)) world_signed)
              signed_device 200 7)
    as (s1 & s2 & dev2 & Hw & Hm1 & Hrun & Hdev & Hbyte & _ & Hm2).
  - split; vm_compute; intuition discriminate.
  - reflexivity.
  - split; vm_compute; intuition discriminate.
  - reflexivity.
  - reflexivity.
  - reflexivity.
  - vm_compute. discriminate.
  - vm_compute. discriminate.
  - vm_compute. intuition discriminate.
  - lia.
  - vm_compute. discriminate.
  - reflexivity.
  - reflexivity.
  - exists s1, s2, dev2. repeat split; assumption.
Defined.

End PX4StoreRuns.
